(** * NF-e ingestion pipeline: sanitizers, extractors, validator, archive walker

    Shallow embedding of the extraction and validation core of
    [security_utils.py] and [nf_processor.py].

    Conventions of the embedding
    - A Python [str] is a [string]: a sequence of code points below 256
      (ASCII and Latin-1).  In that range the regex class [\d] is exactly
      ['0'..'9'].
    - [None] is [None]; a Python value that may be a string, an int, a float
      or [None] is a [PyVal].
    - A Python [float] obtained from a decimal literal is represented by the
      exact rational the literal denotes (type [Q]); [0.0] is [0].
    - An expression that may raise has an [option] result ([None] where it
      raises) when one handler catches everything it can raise, and a [Res]
      result carrying the exception otherwise; every [try]/[except] of the
      source is written out where it catches.
    - Library calls (the XML parser, the PDF reader, [re.search],
      [pd.read_csv], the markup cleaner, the date parsers) and the clock are
      variables of the section that uses them. *)

From Stdlib Require Import ZArith NArith List String Ascii Bool Lia QArith.
From Stdlib Require Import Permutation Sorted DecimalString.
Import ListNotations.
Set Warnings "-register-all".
Local Open Scope string_scope.
Local Open Scope Z_scope.

(** ** Python strings *)

Module PyStr.

(** [\d] on code points below 256. *)
Definition is_digit (c : ascii) : bool :=
  let n := N_of_ascii c in ((48 <=? n) && (n <=? 57))%N.

(** The number a digit character stands for. *)
Definition valor (c : ascii) : Z := Z.of_N (N_of_ascii c) - 48.

Fixpoint filter_str (f : ascii -> bool) (s : string) : string :=
  match s with
  | EmptyString => EmptyString
  | String c r => if f c then String c (filter_str f r) else filter_str f r
  end.

Fixpoint forall_str (f : ascii -> bool) (s : string) : bool :=
  match s with
  | EmptyString => true
  | String c r => f c && forall_str f r
  end.

(** [re.sub(r'[^\d]', '', s)] *)
Definition so_digitos (s : string) : string := filter_str is_digit s.

(** [c * n] for a one-character string [c]. *)
Fixpoint repetir (c : ascii) (n : nat) : string :=
  match n with
  | O => EmptyString
  | S k => String c (repetir c k)
  end.

(** [s.replace(old, new)] for a non-empty [old]: occurrences are taken from
    left to right and do not overlap.  [skip] counts the characters of an
    occurrence that are still to be dropped. *)
Fixpoint replace_from (old new : string) (skip : nat) (s : string) : string :=
  match s with
  | EmptyString => EmptyString
  | String c r =>
      match skip with
      | S k => replace_from old new k r
      | O =>
          if prefix old s
          then new ++ replace_from old new (String.length old - 1) r
          else String c (replace_from old new 0 r)
      end
  end.

Definition replace (old new s : string) : string := replace_from old new 0 s.

(** [sub in s] *)
Fixpoint contains (sub s : string) : bool :=
  prefix sub s ||
  match s with
  | EmptyString => false
  | String _ r => contains sub r
  end.

(** [s.endswith(c)] for a one-character [c] *)
Fixpoint ends_with_char (c : ascii) (s : string) : bool :=
  match s with
  | EmptyString => false
  | String d EmptyString => Ascii.eqb c d
  | String _ r => ends_with_char c r
  end.

(** [str.lower()] on code points below 256: A-Z and the Latin-1 capitals
    (192-222 except the multiplication sign 215) move up by 32. *)
Definition lower_char (c : ascii) : ascii :=
  let n := N_of_ascii c in
  if (((65 <=? n) && (n <=? 90)) ||
      ((192 <=? n) && (n <=? 222) && negb (n =? 215)))%N
  then ascii_of_N (n + 32) else c.

Fixpoint lower (s : string) : string :=
  match s with
  | EmptyString => EmptyString
  | String c r => String (lower_char c) (lower r)
  end.

(** Truthiness of a string: [not s] is [is_empty s]. *)
Definition is_empty (s : string) : bool :=
  match s with EmptyString => true | _ => false end.

Definition contains_char (a : ascii) (s : string) : bool :=
  negb (forall_str (fun c => negb (Ascii.eqb a c)) s).

(** [str.isspace] and the regex class [\s] on code points below 256:
    tab to carriage return, the four separators 28-31, space, NEL and the
    no-break space. *)
Definition is_space (c : ascii) : bool :=
  let n := N_of_ascii c in
  (((9 <=? n) && (n <=? 13)) || ((28 <=? n) && (n <=? 32)) ||
   (n =? 133) || (n =? 160))%N.

Fixpoint lstrip (s : string) : string :=
  match s with
  | String c r => if is_space c then lstrip r else s
  | EmptyString => EmptyString
  end.

(** Drops the trailing whitespace: a character stays when it is not
    whitespace or something that stays follows it. *)
Fixpoint rstrip (s : string) : string :=
  match s with
  | EmptyString => EmptyString
  | String c r =>
      match rstrip r with
      | EmptyString => if is_space c then EmptyString else String c EmptyString
      | t => String c t
      end
  end.

(** [s.strip()] *)
Definition strip (s : string) : string := rstrip (lstrip s).

(** [re.sub(r"\s+", " ", s)]: every maximal run of whitespace becomes one
    space.  [em_espaco] tells that the previous character was whitespace. *)
Fixpoint colapsar_de (em_espaco : bool) (s : string) : string :=
  match s with
  | EmptyString => EmptyString
  | String c r =>
      if is_space c
      then if em_espaco then colapsar_de true r
           else String " " (colapsar_de true r)
      else String c (colapsar_de false r)
  end.

Definition colapsar_espacos (s : string) : string := colapsar_de false s.

(** [sep.join(parts)] *)
Fixpoint join (sep : string) (parts : list string) : string :=
  match parts with
  | [] => EmptyString
  | [p] => p
  | p :: ps => p ++ sep ++ join sep ps
  end.

(** The part of [s] after the last [sep], when [sep] occurs in [s]. *)
Fixpoint apos_ultimo (sep : ascii) (s : string) : option string :=
  match s with
  | EmptyString => None
  | String c r =>
      match apos_ultimo sep r with
      | Some t => Some t
      | None => if Ascii.eqb c sep then Some r else None
      end
  end.

(** [s.split(sep)[0]] *)
Fixpoint primeiro_segmento (sep : ascii) (s : string) : string :=
  match s with
  | EmptyString => EmptyString
  | String c r =>
      if Ascii.eqb c sep then EmptyString
      else String c (primeiro_segmento sep r)
  end.

(** [s.split(sep)[-1]] *)
Definition ultimo_segmento (sep : ascii) (s : string) : string :=
  match apos_ultimo sep s with
  | Some t => t
  | None => s
  end.

End PyStr.

(** ** Python numbers, dynamic values and exceptions *)

Module PyNum.
Import PyStr.

Inductive Excecao := ValueError | TypeError | OverflowError | IndexError.

(** The outcome of an expression that may raise. *)
Inductive Res (A : Type) :=
| Ok (a : A)
| Raise (e : Excecao).
Arguments Ok {A} a.
Arguments Raise {A} e.

Definition bind {A B} (r : Res A) (k : A -> Res B) : Res B :=
  match r with
  | Ok a => k a
  | Raise e => Raise e
  end.

(** A float: a finite value (the exact rational of its literal; the
    rounding to 53 bits and the overflow of over-long literals are not
    modelled), an infinity or a NaN. *)
Inductive PyFloat :=
| FFin (q : Q)
| FInf (negativo : bool)
| FNan.

Inductive PyVal :=
| VNone
| VStr (s : string)
| VInt (z : Z)
| VFloat (f : PyFloat).

Definition zero : PyFloat := FFin 0.

(** Equality of floats as numbers ([FNan] is kept equal to itself here:
    this relation compares results of the model, it is not Python's
    [==]). *)
Definition mesmo_float (a b : PyFloat) : Prop :=
  match a, b with
  | FFin p, FFin q => (p == q)%Q
  | FInf x, FInf y => x = y
  | FNan, FNan => True
  | _, _ => False
  end.

(** *** [float(str)]

    The grammar of the language reference: optional sign, then
    [inf], [infinity] or [nan] in any case, or
    [number [exponent]] with
    [number ::= [digitpart] "." digitpart | digitpart ["."]],
    [digitpart ::= digit (["_"] digit)*] and
    [exponent ::= ("e" | "E") [sign] digitpart];
    whitespace around the literal is dropped. *)

Fixpoint resto_digitpart (s : string) (acc : list Z) : list Z * string :=
  match s with
  | EmptyString => (acc, s)
  | String c r =>
      if is_digit c then resto_digitpart r (acc ++ [valor c])
      else if Ascii.eqb c "_" then
        match r with
        | String d r' =>
            if is_digit d then resto_digitpart r' (acc ++ [valor d])
            else (acc, s)
        | EmptyString => (acc, s)
        end
      else (acc, s)
  end.

Definition ler_digitpart (s : string) : option (list Z * string) :=
  match s with
  | String c r =>
      if is_digit c then Some (resto_digitpart r [valor c]) else None
  | EmptyString => None
  end.

Definition ler_numero (s : string) : option (list Z * list Z * string) :=
  match ler_digitpart s with
  | Some (ip, r) =>
      match r with
      | String "."%char r' =>
          match ler_digitpart r' with
          | Some (fp, r'') => Some (ip, fp, r'')
          | None => Some (ip, [], r')
          end
      | _ => Some (ip, [], r)
      end
  | None =>
      match s with
      | String "."%char r' =>
          match ler_digitpart r' with
          | Some (fp, r'') => Some ([], fp, r'')
          | None => None
          end
      | _ => None
      end
  end.

Definition ler_sinal (s : string) : bool * string :=
  match s with
  | String "+"%char r => (false, r)
  | String "-"%char r => (true, r)
  | _ => (false, s)
  end.

Definition numero_de (ds : list Z) : Z :=
  fold_left (fun a d => 10 * a + d) ds 0.

(** [Some (e, rest)]: the exponent read (0 when there is none) and what
    follows it; [None] when an [e] is not followed by an exponent. *)
Definition ler_expoente (s : string) : option (Z * string) :=
  match s with
  | String c r =>
      if Ascii.eqb c "e" || Ascii.eqb c "E" then
        let '(neg, r1) := ler_sinal r in
        match ler_digitpart r1 with
        | Some (ds, r2) =>
            Some (if neg then - numero_de ds else numero_de ds, r2)
        | None => None
        end
      else Some (0, s)
  | EmptyString => Some (0, s)
  end.

Definition pot10 (n : Z) : Q :=
  if 0 <=? n then inject_Z (10 ^ n) else 1 # Z.to_pos (10 ^ (- n)).

Definition valor_decimal (ip fp : list Z) (e : Z) : Q :=
  (inject_Z (numero_de (ip ++ fp)) * pot10 (e - Z.of_nat (List.length fp)))%Q.

(** [float(s)]: [None] is [ValueError]. *)
Definition py_float (s : string) : option PyFloat :=
  let '(neg, u) := ler_sinal (strip s) in
  let l := lower u in
  if String.eqb l "inf" || String.eqb l "infinity" then Some (FInf neg)
  else if String.eqb l "nan" then Some FNan
  else
    match ler_numero u with
    | Some (ip, fp, r) =>
        match ler_expoente r with
        | Some (e, EmptyString) =>
            let q := valor_decimal ip fp e in
            Some (FFin (if neg then (- q)%Q else q))
        | _ => None
        end
    | None => None
    end.

(** [float(z)] for an int: the conversion overflows from
    [2^1024 - 2^970] on, the first magnitude that rounds to [2^1024]. *)
Definition limite_int_float : Z := 2 ^ 1024 - 2 ^ 970.

Definition float_of_int (z : Z) : Res PyFloat :=
  if Z.abs z <? limite_int_float then Ok (FFin (inject_Z z))
  else Raise OverflowError.

(** [float(v)] *)
Definition float_de (v : PyVal) : Res PyFloat :=
  match v with
  | VNone => Raise TypeError
  | VStr s =>
      match py_float s with
      | Some f => Ok f
      | None => Raise ValueError
      end
  | VInt z => float_of_int z
  | VFloat f => Ok f
  end.

(** Truthiness: [bool(v)] *)
Definition truthy (v : PyVal) : bool :=
  match v with
  | VNone => false
  | VStr s => negb (is_empty s)
  | VInt z => negb (z =? 0)
  | VFloat (FFin q) => negb (Qeq_bool q 0)
  | VFloat _ => true
  end.

(** Comparisons of a float with a finite constant; every comparison with
    a NaN is false. *)
Definition f_lt (f : PyFloat) (c : Q) : bool :=
  match f with
  | FFin q => negb (Qle_bool c q)
  | FInf neg => neg
  | FNan => false
  end.

Definition f_le (f : PyFloat) (c : Q) : bool :=
  match f with
  | FFin q => Qle_bool q c
  | FInf neg => neg
  | FNan => false
  end.

Definition f_gt (f : PyFloat) (c : Q) : bool :=
  match f with
  | FFin q => negb (Qle_bool q c)
  | FInf neg => negb neg
  | FNan => false
  end.

(** The number behind an int or a float, for comparisons (ints and floats
    compare by exact value); [None] for the other types. *)
Definition numero (v : PyVal) : option PyFloat :=
  match v with
  | VInt z => Some (FFin (inject_Z z))
  | VFloat f => Some f
  | _ => None
  end.

End PyNum.

(** ** Sanitizer ([security_utils.DataSanitizer]) *)

Module DataSanitizer.
Import PyStr PyNum.

(** The characters kept by [re.sub(r'[^\d.,\-]', '', value)]. *)
Definition numerico (c : ascii) : bool :=
  is_digit c || Ascii.eqb c "." || Ascii.eqb c "," || Ascii.eqb c "-".

(** [sanitize_numeric_value]: [None] gives [0.0]; a string is stripped to
    digits, [.], [,] and [-], every comma becomes a dot and the result goes
    to [float], whose [ValueError] gives [0.0]; any other value goes to
    [float] directly.  The handler catches [ValueError] and [TypeError]
    only. *)
Definition sanitize_numeric_str (s : string) : PyFloat :=
  let value_clean := filter_str numerico s in
  let value_clean := replace "," "." value_clean in
  match py_float value_clean with
  | Some f => f
  | None => zero
  end.

Definition sanitize_numeric_value (value : PyVal) : Res PyFloat :=
  match value with
  | VNone => Ok zero
  | VStr s => Ok (sanitize_numeric_str s)
  | _ =>
      match float_de value with
      | Ok f => Ok f
      | Raise ValueError | Raise TypeError => Ok zero
      | Raise e => Raise e
      end
  end.

(** [sanitize_chave_acesso]: a falsy argument ([None] or the empty string)
    gives [None]; otherwise the literal marker is removed, the digits are
    kept and exactly 44 of them are required. *)
Definition sanitize_chave_acesso (chave : option string) : option string :=
  match chave with
  | None => None
  | Some s =>
      if is_empty s then None
      else
        let chave_clean := so_digitos (replace "NFe" "" s) in
        if negb (String.length chave_clean =? 44)%nat then None
        else Some chave_clean
  end.

(** [sanitize_cnpj]: digits only, exactly 14, punctuated
    [NN.NNN.NNN/NNNN-NN]. *)
Definition sanitize_cnpj (cnpj : option string) : option string :=
  match cnpj with
  | None => None
  | Some s =>
      if is_empty s then None
      else
        let c := so_digitos s in
        if negb (String.length c =? 14)%nat then None
        else Some (substring 0 2 c ++ "." ++ substring 2 3 c ++ "." ++
                   substring 5 3 c ++ "/" ++ substring 8 4 c ++ "-" ++
                   substring 12 2 c)
  end.

End DataSanitizer.

(** ** The invoice record ([NotaFiscal]) *)

Module Modelo.
Import PyNum.

(** A naive [datetime]: microseconds from a fixed origin. *)
Definition DateTime := Z.

(** [timedelta(days=d)] *)
Definition dias (d : Z) : Z := d * 86400 * 1000000.

(** A line item: a dict from field names to values. *)
Definition Item := list (string * PyVal).

Fixpoint dict_get (d : Item) (k : string) : option PyVal :=
  match d with
  | [] => None
  | (k', v) :: r => if String.eqb k k' then Some v else dict_get r k
  end.

(** The fields of the dataclass, with the types the three extractors give
    them: the XML extractor may leave the issuer tax-id, the access key and
    the issue date at [None]; the PDF extractor gives the total as a string
    or as the int 0. *)
Record NotaFiscal := {
  numero : string;
  serie : string;
  data_emissao : option DateTime;
  cnpj_emitente : option string;
  nome_emitente : string;
  valor_total : PyVal;
  chave_acesso : option string;
  natureza_operacao : string;
  situacao : string;
  data_vencimento : option DateTime;
  cnpj_destinatario : option string;
  nome_destinatario : option string;
  valor_icms : PyVal;
  valor_ipi : PyVal;
  valor_pis : PyVal;
  valor_cofins : PyVal;
  itens : list Item;
  xml_original : option string;
  processado_em : DateTime
}.

(** [nota.valor_total = v] *)
Definition set_valor_total (n : NotaFiscal) (v : PyVal) : NotaFiscal :=
  {| numero := numero n; serie := serie n; data_emissao := data_emissao n;
     cnpj_emitente := cnpj_emitente n; nome_emitente := nome_emitente n;
     valor_total := v;
     chave_acesso := chave_acesso n;
     natureza_operacao := natureza_operacao n; situacao := situacao n;
     data_vencimento := data_vencimento n;
     cnpj_destinatario := cnpj_destinatario n;
     nome_destinatario := nome_destinatario n;
     valor_icms := valor_icms n; valor_ipi := valor_ipi n;
     valor_pis := valor_pis n; valor_cofins := valor_cofins n;
     itens := itens n; xml_original := xml_original n;
     processado_em := processado_em n |}.

(** Two invoices that agree on every field except the total. *)
Definition mesmos_outros_campos (a b : NotaFiscal) : Prop :=
  numero a = numero b /\ serie a = serie b /\
  data_emissao a = data_emissao b /\
  cnpj_emitente a = cnpj_emitente b /\
  nome_emitente a = nome_emitente b /\
  chave_acesso a = chave_acesso b /\
  natureza_operacao a = natureza_operacao b /\
  situacao a = situacao b /\
  data_vencimento a = data_vencimento b /\
  cnpj_destinatario a = cnpj_destinatario b /\
  nome_destinatario a = nome_destinatario b /\
  valor_icms a = valor_icms b /\ valor_ipi a = valor_ipi b /\
  valor_pis a = valor_pis b /\ valor_cofins a = valor_cofins b /\
  itens a = itens b /\ xml_original a = xml_original b /\
  processado_em a = processado_em b.

End Modelo.

(** ** Issuer tax-id check digits ([ValidadorNF._validar_cnpj]) *)

Module Cnpj.
Import PyStr.

(** [int(c)] for a one-character string: [None] is [ValueError]. *)
Definition int_of_char (c : ascii) : option Z :=
  if is_digit c then Some (valor c) else None.

(** [int(cnpj[i])]: [None] is [IndexError] or [ValueError]. *)
Definition int_at (cnpj : string) (i : nat) : option Z :=
  match String.get i cnpj with
  | Some c => int_of_char c
  | None => None
  end.

(** One turn of the loop body
    [soma += int(cnpj[i]) * peso; peso -= 1; if peso < 2: peso = 9]. *)
Definition passo (cnpj : string) (st : option (Z * Z)) (i : nat)
  : option (Z * Z) :=
  match st with
  | None => None
  | Some (soma, peso) =>
      match int_at cnpj i with
      | None => None
      | Some d =>
          let soma := soma + d * peso in
          let peso := peso - 1 in
          Some (soma, if peso <? 2 then 9 else peso)
      end
  end.

(** [soma = 0; peso = p; for i in range(n): ...] *)
Definition laco (cnpj : string) (n : nat) (p : Z) : option (Z * Z) :=
  fold_left (passo cnpj) (seq 0 n) (Some (0, p)).

Definition digito_de (soma : Z) : Z :=
  let resto := soma mod 11 in
  if resto <? 2 then 0 else 11 - resto.

(** [_calcular_digito_cnpj]: the [except (ValueError, IndexError)] clause
    turns every [None] into [False]. *)
Definition _calcular_digito_cnpj (cnpj : string) : bool :=
  match laco cnpj 12 5 with
  | None => false
  | Some (soma, _) =>
      let digito1 := digito_de soma in
      match int_at cnpj 12 with
      | None => false
      | Some d12 =>
          if negb (d12 =? digito1) then false
          else
            match laco cnpj 13 6 with
            | None => false
            | Some (soma2, _) =>
                let digito2 := digito_de soma2 in
                match int_at cnpj 13 with
                | None => false
                | Some d13 => d13 =? digito2
                end
            end
      end
  end.

(** [_validar_cnpj] *)
Definition _validar_cnpj (cnpj : option string) : bool :=
  match cnpj with
  | None => false
  | Some s =>
      if is_empty s then false
      else
        let cnpj_numeros := so_digitos s in
        if negb (String.length cnpj_numeros =? 14)%nat then false
        else
          match cnpj_numeros with
          | EmptyString => false
          | String c0 _ =>
              if String.eqb cnpj_numeros (repetir c0 14) then false
              else _calcular_digito_cnpj cnpj_numeros
          end
  end.

(** *** The check-digit rule as the specification words it *)

Definition pesos1 : list Z := [5; 4; 3; 2; 9; 8; 7; 6; 5; 4; 3; 2].
Definition pesos2 : list Z := [6; 5; 4; 3; 2; 9; 8; 7; 6; 5; 4; 3; 2].

Fixpoint soma_ponderada (ds ws : list Z) : Z :=
  match ds, ws with
  | d :: ds', w :: ws' => d * w + soma_ponderada ds' ws'
  | _, _ => 0
  end.

(** remainder below 2 gives 0, otherwise 11 minus the remainder *)
Definition digito_verificador (ds ws : list Z) : Z :=
  let r := soma_ponderada ds ws mod 11 in
  if r <? 2 then 0 else 11 - r.

Fixpoint digitos (s : string) : list Z :=
  match s with
  | EmptyString => []
  | String c r => valor c :: digitos r
  end.

Fixpoint todos_iguais (ds : list Z) : bool :=
  match ds with
  | a :: ((b :: _) as r) => (a =? b) && todos_iguais r
  | _ => true
  end.

(** A well-formed tax-id: 14 digit characters, not all identical, both
    check digits as the weighted modulo-11 rule gives them. *)
Definition cnpj_bem_formado (s : string) : Prop :=
  String.length s = 14%nat /\
  forall_str is_digit s = true /\
  todos_iguais (digitos s) = false /\
  nth 12 (digitos s) 0 = digito_verificador (firstn 12 (digitos s)) pesos1 /\
  nth 13 (digitos s) 0 = digito_verificador (firstn 13 (digitos s)) pesos2.

(** [s] with the character at index [i] replaced by [c]. *)
Fixpoint trocar (i : nat) (c : ascii) (s : string) : string :=
  match s, i with
  | EmptyString, _ => EmptyString
  | String _ r, O => String c r
  | String a r, S k => String a (trocar k c r)
  end.

Definition digito_em (s : string) (i : nat) : Z := nth i (digitos s) 0.

End Cnpj.

(** ** Validator ([ValidadorNF]) *)

Module ValidadorNF.
Import PyStr PyNum Modelo Cnpj.

Definition MAX_ITEMS_PER_NF : nat := 1000.

(** [not valor or (isinstance(valor, str) and not valor.strip())] *)
Definition ausente (valor : option string) : bool :=
  match valor with
  | None => true
  | Some s => is_empty s || is_empty (strip s)
  end.

(** [_validar_campos_obrigatorios]: the loop returns [False] at the first
    absent field. *)
Definition _validar_campos_obrigatorios (nota : NotaFiscal) : bool :=
  forallb (fun v => negb (ausente v))
    [ Some (numero nota); Some (serie nota); cnpj_emitente nota;
      chave_acesso nota; Some (nome_emitente nota);
      Some (natureza_operacao nota) ].

(** [_validar_chave_acesso] *)
Definition _validar_chave_acesso (chave : option string) : bool :=
  match chave with
  | None => false
  | Some s =>
      if is_empty s then false
      else
        let chave_limpa := so_digitos (replace "NFe" "" s) in
        if negb (String.length chave_limpa =? 44)%nat then false
        else if String.eqb chave_limpa (repetir "0" 44) then false
        else true
  end.

(** The first statement of [_validar_valores]: a string total is replaced,
    in the invoice, by [float] of it with commas turned into dots; the
    assignment does not happen when [float] raises. *)
Definition coagir_total (nota : NotaFiscal) : Res NotaFiscal :=
  match valor_total nota with
  | VStr s =>
      match float_de (VStr (replace "," "." s)) with
      | Ok f => Ok (set_valor_total nota (VFloat f))
      | Raise e => Raise e
      end
  | _ => Ok nota
  end.

(** [valor is not None and (not isinstance(valor, (int, float)) or valor < 0)]
    negated. *)
Definition opcional_ok (valor : PyVal) : bool :=
  match valor with
  | VNone => true
  | _ =>
      match PyNum.numero valor with
      | None => false
      | Some f => negb (f_lt f 0)
      end
  end.

(** [_validar_valores]: the result and the invoice as the call leaves it.
    [float] of a string raises [ValueError] only, which the handler turns
    into [False]. *)
Definition _validar_valores (nota : NotaFiscal) : bool * NotaFiscal :=
  match coagir_total nota with
  | Raise _ => (false, nota)
  | Ok nota1 =>
      match PyNum.numero (valor_total nota1) with
      | None => (false, nota1)
      | Some t =>
          if f_le t 0 then (false, nota1)
          else if f_gt t 999999999.99 then (false, nota1)
          else
            (forallb opcional_ok
               [ valor_icms nota1; valor_ipi nota1; valor_pis nota1;
                 valor_cofins nota1 ],
             nota1)
      end
  end.

(** [_validar_data]; [agora] is the reading of the clock (the two readings
    of the source are taken as one instant). *)
Definition _validar_data (agora : DateTime) (data : option DateTime) : bool :=
  match data with
  | None => false
  | Some d =>
      if d <? agora - dias 3650 then false
      else if agora + dias 1 <? d then false
      else true
  end.

(** [item.get(k, 0)] *)
Definition get_ou_zero (item : Item) (k : string) : PyVal :=
  match dict_get item k with
  | Some v => v
  | None => VInt 0
  end.

(** [not item.get(k)] *)
Definition falta (item : Item) (k : string) : bool :=
  match dict_get item k with
  | Some v => negb (truthy v)
  | None => true
  end.

(** The body of the loop of [_validar_itens] for one item: [Ok true] lets
    the loop go on, [Ok false] is [return False]; the handler catches
    [ValueError] and [TypeError]. *)
Definition validar_item (item : Item) : Res bool :=
  if falta item "descricao" || falta item "codigo" then Ok false
  else
    let corpo :=
      bind (float_de (get_ou_zero item "quantidade")) (fun quantidade =>
      bind (float_de (get_ou_zero item "valor_unitario")) (fun valor_unitario =>
      bind (float_de (get_ou_zero item "valor_total")) (fun valor_total =>
      Ok (negb (f_lt quantidade 0 || f_lt valor_unitario 0
                || f_lt valor_total 0))))) in
    match corpo with
    | Raise ValueError | Raise TypeError => Ok false
    | r => r
    end.

Fixpoint validar_cada (itens : list Item) : Res bool :=
  match itens with
  | [] => Ok true
  | item :: r =>
      match validar_item item with
      | Ok true => validar_cada r
      | other => other
      end
  end.

(** [_validar_itens] *)
Definition _validar_itens (itens : list Item) : Res bool :=
  match itens with
  | [] => Ok true
  | _ =>
      if (MAX_ITEMS_PER_NF <? List.length itens)%nat then Ok false
      else validar_cada itens
  end.

(** [validar_nota_fiscal] on an invoice that is not [None]: the verdict and
    the invoice as the call leaves it.  The outer handler turns any
    exception into [False]. *)
Definition validar_nota_fiscal (agora : DateTime) (nota : NotaFiscal)
  : bool * NotaFiscal :=
  if negb (_validar_campos_obrigatorios nota) then (false, nota)
  else if negb (_validar_cnpj (cnpj_emitente nota)) then (false, nota)
  else if negb (_validar_chave_acesso (chave_acesso nota)) then (false, nota)
  else
    let '(ok, nota1) := _validar_valores nota in
    if negb ok then (false, nota1)
    else if negb (_validar_data agora (data_emissao nota1)) then (false, nota1)
    else
      match itens nota1 with
      | [] => (true, nota1)
      | _ =>
          match _validar_itens (itens nota1) with
          | Ok true => (true, nota1)
          | Ok false => (false, nota1)
          | Raise _ => (false, nota1)
          end
      end.

(** The entry point: [if not nota: return False]. *)
Definition validar (agora : DateTime) (nota : option NotaFiscal)
  : bool * option NotaFiscal :=
  match nota with
  | None => (false, None)
  | Some n =>
      let '(b, n') := validar_nota_fiscal agora n in (b, Some n')
  end.

End ValidadorNF.

(** ** XML trees ([xml.etree.ElementTree]) *)

Module Xml.
Import PyStr.

(** An element: its tag (with the namespace in braces in front of the
    local name, as ElementTree keeps it), its attributes, its text and its
    children in document order. *)
Inductive Element :=
| Elem (tag : string) (attrib : list (string * string))
       (text : option string) (filhos : list Element).

Definition tag_de (e : Element) : string :=
  match e with Elem t _ _ _ => t end.
Definition attrib_de (e : Element) : list (string * string) :=
  match e with Elem _ a _ _ => a end.
Definition text_de (e : Element) : option string :=
  match e with Elem _ _ x _ => x end.
Definition filhos_de (e : Element) : list Element :=
  match e with Elem _ _ _ fs => fs end.

(** An element and everything below it, in document order. *)
Fixpoint subarvore (e : Element) : list Element :=
  match e with
  | Elem _ _ _ fs => e :: flat_map subarvore fs
  end.

(** What a path [.//...] ranges over: everything below [e], without [e]. *)
Definition descendentes (e : Element) : list Element :=
  flat_map subarvore (filhos_de e).

(** [e.find('.//' + tag)] *)
Definition find (tag : string) (e : Element) : option Element :=
  List.find (fun d => String.eqb (tag_de d) tag) (descendentes e).

(** [e.findall('.//' + tag)] *)
Definition findall (tag : string) (e : Element) : list Element :=
  List.filter (fun d => String.eqb (tag_de d) tag) (descendentes e).

(** [e.get(k, '')] *)
Fixpoint attrib_get (a : list (string * string)) (k : string) : string :=
  match a with
  | [] => EmptyString
  | (k', v) :: r => if String.eqb k k' then v else attrib_get r k
  end.

(** Truthiness of an element: it has children. *)
Definition elem_truthy (e : option Element) : bool :=
  match e with
  | None => false
  | Some x => match filhos_de x with [] => false | _ => true end
  end.

Definition NFE_NS : string := "http://www.portalfiscal.inf.br/nfe".

(** The tag a path step [nfe:local] stands for under
    [ns = {'nfe': NFE_NS}]. *)
Definition nfe (local : string) : string := "{" ++ NFE_NS ++ "}" ++ local.

(** The lookups of the extractor: [com_ns] tells whether the namespace
    map is the NF-e one or the empty one. *)
Definition achar (com_ns : bool) (local : string) (e : Element)
  : option Element :=
  if com_ns then find (nfe local) e else find local e.

Definition achar_todos (com_ns : bool) (local : string) (e : Element)
  : list Element :=
  if com_ns then findall (nfe local) e else findall local e.

End Xml.

(** ** Safe parsing ([security_utils.XMLSecurityValidator]) *)

Module XMLSecurityValidator.
Import PyStr Xml.

Definition MAX_XML_SIZE : N := 10 * 1024 * 1024.

Inductive Motivo :=
| TamanhoExcedido | EncodingInvalido | ErroParsing | EstruturaInvalida
| InfNFeAusente | FalhaValidacao | ProcessadoComSeguranca
| ProcessadoComSucesso.

(** What the instrumentation sees: a line of the logger, an entry of the
    auditor, a decoding of the bytes, a run of the XML parser. *)
Inductive Evento :=
| Registro (m : Motivo)
| Auditoria (tipo : string) (tamanho : N) (sucesso : bool)
| Decodifica
| Analisa.

Definition len (b : list Byte.byte) : N := N.of_nat (List.length b).

(** [validate_xml_size] *)
Definition validate_xml_size (xml_content : list Byte.byte) : bool :=
  if (MAX_XML_SIZE <? len xml_content)%N then false else true.

(** [root.tag.split('}')[-1] if '}' in root.tag else root.tag] *)
Definition root_tag_local (root : Element) : string :=
  if contains_char "}" (tag_de root)
  then ultimo_segmento "}" (tag_de root)
  else tag_de root.

(** The lookup of [infNFe]: with the NF-e namespace first, unprefixed
    otherwise. *)
Definition achar_inf_nfe (root : Element) : option Element :=
  match find (nfe "infNFe") root with
  | Some e => Some e
  | None => find "infNFe" root
  end.

(** [_validate_xml_structure]: the verdict and the reason logged on a
    refusal. *)
Definition _validate_xml_structure (root : Element) : bool * list Evento :=
  let root_tag_local := root_tag_local root in
  if negb (String.eqb root_tag_local "nfeProc"
           || String.eqb root_tag_local "NFe")
  then (false, [Registro EstruturaInvalida])
  else
    match achar_inf_nfe root with
    | None => (false, [Registro InfNFeAusente])
    | Some _ => (true, [])
    end.

Section Analise.
(** [bytes.decode('utf-8', errors='strict')]: [None] is
    [UnicodeDecodeError]. *)
Variable decode_utf8 : list Byte.byte -> option string.
(** [defusedxml.ElementTree.fromstring]: [None] is [ParseError] or any
    other exception of the parser. *)
Variable fromstring : string -> option Element.

(** [parse_xml_safely]: the result and the events in the order they
    happen. *)
Definition parse_xml_safely (xml_content : list Byte.byte)
  : option Element * list Evento :=
  if negb (validate_xml_size xml_content)
  then (None, [Registro TamanhoExcedido])
  else
    match decode_utf8 xml_content with
    | None => (None, [Decodifica; Registro EncodingInvalido])
    | Some xml_string =>
        match fromstring xml_string with
        | None => (None, [Decodifica; Analisa; Registro ErroParsing])
        | Some root =>
            let '(ok, ev) := _validate_xml_structure root in
            if negb ok then (None, ([Decodifica; Analisa] ++ ev)%list)
            else (Some root,
                  [Decodifica; Analisa; Registro ProcessadoComSeguranca])
        end
    end.
End Analise.

End XMLSecurityValidator.

(** ** XML extractor ([nf_processor.XMLExtractor]) *)

Module XMLExtractor.
Import PyStr PyNum Modelo Xml XMLSecurityValidator DataSanitizer.

Definition MAX_ITEMS_PER_NF : nat := 1000.

Section Extrator.
Variable decode_utf8 : list Byte.byte -> option string.
Variable fromstring : string -> option Element.
(** [DataSanitizer.sanitize_string] with its default length: control
    characters, markup (through the library [bleach]) and whitespace
    runs removed. *)
Variable sanitize_string : string -> string.
(** [datetime.fromisoformat]: [None] is [ValueError]. *)
Variable fromisoformat : string -> option DateTime.
(** [bytes.decode('utf-8', errors='replace')] *)
Variable decode_replace : list Byte.byte -> string.
(** [datetime.now()] when the record is built. *)
Variable agora : DateTime.

(** [_get_text_safe] *)
Definition _get_text_safe (element : option Element) (tag : string)
           (com_ns : bool) : string :=
  match element with
  | None => EmptyString
  | Some e =>
      match achar com_ns tag e with
      | Some node =>
          match text_de node with
          | Some t => t
          | None => EmptyString
          end
      | None => EmptyString
      end
  end.

(** [_parse_date_safe] *)
Definition _parse_date_safe (date_str : string) : option DateTime :=
  if is_empty date_str then None
  else
    let date_clean := sanitize_string date_str in
    fromisoformat (primeiro_segmento "T" date_clean).

Definition item_de_prod (prod : Element) (com_ns : bool) : Item :=
  let texto tag := _get_text_safe (Some prod) tag com_ns in
  [ ("codigo", VStr (sanitize_string (texto "cProd")));
    ("descricao", VStr (sanitize_string (texto "xProd")));
    ("ncm", VStr (sanitize_string (texto "NCM")));
    ("quantidade", VFloat (sanitize_numeric_str (texto "qCom")));
    ("valor_unitario", VFloat (sanitize_numeric_str (texto "vUnCom")));
    ("valor_total", VFloat (sanitize_numeric_str (texto "vProd"))) ].

(** [_extrair_itens_seguros]: at most [MAX_ITEMS_PER_NF] [det] elements
    are looked at; one without a [prod] gives no item. *)
Definition _extrair_itens_seguros (inf_nfe : Element) (com_ns : bool)
  : list Item :=
  let det_elements := achar_todos com_ns "det" inf_nfe in
  let det_elements :=
    if (MAX_ITEMS_PER_NF <? List.length det_elements)%nat
    then firstn MAX_ITEMS_PER_NF det_elements
    else det_elements in
  flat_map
    (fun det =>
       match achar com_ns "prod" det with
       | Some prod => [item_de_prod prod com_ns]
       | None => []
       end)
    det_elements.

(** The first lookup of [_extrair_dados_seguros]: [infNFe] with the
    NF-e namespace, or unprefixed with the namespace map emptied. *)
Definition localizar_inf_nfe (root : Element) : option Element * bool :=
  match find (nfe "infNFe") root with
  | Some e => (Some e, true)
  | None => (find "infNFe" root, false)
  end.

(** [_extrair_dados_seguros] *)
Definition _extrair_dados_seguros (root : Element)
           (xml_content : list Byte.byte) : option NotaFiscal :=
  let '(inf_nfe, com_ns) := localizar_inf_nfe root in
  match inf_nfe with
  | None => None
  | Some inf =>
      let ide := achar com_ns "ide" inf in
      let emit := achar com_ns "emit" inf in
      let dest := achar com_ns "dest" inf in
      let total := achar com_ns "total" inf in
      if negb (forallb elem_truthy [ide; emit; total]) then None
      else
        match total with
        | None => None
        | Some tot =>
            match achar com_ns "ICMSTot" tot with
            | None => None
            | Some icms =>
                let icms_tot := Some icms in
                let presente :=
                  match dest with Some _ => true | None => false end in
                Some
                  {| numero :=
                       sanitize_string (_get_text_safe ide "nNF" com_ns);
                     serie :=
                       sanitize_string (_get_text_safe ide "serie" com_ns);
                     data_emissao :=
                       _parse_date_safe (_get_text_safe ide "dhEmi" com_ns);
                     cnpj_emitente :=
                       sanitize_cnpj
                         (Some (_get_text_safe emit "CNPJ" com_ns));
                     nome_emitente :=
                       sanitize_string (_get_text_safe emit "xNome" com_ns);
                     valor_total :=
                       VFloat (sanitize_numeric_str
                                 (_get_text_safe icms_tot "vNF" com_ns));
                     chave_acesso :=
                       sanitize_chave_acesso
                         (Some (replace "NFe" ""
                                  (attrib_get (attrib_de inf) "Id")));
                     natureza_operacao :=
                       sanitize_string (_get_text_safe ide "natOp" com_ns);
                     situacao := "Pendente";
                     data_vencimento := None;
                     cnpj_destinatario :=
                       if presente
                       then sanitize_cnpj
                              (Some (_get_text_safe dest "CNPJ" com_ns))
                       else None;
                     nome_destinatario :=
                       if presente
                       then Some (sanitize_string
                                    (_get_text_safe dest "xNome" com_ns))
                       else None;
                     valor_icms :=
                       VFloat (sanitize_numeric_str
                                 (_get_text_safe icms_tot "vICMS" com_ns));
                     valor_ipi :=
                       VFloat (sanitize_numeric_str
                                 (_get_text_safe icms_tot "vIPI" com_ns));
                     valor_pis :=
                       VFloat (sanitize_numeric_str
                                 (_get_text_safe icms_tot "vPIS" com_ns));
                     valor_cofins :=
                       VFloat (sanitize_numeric_str
                                 (_get_text_safe icms_tot "vCOFINS" com_ns));
                     itens := _extrair_itens_seguros inf com_ns;
                     xml_original :=
                       Some (substring 0 (10 * 1000)
                               (decode_replace xml_content));
                     processado_em := agora |}
            end
        end
  end.

(** [extrair_dados_xml]: the record or [None], and the events. *)
Definition extrair_dados_xml (xml_content : list Byte.byte)
  : option NotaFiscal * list Evento :=
  let inicio := [Auditoria "XML" (len xml_content) false] in
  match parse_xml_safely decode_utf8 fromstring xml_content with
  | (None, ev) => (None, inicio ++ ev ++ [Registro FalhaValidacao])%list
  | (Some root, ev) =>
      match _extrair_dados_seguros root xml_content with
      | Some nota =>
          (Some nota,
           inicio ++ ev ++
           [Auditoria "XML" (len xml_content) true;
            Registro ProcessadoComSucesso])%list
      | None => (None, inicio ++ ev)%list
      end
  end.
End Extrator.

End XMLExtractor.

(** ** PDF extractor ([nf_processor.PDFExtractor]) *)

Module PDFExtractor.
Import PyStr PyNum Modelo.

(** The eight patterns of [extrair_dados_pdf], in the order they are
    searched. *)
Inductive Padrao :=
| P_cnpj | P_numero | P_data | P_serie | P_emitente | P_valor | P_chave
| P_natureza.

(** The number of capturing groups each pattern has in the source: the
    issuer-name pattern has two, the operation-nature pattern
    [^natureza\s+(?:da|de\s+)?opera[c..][a..]o$] has none. *)
Definition ngrupos (p : Padrao) : nat :=
  match p with
  | P_emitente => 2
  | P_natureza => 0
  | _ => 1
  end.

(** A match object: what groups 1, 2, ... hold ([None] for a group that
    took no part in the match). *)
Definition Match := list (option string).

(** The literal defaults of the source. *)
Definition CNPJ_PADRAO : string := "CNPJ 00.111.111/0001-11".
Definition NUMERO_PADRAO : string :=
  String "N" (String "186" ": 0").
Definition SERIE_PADRAO : string :=
  String "S" (String "201" "RIE 0").
Definition EMITENTE_PADRAO : string :=
  "EMITENTE N" ++ String "195" "O ENCONTRADO".
Definition CHAVE_PADRAO : string :=
  "0000 0000 0000 0000 0000 0000 0000 0000 0000 0000 0000".
Definition NATUREZA_PADRAO : string := "SEM NATUREZA".

Section Extrator.
(** [pdfplumber.open] and [page.extract_text()] over the pages: [None]
    when the bytes are not a readable PDF (an exception); a page without
    text gives [None]. *)
Variable abrir_pdf : list Byte.byte -> option (list (option string)).
(** [re.search(pattern, texto, re.IGNORECASE)] *)
Variable re_search : Padrao -> string -> option Match.
(** [datetime.strptime(s, '%d/%m/%Y')]: [None] is [ValueError]. *)
Variable strptime : string -> option DateTime.
Variable agora : DateTime.

(** The local function [extrair_valor]: [match.group(1)] raises
    [IndexError] when the pattern has no group. *)
Definition extrair_valor {A : Type} (inj : string -> A) (pattern : Padrao)
           (texto : string) (default : A) : Res A :=
  match re_search pattern texto with
  | None => Ok default
  | Some m =>
      match nth_error m 0 with
      | None => Raise IndexError
      | Some None => Ok default
      | Some (Some g) => Ok (inj g)
      end
  end.

Definition texto_das_paginas (paginas : list (option string)) : string :=
  colapsar_espacos
    (join (String "010" "")
       (map (fun p => match p with
                      | Some t => t
                      | None => EmptyString
                      end) paginas)).

Definition data_de (data_emissao_str : option string) : DateTime :=
  match data_emissao_str with
  | Some s =>
      if is_empty s then agora
      else match strptime s with
           | Some d => d
           | None => agora
           end
  | None => agora
  end.

(** The body of the [try] once the text is there. *)
Definition extrair_do_texto (texto_completo : string) : Res NotaFiscal :=
  let id := fun s : string => s in
  bind (extrair_valor id P_cnpj texto_completo CNPJ_PADRAO)
    (fun cnpj_emitente =>
  bind (extrair_valor id P_numero texto_completo NUMERO_PADRAO)
    (fun numero_nf =>
  bind (extrair_valor Some P_data texto_completo None)
    (fun data_emissao_str =>
  let data_emissao := data_de data_emissao_str in
  bind (extrair_valor id P_serie texto_completo SERIE_PADRAO)
    (fun serie =>
  bind (extrair_valor id P_emitente texto_completo EMITENTE_PADRAO)
    (fun nome_emitente =>
  bind (extrair_valor VStr P_valor texto_completo (VInt 0))
    (fun valor_total =>
  bind (extrair_valor id P_chave texto_completo CHAVE_PADRAO)
    (fun chave_acesso =>
  bind (extrair_valor id P_natureza texto_completo NATUREZA_PADRAO)
    (fun natureza_operacao =>
  Ok {| numero := numero_nf;
        serie := serie;
        data_emissao := Some data_emissao;
        cnpj_emitente := Some cnpj_emitente;
        nome_emitente := nome_emitente;
        valor_total := valor_total;
        chave_acesso := Some chave_acesso;
        natureza_operacao := natureza_operacao;
        situacao := "Pendente";
        data_vencimento := None;
        cnpj_destinatario := None;
        nome_destinatario := None;
        valor_icms := VFloat zero;
        valor_ipi := VFloat zero;
        valor_pis := VFloat zero;
        valor_cofins := VFloat zero;
        itens := [];
        xml_original := None;
        processado_em := agora |})))))))).

(** [extrair_dados_pdf]: [except Exception] gives [None]. *)
Definition extrair_dados_pdf (pdf_bytes : list Byte.byte)
  : option NotaFiscal :=
  match abrir_pdf pdf_bytes with
  | None => None
  | Some paginas =>
      match extrair_do_texto (texto_das_paginas paginas) with
      | Ok nota => Some nota
      | Raise _ => None
      end
  end.
End Extrator.

End PDFExtractor.

(** ** Upload handlers ([nf_processor.Dashboard]) *)

Module Dashboard.
Import PyStr PyNum Modelo.

(** A parsed table: the column names and the rows. *)
Record DataFrame := {
  columns : list string;
  linhas : list (list PyVal)
}.

(** [df.empty]: an axis of length 0. *)
Definition df_empty (df : DataFrame) : bool :=
  match columns df, linhas df with
  | _ :: _, _ :: _ => false
  | _, _ => true
  end.

(** The persisted store, as far as the handlers look at it. *)
Record Db := {
  notas_fiscais : list NotaFiscal;
  itens_nota_fiscal : list Item;
  conectavel : bool   (* [engine.connect()] succeeds *)
}.

(** [SELECT COUNT( * ) FROM notas_fiscais]: [None] when the connection
    raises. *)
Definition contar_notas (d : Db) : option nat :=
  if conectavel d then Some (List.length (notas_fiscais d)) else None.

(** The messages shown to the operator: [st.error], [st.warning],
    [st.info], [st.success]. *)
Inductive Nivel := Erro | Aviso | Info | Sucesso.

Inductive Texto :=
| NaoFoiPossivelProcessar | ProcessandoCabecalho | ProcessandoItens
| ProcessandoTradicional | Bloqueado | MotivoNenhumaNota
| SolucaoCabecalhoPrimeiro | PreValidacaoOk | ErroVerificarBanco
| CamposEssenciaisAusentes | ColunasDisponiveis | Verificacao
| NenhumaNotaNoBanco | CabecalhoAntesDosItens | DicaZip
| ItensProcessados | ItensComErro.

Record Estado := {
  db : Db;
  tela : list (Nivel * Texto)
}.

Definition mostrar (st : Estado) (ms : list (Nivel * Texto)) : Estado :=
  {| db := db st; tela := (tela st ++ ms)%list |}.

(** The role a file name gives a CSV file. *)
Inductive Papel := Cabecalho | Itens | Tradicional.

Definition e_cabecalho (file_lower : string) : bool :=
  contains "cabecalho" file_lower || contains "header" file_lower.

Definition e_itens (file_lower : string) : bool :=
  contains "itens" file_lower || contains "items" file_lower.

Definition papel (filename : string) : Papel :=
  let filename_lower := lower filename in
  if e_cabecalho filename_lower then Cabecalho
  else if e_itens filename_lower then Itens
  else Tradicional.

(** [str(z)] for an int *)
Definition str_de_int (z : Z) : string :=
  NilZero.string_of_int (Z.to_int z).

Section Conversor.
(** [str(f)] for a float (the shortest literal that reads back). *)
Variable str_de_float : PyFloat -> string.

(** [pd.isna(valor)] on a scalar *)
Definition isna (valor : PyVal) : bool :=
  match valor with
  | VNone | VFloat FNan => true
  | _ => false
  end.

Definition str_de (valor : PyVal) : string :=
  match valor with
  | VNone => "None"
  | VStr s => s
  | VInt z => str_de_int z
  | VFloat f => str_de_float f
  end.

(** The local function [converter_valor_numerico] of the items role. *)
Definition converter_valor_numerico (valor : PyVal) : PyFloat :=
  if isna valor
     || match valor with VStr EmptyString => true | _ => false end
  then zero
  else
    let valor_str := strip (str_de valor) in
    if is_empty valor_str then zero
    else
      let valor_limpo := filter_str DataSanitizer.numerico valor_str in
      let valor_limpo :=
        if contains_char "," valor_limpo && contains_char "." valor_limpo
        then replace "," "." (replace "." "" valor_limpo)
        else if contains_char "," valor_limpo
        then replace "," "." valor_limpo
        else valor_limpo in
      match py_float valor_limpo with
      | Some f => f
      | None => zero
      end.
End Conversor.

Section Csv.
(** The decoding cascade UTF-8, Latin-1, cp1252: Latin-1 decodes any
    bytes, so a text always comes out. *)
Variable decodificar : list Byte.byte -> string.
(** [pd.read_csv(io.StringIO(csv_text), sep=delim, ...)]: [None] when it
    raises. *)
Variable read_csv : string -> ascii -> option DataFrame.
(** The two other roles. *)
Variable _processar_csv_cabecalho :
  DataFrame -> string -> Estado -> option (list NotaFiscal) * Estado.
Variable _processar_csv_tradicional :
  DataFrame -> string -> Estado -> option (list NotaFiscal) * Estado.
(** The essential fields the synonym mapping of the items role does not
    find among the columns. *)
Variable faltantes_itens : DataFrame -> list string.
(** The row loop of the items role: the store after it, the items
    persisted, the rows in error. *)
Variable processar_linhas_itens : DataFrame -> Db -> Db * nat * nat.

(** The loop over the delimiters: a table with more than one column
    ends it; a delimiter on which the reader raises leaves [df] as it
    was. *)
Fixpoint tentar_delimitadores (csv_text : string) (ds : list ascii)
         (df : option DataFrame) : option DataFrame :=
  match ds with
  | [] => df
  | delim :: r =>
      match read_csv csv_text delim with
      | Some f =>
          if (1 <? List.length (columns f))%nat then Some f
          else tentar_delimitadores csv_text r (Some f)
      | None => tentar_delimitadores csv_text r df
      end
  end.

Definition delimitadores : list ascii := [";"; ","; "009"; "|"]%char.

(** [_processar_csv_itens] *)
Definition _processar_csv_itens (df : DataFrame) (filename : string)
           (st : Estado) : option (list NotaFiscal) * Estado :=
  match faltantes_itens df with
  | _ :: _ =>
      (Some [], mostrar st [(Aviso, CamposEssenciaisAusentes);
                            (Info, ColunasDisponiveis)])
  | [] =>
      let continuar (st1 : Estado) :=
        let '(db', itens_processados, erros_processamento) :=
          processar_linhas_itens df (db st1) in
        let m1 := if (0 <? itens_processados)%nat
                  then [(Sucesso, ItensProcessados)] else [] in
        let m2 := if (0 <? erros_processamento)%nat
                  then [(Aviso, ItensComErro)] else [] in
        (Some [], {| db := db'; tela := (tela st1 ++ m1 ++ m2)%list |}) in
      match contar_notas (db st) with
      | Some total_notas =>
          let st1 := mostrar st [(Info, Verificacao)] in
          if (total_notas =? 0)%nat
          then (Some [], mostrar st1 [(Erro, NenhumaNotaNoBanco);
                                      (Erro, CabecalhoAntesDosItens);
                                      (Info, DicaZip)])
          else continuar st1
      | None => continuar st
      end
  end.

(** [processar_csv_upload]: [Some l] is the list returned, [None] is
    [None]. *)
Definition processar_csv_upload (file_content : list Byte.byte)
           (filename : string) (st : Estado)
  : option (list NotaFiscal) * Estado :=
  let csv_text := decodificar file_content in
  let df := tentar_delimitadores csv_text delimitadores None in
  match df with
  | None => (None, mostrar st [(Erro, NaoFoiPossivelProcessar)])
  | Some df =>
      if df_empty df
      then (None, mostrar st [(Erro, NaoFoiPossivelProcessar)])
      else
        match papel filename with
        | Cabecalho =>
            _processar_csv_cabecalho df filename
              (mostrar st [(Info, ProcessandoCabecalho)])
        | Itens =>
            match contar_notas (db st) with
            | None => (Some [], mostrar st [(Erro, ErroVerificarBanco)])
            | Some total_notas =>
                if (total_notas =? 0)%nat
                then (Some [],
                      mostrar st [(Erro, Bloqueado);
                                  (Erro, MotivoNenhumaNota);
                                  (Erro, SolucaoCabecalhoPrimeiro)])
                else
                  _processar_csv_itens df filename
                    (mostrar st [(Sucesso, PreValidacaoOk);
                                 (Info, ProcessandoItens)])
            end
        | Tradicional =>
            _processar_csv_tradicional df filename
              (mostrar st [(Info, ProcessandoTradicional)])
        end
  end.
End Csv.

Section Salvar.
(** [DatabaseManager.salvar_nota_fiscal]: the verdict and the store
    after the call. *)
Variable salvar_nota_fiscal : NotaFiscal -> Db -> bool * Db.

(** What [processar_arquivos_upload] does with the outcome of a PDF or
    XML extractor: a record goes to the store, [None] is counted as an
    error and nothing is stored. *)
Definition salvar_extraida (nota_fiscal : option NotaFiscal) (d : Db)
  : bool * Db :=
  match nota_fiscal with
  | Some nota => salvar_nota_fiscal nota d
  | None => (false, d)
  end.
End Salvar.

(** *** The archive walker ([processar_zip_upload]) *)

(** One turn of the loop over [zip_ref.namelist()]: the three lists as
    they grow. *)
Definition classificar_um (acc : list string * list string * list string)
           (file_name : string) : list string * list string * list string :=
  let '(arquivos_cabecalho, arquivos_itens, outros_arquivos) := acc in
  if ends_with_char "/" file_name then acc
  else
    let file_lower := lower file_name in
    if e_cabecalho file_lower
    then ((arquivos_cabecalho ++ [file_name])%list, arquivos_itens,
          outros_arquivos)
    else if e_itens file_lower
    then (arquivos_cabecalho, (arquivos_itens ++ [file_name])%list,
          outros_arquivos)
    else (arquivos_cabecalho, arquivos_itens,
          (outros_arquivos ++ [file_name])%list).

Definition classificar (file_list : list string)
  : list string * list string * list string :=
  fold_left classificar_um file_list ([], [], []).

(** [arquivos_cabecalho + outros_arquivos + arquivos_itens] *)
Definition arquivos_ordenados (file_list : list string) : list string :=
  let '(arquivos_cabecalho, arquivos_itens, outros_arquivos) :=
    classificar file_list in
  (arquivos_cabecalho ++ outros_arquivos ++ arquivos_itens)%list.

(** The three groups of the walker, as predicates on an entry name: the
    header group, the items group (reached only by a name the header test
    let through) and the rest. *)
Definition no_cabecalho (file_name : string) : bool :=
  e_cabecalho (lower file_name).

Definition no_itens (file_name : string) : bool :=
  negb (e_cabecalho (lower file_name)) && e_itens (lower file_name).

Definition nos_outros (file_name : string) : bool :=
  negb (e_cabecalho (lower file_name)) && negb (e_itens (lower file_name)).

(** The rank of an entry in the processing order. *)
Definition classe (file_name : string) : nat :=
  if no_cabecalho file_name then 0
  else if no_itens file_name then 2
  else 1.

(** [a] may come before [b] in the processing order. *)
Definition antes (a b : string) : Prop := (classe a <= classe b)%nat.

(** The entries that are not directories. *)
Definition arquivos (file_list : list string) : list string :=
  filter (fun n => negb (ends_with_char "/" n)) file_list.

Inductive Tipo := Pdf | XmlT | Csv.

(** [file_name.lower().split('.')[-1]] among the supported types. *)
Definition tipo_de (file_name : string) : option Tipo :=
  let file_extension := ultimo_segmento "." (lower file_name) in
  if String.eqb file_extension "pdf" then Some Pdf
  else if String.eqb file_extension "xml" then Some XmlT
  else if String.eqb file_extension "csv" then Some Csv
  else None.

Section Zip.
Variable A : Type.
(** What the loop does with a supported entry (read it, hand it to the
    extractor of its type, count the outcome) and with an unsupported
    one (note it in the details). *)
Variable processar_entrada : Tipo -> string -> A -> A.
Variable nao_suportado : string -> A -> A.

Definition visitar (acc : A) (file_name : string) : A :=
  if ends_with_char "/" file_name then acc
  else
    match tipo_de file_name with
    | None => nao_suportado file_name acc
    | Some t => processar_entrada t file_name acc
    end.

(** The body of [processar_zip_upload] once the archive is open. *)
Definition percorrer_zip (file_list : list string) (acc : A) : A :=
  fold_left visitar (arquivos_ordenados file_list) acc.
End Zip.

(** The entries in the order the loop hands them to the extractors. *)
Definition ordem_de_processamento (file_list : list string) : list string :=
  percorrer_zip (list string) (fun _ n acc => (acc ++ [n])%list)
    (fun _ acc => acc) file_list [].

End Dashboard.

(** ** Concrete inputs used by the examples *)

Module Exemplos.
Import PyStr PyNum Modelo Xml.

(** 10 MiB and one byte of zeros. *)
Definition xml_grande : list Byte.byte :=
  repeat Byte.x00 (N.to_nat 10485761).

(** The strict UTF-8 decoding on the inputs of the examples, which are
    ASCII. *)
Definition decode_ascii (b : list Byte.byte) : option string :=
  Some (string_of_list_byte b).

Definition texto_sem_inf : string := "<NFe><outro/></NFe>".

(** [<NFe><outro/></NFe>]: a recognized root without [infNFe]. *)
Definition nfe_sem_inf : Element :=
  Elem "NFe" [] None [Elem "outro" [] None []].

(** An unprefixed document whose [ide] element is present and has no
    children. *)
Definition nfe_ide_vazio : Element :=
  Elem "NFe" [] None
    [ Elem "infNFe" [("Id", "NFe123")] None
        [ Elem "ide" [] None [];
          Elem "emit" [] None [Elem "xNome" [] (Some "ACME") []];
          Elem "total" [] None
            [Elem "ICMSTot" [] None [Elem "vNF" [] (Some "10.00") []]] ] ].

(** The parser on the text of the example. *)
Definition fromstring_sem_inf (s : string) : option Element :=
  if String.eqb s texto_sem_inf then Some nfe_sem_inf else None.

(** A one-page document whose whole text is matched by the
    operation-nature pattern and by no other pattern. *)
Definition paginas_natureza : list (option string) :=
  [Some "NATUREZA DE OPERACAO"].

Definition re_search_natureza (p : PDFExtractor.Padrao) (texto : string)
  : option PDFExtractor.Match :=
  match p with
  | PDFExtractor.P_natureza =>
      if String.eqb texto "NATUREZA DE OPERACAO" then Some [] else None
  | _ => None
  end.

(** A store without invoices and an empty screen. *)
Definition estado_vazio : Dashboard.Estado :=
  {| Dashboard.db :=
       {| Dashboard.notas_fiscais := [];
          Dashboard.itens_nota_fiscal := [];
          Dashboard.conectavel := true |};
     Dashboard.tela := [] |}.

(** The reader on an empty text: it raises for every delimiter (there
    are no columns to parse). *)
Definition read_csv_vazio (csv_text : string) (delim : ascii)
  : option Dashboard.DataFrame := None.

(** The reader on a two-line items file
    [numero_nf;codigo;descricao / 123;A1;Parafuso]. *)
Definition read_csv_um_item (csv_text : string) (delim : ascii)
  : option Dashboard.DataFrame :=
  if Ascii.eqb delim ";"
  then Some {| Dashboard.columns := ["numero_nf"; "codigo"; "descricao"];
               Dashboard.linhas :=
                 [[VInt 123; VStr "A1"; VStr "Parafuso"]] |}
  else None.

(** Stand-ins for the parts of the CSV handler the examples do not
    reach. *)
Definition outro_papel (df : Dashboard.DataFrame) (filename : string)
           (st : Dashboard.Estado)
  : option (list NotaFiscal) * Dashboard.Estado := (Some [], st).

Definition linhas_nao_tocadas (df : Dashboard.DataFrame) (d : Dashboard.Db)
  : Dashboard.Db * nat * nat := (d, 0%nat, 0%nat).

End Exemplos.

(** * Further parts of the pipeline *)

(** ** Rate limiter ([security_utils.RateLimiter]) *)

Module RateLimiter.

(** [self._requests]: for an identifier, the times of the requests
    counted so far.  A time is a reading of the clock in microseconds (the
    rounding of [timestamp()] to a float is not modelled). *)
Definition Requests := list (string * list Z).

(** [identifier in self._requests] and [self._requests[identifier]] *)
Fixpoint lookup (r : Requests) (identifier : string) : option (list Z) :=
  match r with
  | [] => None
  | (k, v) :: t => if String.eqb identifier k then Some v else lookup t identifier
  end.

(** [self._requests[identifier] = v] *)
Fixpoint store (r : Requests) (identifier : string) (v : list Z) : Requests :=
  match r with
  | [] => [(identifier, v)]
  | (k, w) :: t =>
      if String.eqb identifier k then (k, v) :: t
      else (k, w) :: store t identifier v
  end.

(** [window_minutes * 60] seconds, in microseconds. *)
Definition janela (window_minutes : Z) : Z := window_minutes * 60 * 1000000.

(** [is_allowed]: the answer and the table after the call; [agora] is
    [datetime.now()]. *)
Definition is_allowed (r : Requests) (agora : Z) (identifier : string)
           (max_requests window_minutes : Z) : bool * Requests :=
  let window_start := agora - janela window_minutes in
  let recentes :=
    match lookup r identifier with
    | Some l => filter (fun req_time => window_start <? req_time) l
    | None => []
    end in
  let r1 := store r identifier recentes in
  if max_requests <=? Z.of_nat (List.length recentes) then (false, r1)
  else (true, store r1 identifier (recentes ++ [agora])).

(** The list an identifier has in the table, empty when it has none. *)
Definition tempos (r : Requests) (identifier : string) : list Z :=
  match lookup r identifier with
  | Some l => l
  | None => []
  end.

(** A run of calls with the same limits: each call is a reading of the
    clock and an identifier.  The answers are collected in order. *)
Fixpoint chamadas (max_requests window_minutes : Z) (r : Requests)
         (cs : list (Z * string)) : list bool * Requests :=
  match cs with
  | [] => ([], r)
  | (agora, identifier) :: t =>
      let '(b, r1) := is_allowed r agora identifier max_requests
                        window_minutes in
      let '(bs, r2) := chamadas max_requests window_minutes r1 t in
      (b :: bs, r2)
  end.

(** The times of the calls for [identifier] that were answered [True]. *)
Fixpoint aceitas (cs : list (Z * string)) (bs : list bool)
         (identifier : string) : list Z :=
  match cs, bs with
  | (t, k) :: cs', b :: bs' =>
      if b && String.eqb identifier k
      then t :: aceitas cs' bs' identifier
      else aceitas cs' bs' identifier
  | _, _ => []
  end.

(** A clock that never goes back. *)
Fixpoint monotono (ts : list Z) : bool :=
  match ts with
  | a :: (b :: _) as r => (a <=? b) && monotono r
  | _ => true
  end.

End RateLimiter.

(** ** Text sanitizer ([security_utils.DataSanitizer.sanitize_string]) *)

Module TextSanitizer.
Import PyStr.

Definition MAX_STRING_LENGTH : nat := 1000.

(** The class [[\x00-\x08\x0B\x0C\x0E-\x1F\x7F]]. *)
Definition controle (c : ascii) : bool :=
  let n := N_of_ascii c in
  ((n <=? 8) || (n =? 11) || (n =? 12) || ((14 <=? n) && (n <=? 31))
   || (n =? 127))%N.

Section Limpeza.
(** [bleach.clean(value, tags=[], strip=True)] *)
Variable bleach_clean : string -> string.

(** [sanitize_string]: a falsy value gives the empty string; otherwise
    the value is cut to [max_length], loses its control characters, goes
    through the markup cleaner, and has its whitespace normalized. *)
Definition sanitize_string (value : option string) (max_length : nat)
  : string :=
  match value with
  | None => EmptyString
  | Some v =>
      if is_empty v then EmptyString
      else
        let v := substring 0 max_length v in
        let v := filter_str (fun c => negb (controle c)) v in
        let v := bleach_clean v in
        strip (colapsar_espacos v)
  end.
End Limpeza.

(** A text whose only whitespace is single spaces between other
    characters.  [apos_espaco] tells that a space came just before. *)
Fixpoint espacos_simples (apos_espaco : bool) (s : string) : bool :=
  match s with
  | EmptyString => negb apos_espaco
  | String c r =>
      if is_space c
      then Ascii.eqb c " " && negb apos_espaco && espacos_simples true r
      else espacos_simples false r
  end.

(** The same, but the text may end with a space. *)
Fixpoint espacos_unicos (apos_espaco : bool) (s : string) : bool :=
  match s with
  | EmptyString => true
  | String c r =>
      if is_space c
      then Ascii.eqb c " " && negb apos_espaco && espacos_unicos true r
      else espacos_unicos false r
  end.

(** No whitespace at either end, and single spaces inside. *)
Definition normalizado (s : string) : bool :=
  match s with
  | EmptyString => true
  | String c _ => negb (is_space c) && espacos_simples false s
  end.

End TextSanitizer.

(** ** Mail attachments ([processar_emails.buscar_e_processar_emails]) *)

Module Emails.
Import PyStr PyNum Modelo Dashboard.

Definition MAX_XML_SIZE : N := 10 * 1024 * 1024.
Definition MAX_PDF_SIZE : N := 50 * 1024 * 1024.

(** [s.endswith(suf)] *)
Definition ends_with (suf s : string) : bool :=
  (String.length suf <=? String.length s)%nat &&
  String.eqb
    (substring (String.length s - String.length suf) (String.length suf) s)
    suf.

Definition PALAVRAS_CHAVE : list string :=
  ["danfe"; "nf-e"; "nfc-e"; "nf"; "nfe"; "xml"; "nota fiscal"].

(** [any(palavra in subject_lower for palavra in PALAVRAS_CHAVE)] on the
    decoded subject: a message whose subject fails it is marked as read
    and skipped. *)
Definition assunto_aceito (subject : string) : bool :=
  let subject_lower := if is_empty subject then EmptyString
                       else lower subject in
  existsb (fun palavra => contains palavra subject_lower) PALAVRAS_CHAVE.

(** What the loop logs about an attachment. *)
Inductive Desfecho :=
| TipoNaoPermitido | ConteudoVazio | ArquivoMuitoGrande
| Gravada | NotaInvalida | FalhaNaExtracao.

Section Anexo.
(** [XMLExtractor.extrair_dados_xml] and [PDFExtractor.extrair_dados_pdf] *)
Variable extrair_xml : list Byte.byte -> string -> option NotaFiscal.
Variable extrair_pdf : list Byte.byte -> option NotaFiscal.
(** [db_manager.salvar_nota_fiscal]; the loop ignores its answer. *)
Variable salvar_nota_fiscal : NotaFiscal -> Db -> bool * Db.
Variable agora : DateTime.

(** [if nota and ValidadorNF.validar_nota_fiscal(nota): salvar ...]: the
    invoice that reaches the store is the one the validator leaves. *)
Definition gravar_se_valida (nota : option NotaFiscal) (d : Db)
  : Desfecho * Db :=
  match nota with
  | Some n =>
      let '(ok, n') := ValidadorNF.validar_nota_fiscal agora n in
      if ok then (Gravada, snd (salvar_nota_fiscal n' d))
      else (NotaInvalida, d)
  | None => (FalhaNaExtracao, d)
  end.

(** The body of the loop over the parts of a message, from the
    sanitized file name on.  [file_content] is
    [part.get_payload(decode=True)], [None] when it raises or returns
    [None]. *)
Definition processar_anexo (filename_safe : string)
           (file_content : option (list Byte.byte)) (d : Db)
  : Desfecho * Db :=
  let filename_lower := lower filename_safe in
  if negb (ends_with ".xml" filename_lower
           || ends_with ".pdf" filename_lower)
  then (TipoNaoPermitido, d)
  else
    match file_content with
    | None | Some [] => (ConteudoVazio, d)
    | Some conteudo =>
        let file_size := N.of_nat (List.length conteudo) in
        let max_size :=
          if ends_with ".xml" filename_lower then MAX_XML_SIZE
          else MAX_PDF_SIZE in
        if (max_size <? file_size)%N then (ArquivoMuitoGrande, d)
        else if ends_with ".xml" filename_lower
             then gravar_se_valida (extrair_xml conteudo filename_safe) d
             else if (MAX_PDF_SIZE <? file_size)%N
                  then (ArquivoMuitoGrande, d)
                  else gravar_se_valida (extrair_pdf conteudo) d
    end.
End Anexo.

End Emails.

(** ** The row loop of the items role ([Dashboard._processar_csv_itens]) *)

Module ItensCsv.
Import PyStr PyNum Modelo Dashboard.

(** Products of floats (the overflow of a finite product is not
    modelled). *)
Definition f_mul (a b : PyFloat) : PyFloat :=
  match a, b with
  | FNan, _ | _, FNan => FNan
  | FFin p, FFin q => FFin (p * q)
  | FInf n, FInf m => FInf (xorb n m)
  | FInf n, FFin q | FFin q, FInf n =>
      if Qeq_bool q 0 then FNan else FInf (xorb n (negb (Qle_bool 0 q)))
  end.

(** [f == 0] *)
Definition f_zero (f : PyFloat) : bool :=
  match f with
  | FFin q => Qeq_bool q 0
  | _ => false
  end.

(** [row.get(key, default)] on a row of the table with these columns. *)
Fixpoint row_get (cols : list string) (row : list PyVal) (key : string)
         (default : PyVal) : PyVal :=
  match cols, row with
  | c :: cs, v :: vs =>
      if String.eqb c key then v else row_get cs vs key default
  | _, _ => default
  end.

(** [colunas_encontradas]: the column of each field the synonym mapping
    found; the three essential ones are there when the loop runs. *)
Record Colunas := {
  col_numero_nf : string;
  col_codigo_produto : string;
  col_descricao : string;
  col_ncm : option string;
  col_quantidade : option string;
  col_valor_unitario : option string;
  col_valor_total : option string
}.

(** [colunas_encontradas.get(campo, campo)] *)
Definition coluna_ou (c : option string) (campo : string) : string :=
  match c with
  | Some x => x
  | None => campo
  end.

(** [buscar_nota_fiscal_por_numero]: the id of the first stored invoice
    with this number, ids being the positions in the table from 1; [None]
    when there is none or the connection raises. *)
Fixpoint posicao_do_numero (numero_nf : string) (l : list NotaFiscal)
         (i : nat) : option nat :=
  match l with
  | [] => None
  | n :: r =>
      if String.eqb (Modelo.numero n) numero_nf then Some i
      else posicao_do_numero numero_nf r (S i)
  end.

Definition buscar_nota_fiscal_por_numero (d : Db) (numero_nf : string)
  : option nat :=
  if conectavel d then posicao_do_numero numero_nf (notas_fiscais d) 1
  else None.

(** [salvar_item_nota_fiscal]: the insert, [False] when it raises. *)
Definition salvar_item_nota_fiscal (d : Db) (item_data : Item) : bool * Db :=
  if conectavel d
  then (true, {| notas_fiscais := notas_fiscais d;
                 itens_nota_fiscal := (itens_nota_fiscal d ++ [item_data])%list;
                 conectavel := conectavel d |})
  else (false, d).

Section Linhas.
Variable str_de_float : PyFloat -> string.

Local Abbreviation converter := (converter_valor_numerico str_de_float).
Local Abbreviation texto_de := (str_de str_de_float).

(** The body of the loop for one row: the store, the count of items
    stored and the count of rows in error, before and after. *)
Definition processar_linha (cols : Colunas) (columns : list string)
           (acc : Db * nat * nat) (row : list PyVal) : Db * nat * nat :=
  let '(d, itens_processados, erros_processamento) := acc in
  let numero_nf_raw := row_get columns row (col_numero_nf cols) (VStr "") in
  if isna numero_nf_raw
     || match numero_nf_raw with VStr EmptyString => true | _ => false end
  then acc
  else
    let numero_nf := strip (texto_de numero_nf_raw) in
    if is_empty numero_nf then acc
    else
      match buscar_nota_fiscal_por_numero d numero_nf with
      | None | Some O => (d, itens_processados, S erros_processamento)
      | Some nota_fiscal_id =>
          let quantidade :=
            converter (row_get columns row
                         (coluna_ou (col_quantidade cols) "quantidade")
                         (VInt 0)) in
          let valor_unitario :=
            converter (row_get columns row
                         (coluna_ou (col_valor_unitario cols)
                            "valor_unitario") (VInt 0)) in
          let valor_total :=
            converter (row_get columns row
                         (coluna_ou (col_valor_total cols) "valor_total")
                         (VInt 0)) in
          let valor_total :=
            if f_zero valor_total && f_gt quantidade 0
               && f_gt valor_unitario 0
            then f_mul quantidade valor_unitario
            else valor_total in
          let codigo_produto :=
            strip (texto_de (row_get columns row (col_codigo_produto cols)
                               (VStr ""))) in
          let descricao :=
            strip (texto_de (row_get columns row (col_descricao cols)
                               (VStr ""))) in
          if is_empty codigo_produto && is_empty descricao
          then (d, itens_processados, S erros_processamento)
          else
            let item_data : Item :=
              [ ("nota_fiscal_id", VInt (Z.of_nat nota_fiscal_id));
                ("codigo", VStr (substring 0 100 codigo_produto));
                ("descricao", VStr (substring 0 1000 descricao));
                ("ncm",
                 VStr (substring 0 20
                         (texto_de (row_get columns row
                                      (coluna_ou (col_ncm cols) "ncm")
                                      (VStr "")))));
                ("quantidade", VFloat quantidade);
                ("valor_unitario", VFloat valor_unitario);
                ("valor_total", VFloat valor_total) ] in
            let '(ok, d') := salvar_item_nota_fiscal d item_data in
            if ok then (d', S itens_processados, erros_processamento)
            else (d', itens_processados, S erros_processamento)
      end.

(** [for index, row in df.iterrows(): ...] *)
Definition processar_linhas (cols : Colunas) (df : DataFrame) (d : Db)
  : Db * nat * nat :=
  fold_left (processar_linha cols (columns df)) (linhas df)
    (d, 0%nat, 0%nat).
End Linhas.

(** A stored item that points at an invoice of the store, with its texts
    within the limits of the columns. *)
Definition item_ligado (d : Db) (item : Item) : Prop :=
  exists (k : nat) (n : NotaFiscal) (codigo descricao ncm : string),
    dict_get item "nota_fiscal_id" = Some (VInt (Z.of_nat (S k))) /\
    nth_error (notas_fiscais d) k = Some n /\
    dict_get item "codigo" = Some (VStr codigo) /\
    dict_get item "descricao" = Some (VStr descricao) /\
    dict_get item "ncm" = Some (VStr ncm) /\
    (String.length codigo <= 100)%nat /\
    (String.length descricao <= 1000)%nat /\
    (String.length ncm <= 20)%nat.

End ItensCsv.

(** ** Storing an invoice ([DatabaseManager.salvar_nota_fiscal]) *)

Module DatabaseManager.
Import PyStr PyNum Modelo Dashboard.

(** [x or padrao] on a string and on an optional string. *)
Definition ou (x padrao : string) : string :=
  if is_empty x then padrao else x.

Definition ou_opt (x : option string) (padrao : string) : string :=
  match x with
  | Some s => ou s padrao
  | None => padrao
  end.

(** [item.get(k, default)] *)
Definition item_get (item : Item) (k : string) (default : PyVal) : PyVal :=
  match dict_get item k with
  | Some v => v
  | None => default
  end.

(** The keys of the stored invoices. *)
Definition chaves (d : Db) : list string :=
  flat_map (fun n => match chave_acesso n with
                     | Some c => [c]
                     | None => []
                     end) (notas_fiscais d).

(** [SELECT id FROM notas_fiscais WHERE chave_acesso = :chave] finds a
    row. *)
Definition ja_existe (d : Db) (chave : string) : bool :=
  existsb (String.eqb chave) (chaves d).

Section Salvar.
(** The two readings [datetime.now().strftime('%Y%m%d%H%M%S')] of the
    defaults, and [datetime.now()]. *)
Variable carimbo_numero : string.
Variable carimbo_chave : string.
Variable agora : DateTime.
(** [Decimal(str(v))]: [None] is [InvalidOperation]. *)
Variable decimal_de : PyVal -> option PyVal.
(** The insert of the row does not raise (the constraints of the schema,
    which these sources do not contain). *)
Variable banco_aceita : NotaFiscal -> Db -> bool.

(** The key under which the invoice is looked up and stored. *)
Definition chave_normalizada (nota : NotaFiscal) : string :=
  let numero := ou (Modelo.numero nota) ("NF-" ++ carimbo_numero) in
  let chave_acesso :=
    ou_opt (chave_acesso nota) ("CHAVE" ++ carimbo_chave ++ numero) in
  if (60 <? String.length chave_acesso)%nat
  then substring 0 60 chave_acesso
  else chave_acesso.

(** The row of an item; [None] when a [Decimal] raises. *)
Definition item_para_banco (nf_id : nat) (item : Item) : option Item :=
  match decimal_de (item_get item "quantidade" (VInt 0)),
        decimal_de (item_get item "valor_unitario" (VInt 0)),
        decimal_de (item_get item "valor_total" (VInt 0)) with
  | Some q, Some vu, Some vt =>
      Some [ ("nota_fiscal_id", VInt (Z.of_nat nf_id));
             ("codigo", item_get item "codigo" (VStr ""));
             ("descricao", item_get item "descricao" (VStr ""));
             ("ncm", item_get item "ncm" (VStr ""));
             ("quantidade", q);
             ("valor_unitario", vu);
             ("valor_total", vt) ]
  | _, _, _ => None
  end.

Fixpoint itens_para_banco (nf_id : nat) (l : list Item)
  : option (list Item) :=
  match l with
  | [] => Some []
  | item :: r =>
      match item_para_banco nf_id item, itens_para_banco nf_id r with
      | Some x, Some xs => Some (x :: xs)
      | _, _ => None
      end
  end.

(** [salvar_nota_fiscal]: the answer and the store after the call.  A
    duplicate key or a failing connection gives [False] before anything
    is converted; the conversions of the five amounts are outside every
    handler and their exceptions leave the method; the insert of the
    invoice and of its items is one transaction.  The ids are the
    positions in the invoice table (the column [origem] and the
    processing log are left out). *)
Definition salvar_nota_fiscal (nota : NotaFiscal) (d : Db)
  : Res (bool * Db) :=
  let numero := ou (Modelo.numero nota) ("NF-" ++ carimbo_numero) in
  let serie := ou (serie nota) "1" in
  let cnpj_emitente := ou_opt (cnpj_emitente nota) "00000000000000" in
  let chave_acesso := chave_normalizada nota in
  if negb (conectavel d) then Ok (false, d)
  else if ja_existe d chave_acesso then Ok (false, d)
  else
    bind (float_de (if truthy (valor_total nota) then valor_total nota
                    else VFloat zero)) (fun valor_total =>
    bind (float_de (valor_icms nota)) (fun valor_icms =>
    bind (float_de (valor_ipi nota)) (fun valor_ipi =>
    bind (float_de (valor_pis nota)) (fun valor_pis =>
    bind (float_de (valor_cofins nota)) (fun valor_cofins =>
      let linha :=
        {| Modelo.numero := numero;
           Modelo.serie := serie;
           Modelo.data_emissao :=
             Some (match data_emissao nota with
                   | Some quando => quando
                   | None => agora
                   end);
           Modelo.cnpj_emitente := Some cnpj_emitente;
           Modelo.nome_emitente :=
             ou (nome_emitente nota)
                ("Emitente n" ++ String "227"%char "o informado");
           Modelo.valor_total := VFloat valor_total;
           Modelo.chave_acesso := Some chave_acesso;
           Modelo.natureza_operacao :=
             ou (natureza_operacao nota)
                ("Opera" ++ String "231"%char (String "227"%char "o n")
                 ++ String "227"%char "o informada");
           Modelo.situacao := situacao nota;
           Modelo.data_vencimento := data_vencimento nota;
           Modelo.cnpj_destinatario := cnpj_destinatario nota;
           Modelo.nome_destinatario := nome_destinatario nota;
           Modelo.valor_icms := VFloat valor_icms;
           Modelo.valor_ipi := VFloat valor_ipi;
           Modelo.valor_pis := VFloat valor_pis;
           Modelo.valor_cofins := VFloat valor_cofins;
           Modelo.itens := [];
           Modelo.xml_original := xml_original nota;
           Modelo.processado_em := processado_em nota |} in
      let nf_id := S (List.length (notas_fiscais d)) in
      if banco_aceita linha d
      then
        match itens_para_banco nf_id (itens nota) with
        | Some novos =>
            Ok (true,
                {| notas_fiscais := (notas_fiscais d ++ [linha])%list;
                   itens_nota_fiscal :=
                     (itens_nota_fiscal d ++ novos)%list;
                   conectavel := conectavel d |})
        | None => Ok (false, d)
        end
      else Ok (false, d)))))).

(** [Dashboard.salvar_nota_fiscal]: any exception of the manager gives
    [False]. *)
Definition salvar_no_painel (nota : NotaFiscal) (d : Db) : bool * Db :=
  match salvar_nota_fiscal nota d with
  | Ok r => r
  | Raise _ => (false, d)
  end.
End Salvar.

End DatabaseManager.

(** ** Counting and reporting ([processar_zip_upload],
    [processar_arquivos_upload]) *)

Module Relatorio.
Import PyStr PyNum Modelo Dashboard.

(** The mark in front of a line of the report. *)
Inductive Marca := Certo | Errado | Atencao.

Inductive Linha :=
| ProcessadoComSucesso | ErroAoSalvarNoBanco | ErroNoProcessamento
| TipoNaoSuportado | NotasProcessadas (quantas : nat)
| ItensProcessadosComSucesso | NenhumDadoValido | ExcecaoNaEntrada
| ZipCorrompido.

(** [resultados = {'processados': ..., 'erros': ..., 'detalhes': [...]}] *)
Record Resultados := {
  processados : nat;
  erros : nat;
  detalhes : list (Marca * string * Linha)
}.

Definition vazio : Resultados :=
  {| processados := 0; erros := 0; detalhes := [] |}.

Definition mais_processado (r : Resultados) : Resultados :=
  {| processados := S (processados r); erros := erros r;
     detalhes := detalhes r |}.

Definition mais_erro (r : Resultados) : Resultados :=
  {| processados := processados r; erros := S (erros r);
     detalhes := detalhes r |}.

Definition anotar (r : Resultados) (m : Marca) (file_name : string)
           (l : Linha) : Resultados :=
  {| processados := processados r; erros := erros r;
     detalhes := (detalhes r ++ [(m, file_name, l)])%list |}.

(** The file names of the lines of the report, in order. *)
Definition nomes (r : Resultados) : list string :=
  map (fun x : Marca * string * Linha => snd (fst x)) (detalhes r).

Definition com_db (st : Estado) (d : Db) : Estado :=
  {| db := d; tela := tela st |}.

Section Envio.
(** [zip_ref.namelist()] and [zip_ref.open(name).read()] on the bytes
    of an archive: [None] when they raise. *)
Variable namelist : list Byte.byte -> option (list string).
Variable ler_do_zip : list Byte.byte -> string -> option (list Byte.byte).
(** The three handlers and the store. *)
Variable processar_pdf_upload :
  list Byte.byte -> string -> option NotaFiscal.
Variable processar_xml_upload :
  list Byte.byte -> string -> option NotaFiscal.
Variable processar_csv_upload :
  list Byte.byte -> string -> Estado -> option (list NotaFiscal) * Estado.
Variable salvar_nota_fiscal : NotaFiscal -> Db -> bool * Db.

(** [if self.salvar_nota_fiscal(nota): processados += 1 else: erros += 1] *)
Definition salvar_uma (acc : Estado * Resultados) (nota : NotaFiscal)
  : Estado * Resultados :=
  let '(st, r) := acc in
  let '(ok, d') := salvar_nota_fiscal nota (db st) in
  (com_db st d', if ok then mais_processado r else mais_erro r).

(** The end of both loop bodies, for a PDF or XML outcome. *)
Definition concluir (file_name : string) (nota_fiscal : option NotaFiscal)
           (acc : Estado * Resultados) : Estado * Resultados :=
  let '(st, r) := acc in
  match nota_fiscal with
  | Some nota =>
      let '(ok, d') := salvar_nota_fiscal nota (db st) in
      if ok
      then (com_db st d',
            anotar (mais_processado r) Certo file_name
              ProcessadoComSucesso)
      else (com_db st d',
            anotar (mais_erro r) Errado file_name ErroAoSalvarNoBanco)
  | None =>
      (st, anotar (mais_erro r) Errado file_name ErroNoProcessamento)
  end.

(** What the loop of [processar_zip_upload] does with a supported
    entry of the archive [zip]. *)
Definition entrada_do_zip (zip : list Byte.byte) (t : Tipo)
           (file_name : string) (acc : Estado * Resultados)
  : Estado * Resultados :=
  let '(st, r) := acc in
  match ler_do_zip zip file_name with
  | None => (st, anotar (mais_erro r) Errado file_name ExcecaoNaEntrada)
  | Some extracted_content =>
      match t with
      | Pdf =>
          concluir file_name
            (processar_pdf_upload extracted_content file_name) acc
      | XmlT =>
          concluir file_name
            (processar_xml_upload extracted_content file_name) acc
      | Csv =>
          let '(notas_csv, st1) :=
            processar_csv_upload extracted_content file_name st in
          let is_items_file := e_itens (lower file_name) in
          match notas_csv with
          | Some (n :: l) =>
              let '(st2, r2) := fold_left salvar_uma (n :: l) (st1, r) in
              (st2, anotar r2 Certo file_name
                      (NotasProcessadas (List.length (n :: l))))
          | Some [] =>
              if is_items_file
              then (st1, anotar (mais_processado r) Certo file_name
                           ItensProcessadosComSucesso)
              else (st1, anotar (mais_erro r) Errado file_name
                           NenhumDadoValido)
          | None =>
              (st1, anotar (mais_erro r) Errado file_name
                      ErroNoProcessamento)
          end
      end
  end.

Definition entrada_nao_suportada (file_name : string)
           (acc : Estado * Resultados) : Estado * Resultados :=
  let '(st, r) := acc in
  (st, anotar r Atencao file_name TipoNaoSuportado).

(** [processar_zip_upload]: the state and the results (the progress
    messages the walker itself shows are not recorded). *)
Definition processar_zip_upload (file_content : list Byte.byte)
           (filename : string) (st : Estado) : Estado * Resultados :=
  match namelist file_content with
  | None => (st, anotar (mais_erro vazio) Errado filename ZipCorrompido)
  | Some file_list =>
      percorrer_zip (Estado * Resultados) (entrada_do_zip file_content)
        entrada_nao_suportada file_list (st, vazio)
  end.

(** The body of the loop of [processar_arquivos_upload] for one
    uploaded file. *)
Definition carregar_arquivo (acc : Estado * Resultados)
           (arquivo : string * list Byte.byte) : Estado * Resultados :=
  let '(name, file_content) := arquivo in
  let '(st, r) := acc in
  let file_extension := ultimo_segmento "." (lower name) in
  if String.eqb file_extension "pdf"
  then concluir name (processar_pdf_upload file_content name) acc
  else if String.eqb file_extension "xml"
  then concluir name (processar_xml_upload file_content name) acc
  else if String.eqb file_extension "csv"
  then
    let '(notas_csv, st1) := processar_csv_upload file_content name st in
    match notas_csv with
    | Some (n :: l) => fold_left salvar_uma (n :: l) (st1, r)
    | _ => concluir name None (st1, r)
    end
  else if String.eqb file_extension "zip"
  then
    let '(st1, resultado_zip) :=
      processar_zip_upload file_content name st in
    (st1,
     {| processados := processados r + processados resultado_zip;
        erros := erros r + erros resultado_zip;
        detalhes := (detalhes r ++ detalhes resultado_zip)%list |})
  else concluir name None acc.

Definition processar_arquivos_upload
           (uploaded_files : list (string * list Byte.byte))
           (st : Estado) : Estado * Resultados :=
  fold_left carregar_arquivo uploaded_files (st, vazio).
End Envio.

End Relatorio.

(** ** More inputs for the examples *)

Module Exemplos2.
Import PyStr PyNum Modelo Xml.

Definition chave_exemplo : string :=
  "35200114200166000187550010000000046550000046".

(** A minimal unprefixed NF-e with one line item. *)
Definition nfe_minima : Element :=
  Elem "NFe" [] None
    [ Elem "infNFe" [("Id", "NFe" ++ chave_exemplo)] None
        [ Elem "ide" [] None
            [ Elem "nNF" [] (Some "123") [];
              Elem "serie" [] (Some "1") [];
              Elem "dhEmi" [] (Some "2024-01-15T10:00:00") [];
              Elem "natOp" [] (Some "Venda") [] ];
          Elem "emit" [] None
            [ Elem "CNPJ" [] (Some "11222333000181") [];
              Elem "xNome" [] (Some "ACME") [] ];
          Elem "det" [] None
            [ Elem "prod" [] None
                [ Elem "cProd" [] (Some "A1") [];
                  Elem "xProd" [] (Some "Parafuso") [];
                  Elem "qCom" [] (Some "2.00") [];
                  Elem "vUnCom" [] (Some "5.00") [];
                  Elem "vProd" [] (Some "10.00") [] ] ];
          Elem "total" [] None
            [ Elem "ICMSTot" [] None
                [ Elem "vNF" [] (Some "10.00") [] ] ] ] ].

(** The invoice the minimal document stands for, with the date already
    read (instant 1000 for a clock at 2000). *)
Definition nota_valida : NotaFiscal :=
  {| numero := "123"; serie := "1"; data_emissao := Some 1000;
     cnpj_emitente := Some "11.222.333/0001-81"; nome_emitente := "ACME";
     valor_total := VFloat (FFin 10); chave_acesso := Some chave_exemplo;
     natureza_operacao := "Venda"; situacao := "Pendente";
     data_vencimento := None; cnpj_destinatario := None;
     nome_destinatario := None;
     valor_icms := VFloat zero; valor_ipi := VFloat zero;
     valor_pis := VFloat zero; valor_cofins := VFloat zero;
     itens := []; xml_original := None; processado_em := 2000 |}.

(** A store that accepts every invoice and appends it. *)
Definition salvar_no_fim (n : NotaFiscal) (d : Dashboard.Db)
  : bool * Dashboard.Db :=
  (true,
   {| Dashboard.notas_fiscais := (Dashboard.notas_fiscais d ++ [n])%list;
      Dashboard.itens_nota_fiscal := Dashboard.itens_nota_fiscal d;
      Dashboard.conectavel := Dashboard.conectavel d |}).

Definition db_vazio : Dashboard.Db := Dashboard.db Exemplos.estado_vazio.

(** A store with one invoice, and an items table with a row for it and a
    row for an invoice that is not stored. *)
Definition db_uma_nota : Dashboard.Db :=
  {| Dashboard.notas_fiscais := [nota_valida];
     Dashboard.itens_nota_fiscal := [];
     Dashboard.conectavel := true |}.

Definition colunas_exemplo : ItensCsv.Colunas :=
  {| ItensCsv.col_numero_nf := "numero_nf";
     ItensCsv.col_codigo_produto := "codigo";
     ItensCsv.col_descricao := "descricao";
     ItensCsv.col_ncm := None;
     ItensCsv.col_quantidade := Some "qtd";
     ItensCsv.col_valor_unitario := Some "valor_unitario";
     ItensCsv.col_valor_total := None |}.

Definition df_itens : Dashboard.DataFrame :=
  {| Dashboard.columns :=
       ["numero_nf"; "codigo"; "descricao"; "qtd"; "valor_unitario"];
     Dashboard.linhas :=
       [ [VInt 123; VStr "A1"; VStr "Parafuso"; VStr "2"; VStr "5,00"];
         [VInt 999; VStr "B2"; VStr "Porca"; VInt 1; VInt 1] ] |}.

Definition estado_uma_nota : Dashboard.Estado :=
  {| Dashboard.db := db_uma_nota; Dashboard.tela := [] |}.

(** The CSV handler over a reader that always returns the items table,
    with the row loop of the items role. *)
Definition csv_de_itens
  : list Byte.byte -> string -> Dashboard.Estado ->
    option (list NotaFiscal) * Dashboard.Estado :=
  Dashboard.processar_csv_upload (fun _ => EmptyString)
    (fun _ _ => Some df_itens) (fun _ _ st => (Some [], st))
    (fun _ _ st => (Some [], st)) (fun _ => [])
    (ItensCsv.processar_linhas (fun _ => EmptyString) colunas_exemplo).

(** The same invoice with the total given as the text [nan]. *)
Definition nota_nan : NotaFiscal := set_valor_total nota_valida (VStr "nan").

End Exemplos2.

(** ** Properties of the string operations *)

Module PyStrProps.
Import PyStr.

Lemma filter_str_id f s : forall_str f s = true -> filter_str f s = s.
Proof.
  induction s as [|c r IH]; simpl; [reflexivity|].
  intros H. apply andb_true_iff in H as [Hc Hr].
  rewrite Hc, IH by assumption. reflexivity.
Qed.

Lemma forall_filter_str f s : forall_str f (filter_str f s) = true.
Proof.
  induction s as [|c r IH]; simpl; [reflexivity|].
  destruct (f c) eqn:E; simpl; [rewrite E|]; assumption.
Qed.

(** A string without the first character of [old] has no occurrence of
    [old]: [replace] leaves it alone. *)
Lemma replace_absent (a : ascii) (old' new s : string) :
  forall_str (fun c => negb (Ascii.eqb a c)) s = true ->
  replace_from (String a old') new 0 s = s.
Proof.
  induction s as [|c r IH]; simpl; [reflexivity|].
  intros H. apply andb_true_iff in H as [Hc Hr].
  destruct (ascii_dec a c) as [->|Hne].
  - rewrite Ascii.eqb_refl in Hc. discriminate.
  - rewrite IH by assumption. reflexivity.
Qed.

End PyStrProps.

(** ** Properties of the tax-id check *)

Module CnpjProps.
Import PyStr PyStrProps Cnpj.

Lemma is_digit_valor c : is_digit c = true -> 0 <= valor c <= 9.
Proof.
  unfold is_digit, valor. intros H.
  apply andb_true_iff in H as [H1 H2].
  apply N.leb_le in H1, H2. lia.
Qed.

Lemma valor_inj a b : valor a = valor b -> a = b.
Proof.
  unfold valor. intros H.
  rewrite <- (ascii_N_embedding a), <- (ascii_N_embedding b).
  f_equal. lia.
Qed.

(** A weight between 2 and 9 times a non-zero digit difference is never a
    multiple of 11. *)
Lemma peso_vezes_delta w d :
  2 <= w <= 9 -> -9 <= d <= 9 -> d <> 0 -> (w * d) mod 11 <> 0.
Proof.
  intros Hw Hd Hz.
  assert (w = 2 \/ w = 3 \/ w = 4 \/ w = 5 \/ w = 6 \/ w = 7 \/ w = 8 \/ w = 9)
    as Hc by lia.
  repeat (destruct Hc as [-> | Hc]); try subst w;
    intros Hm; apply Z.mod_divide in Hm; try lia;
    destruct Hm as [k Hk]; lia.
Qed.

(** Moving the weighted sum by a non-multiple of 11 keeps the check digit
    only when that digit is 0 (remainders 0 and 1 share it). *)
Lemma digito_de_desloca s x :
  x mod 11 <> 0 -> digito_de (s + x) = digito_de s -> digito_de s = 0.
Proof.
  unfold digito_de. intros Hx.
  destruct (Z.ltb_spec ((s + x) mod 11) 2), (Z.ltb_spec (s mod 11) 2);
    intros He; Z.div_mod_to_equations; lia.
Qed.

Arguments valor : simpl never.

Ltac quatorze s :=
  do 14 (destruct s as [|? s]; [discriminate|]);
  destruct s; [|discriminate].

Ltac separa_digitos H :=
  simpl in H; repeat (apply andb_true_iff in H as [? H]).

Ltac usa_digitos :=
  unfold int_of_char;
  repeat match goal with
         | H : is_digit ?c = true |- _ => rewrite !H
         end.

Lemma digito_verificador_eq ds ws :
  digito_verificador ds ws = digito_de (soma_ponderada ds ws).
Proof. reflexivity. Qed.

(** On 14 digit characters the two loops compute the two weighted sums of
    the rule, and the function compares the two check digits. *)
Lemma calcular_bem s :
  String.length s = 14%nat -> forall_str is_digit s = true ->
  _calcular_digito_cnpj s =
    (digito_em s 12 =? digito_verificador (firstn 12 (digitos s)) pesos1) &&
    (digito_em s 13 =? digito_verificador (firstn 13 (digitos s)) pesos2).
Proof.
  intros Hl Hd. quatorze s. separa_digitos Hd.
  unfold _calcular_digito_cnpj, laco, digito_em, passo, int_at.
  cbn [seq fold_left String.get].
  usa_digitos.
  cbn [Z.sub Z.add Z.opp Z.pos_sub Z.ltb Z.compare Pos.compare
       Pos.compare_cont Z.succ_double Z.pred_double Z.double
       Pos.pred_double].
  rewrite !digito_verificador_eq.
  cbn [digitos firstn nth soma_ponderada pesos1 pesos2].
  rewrite !Z.add_0_r, !Z.add_assoc.
  match goal with |- (if negb ?b then _ else _) = _ => destruct b end;
    reflexivity.
Qed.


Lemma todos_iguais_repetir c n : todos_iguais (digitos (repetir c n)) = true.
Proof.
  induction n as [|n IH]; [reflexivity|].
  destruct n as [|m]; [reflexivity|].
  change (repetir c (S (S m))) with (String c (repetir c (S m))).
  cbn [digitos] in *. cbn [repetir digitos] in *.
  cbn [todos_iguais]. rewrite Z.eqb_refl. exact IH.
Qed.

(** The guard [cnpj_numeros == cnpj_numeros[0] * 14] fires only on a
    string whose digits are all the same. *)
Lemma guarda_iguais s c :
  todos_iguais (digitos s) = false -> String.eqb s (repetir c 14) = false.
Proof.
  intros H. destruct (String.eqb s (repetir c 14)) eqn:E; [|reflexivity].
  apply String.eqb_eq in E. subst s.
  rewrite todos_iguais_repetir in H. discriminate.
Qed.

Lemma validar_quatorze s :
  String.length s = 14%nat -> forall_str is_digit s = true ->
  _validar_cnpj (Some s) =
    match s with
    | EmptyString => false
    | String c0 _ =>
        negb (String.eqb s (repetir c0 14)) && _calcular_digito_cnpj s
    end.
Proof.
  intros Hl Hd. unfold _validar_cnpj, so_digitos.
  rewrite (filter_str_id _ _ Hd), Hl.
  destruct s as [|c0 r]; [discriminate|]. cbn [is_empty Nat.eqb negb].
  destruct (String.eqb (String c0 r) (repetir c0 14)); reflexivity.
Qed.

(** Acceptance: an input whose digits form a well-formed tax-id passes,
    whatever punctuation surrounds the digits. *)
Lemma validar_aceita t :
  cnpj_bem_formado (so_digitos t) -> _validar_cnpj (Some t) = true.
Proof.
  intros (Hl & Hd & Hi & H12 & H13).
  assert (_validar_cnpj (Some t) = _validar_cnpj (Some (so_digitos t))) as ->.
  { unfold _validar_cnpj, so_digitos.
    rewrite (filter_str_id _ _ (forall_filter_str is_digit t)).
    fold (so_digitos t). rewrite Hl.
    destruct t as [|a t']; [discriminate|].
    destruct (so_digitos (String a t')); [discriminate|]. reflexivity. }
  rewrite (validar_quatorze _ Hl Hd).
  destruct (so_digitos t) as [|c0 r] eqn:E; [discriminate|].
  rewrite (guarda_iguais _ c0 Hi), (calcular_bem _ Hl Hd).
  unfold digito_em. rewrite <- H12, <- H13, !Z.eqb_refl. reflexivity.
Qed.

Lemma length_trocar i c s : String.length (trocar i c s) = String.length s.
Proof.
  revert i; induction s as [|a r IH]; intros [|k]; simpl; auto.
Qed.

Lemma forall_str_trocar f i c s :
  f c = true -> forall_str f s = true -> forall_str f (trocar i c s) = true.
Proof.
  intros Hc. revert i; induction s as [|a r IH]; intros [|k]; simpl; auto;
    intros H; apply andb_true_iff in H as [Ha Hr].
  - rewrite Hc, Hr. reflexivity.
  - rewrite Ha, IH by assumption. reflexivity.
Qed.

(** Sensitivity: on a well-formed tax-id, a change of one of the two check
    digits is always caught, and a change of one of the first twelve
    digits is caught unless both check digits are 0. *)
Lemma mutacao_rejeitada s i c :
  cnpj_bem_formado s -> (i < 14)%nat ->
  is_digit c = true -> String.get i s <> Some c ->
  (12 <= i)%nat \/ ~ (digito_em s 12 = 0 /\ digito_em s 13 = 0) ->
  _validar_cnpj (Some (trocar i c s)) = false.
Proof.
  intros (Hl & Hd & _ & H12 & H13) Hi Hc Hne Hcond.
  assert (_calcular_digito_cnpj (trocar i c s) = false) as Hcalc.
  2:{ rewrite validar_quatorze, Hcalc.
      - destruct (trocar i c s); [reflexivity|]. apply andb_false_r.
      - rewrite length_trocar. exact Hl.
      - apply forall_str_trocar; assumption. }
  rewrite calcular_bem;
    [| rewrite length_trocar; exact Hl | apply forall_str_trocar; assumption].
  pose proof (is_digit_valor c Hc) as Rc.
  quatorze s. separa_digitos Hd.
  repeat match goal with
         | H : is_digit ?a = true |- _ =>
             apply is_digit_valor in H
         end.
  unfold digito_em in *. rewrite !digito_verificador_eq in *.
  do 14 (destruct i as [|i]; [shelve|]). lia.
  Unshelve.
  all: cbn [String.get] in Hne;
    match type of Hne with
    | Some ?a <> Some ?b =>
        assert (valor a <> valor b) as Hv
          by (intros Hv; apply Hne; f_equal; apply valor_inj; exact Hv)
    end; clear Hne Hc Hi Hl.
  all: cbn [trocar digitos firstn nth soma_ponderada pesos1 pesos2] in *.
  all: rewrite ?Z.add_0_r in *.
  all: apply andb_false_iff.
  all: match goal with
       | |- (?x =? digito_de ?S1') = false \/ (?y =? digito_de ?S2') = false =>
           destruct (Z.eqb_spec x (digito_de S1')) as [E1|];
           [|left; reflexivity];
           destruct (Z.eqb_spec y (digito_de S2')) as [E2|];
           [|right; reflexivity]; exfalso
       end.
  all: try congruence.
  all: destruct Hcond as [Hge|Hn]; [lia|]; apply Hn; clear Hn.
  all: match goal with
       | H1 : ?x = digito_de ?S1, E1 : ?x = digito_de ?S1',
         H2 : ?y = digito_de ?S2, E2 : ?y = digito_de ?S2' |- ?x = 0 /\ ?y = 0 =>
           split;
           [ rewrite H1; apply (digito_de_desloca S1 (S1' - S1))
           | rewrite H2; apply (digito_de_desloca S2 (S2' - S2)) ];
           [ ring_simplify (S1' - S1); Z.div_mod_to_equations; lia
           | replace (S1 + (S1' - S1)) with S1' by ring; congruence
           | ring_simplify (S2' - S2); Z.div_mod_to_equations; lia
           | replace (S2 + (S2' - S2)) with S2' by ring; congruence ]
       end.
Qed.

End CnpjProps.

(** ** Properties of the sanitizers *)

Module SanitizerProps.
Import PyStr PyStrProps PyNum DataSanitizer.

Lemma digito_nao_e_N s :
  forall_str is_digit s = true ->
  forall_str (fun c => negb (Ascii.eqb "N" c)) s = true.
Proof.
  induction s as [|c r IH]; cbn [forall_str]; [reflexivity|].
  intros H. apply andb_true_iff in H as [Hc Hr].
  rewrite IH by assumption.
  destruct (Ascii.eqb_spec "N" c) as [<-|]; [discriminate|reflexivity].
Qed.

(** A string of 44 digits is a fixed point of the access-key sanitizer. *)
Lemma sanitize_chave_fixo r :
  forall_str is_digit r = true -> String.length r = 44%nat ->
  sanitize_chave_acesso (Some r) = Some r.
Proof.
  intros Hd Hl. unfold sanitize_chave_acesso, replace, so_digitos.
  rewrite (replace_absent "N" "Fe" "" r (digito_nao_e_N r Hd)).
  rewrite (filter_str_id _ _ Hd), Hl.
  destruct r; [discriminate|reflexivity].
Qed.

(** What a successful sanitization returns: 44 digits. *)
Lemma sanitize_chave_forma x r :
  sanitize_chave_acesso x = Some r ->
  forall_str is_digit r = true /\ String.length r = 44%nat.
Proof.
  unfold sanitize_chave_acesso. destruct x as [s|]; [|discriminate].
  destruct (is_empty s); [discriminate|].
  destruct (Nat.eqb_spec (String.length (so_digitos (replace "NFe" "" s))) 44)
    as [E|]; simpl; [|discriminate].
  intros [= <-]. split; [apply forall_filter_str|exact E].
Qed.

(** On strings the numeric sanitizer always returns. *)
Lemma sanitize_numeric_value_str s :
  exists f, sanitize_numeric_value (VStr s) = Ok f.
Proof. eexists. reflexivity. Qed.

(** An int beyond the double range escapes the handler of the numeric
    sanitizer, which catches [ValueError] and [TypeError] only. *)
Lemma sanitize_numeric_value_overflow :
  sanitize_numeric_value (VInt (2 ^ 1024)) = Raise OverflowError.
Proof. vm_compute. reflexivity. Qed.

End SanitizerProps.

(** ** Properties of the validator *)

Module ValidadorProps.
Import PyStr PyNum Modelo Cnpj ValidadorNF.

Lemma mesmos_outros_campos_refl n : mesmos_outros_campos n n.
Proof. repeat split. Qed.

Lemma mesmos_outros_campos_set n v :
  mesmos_outros_campos n (set_valor_total n v).
Proof. repeat split. Qed.

(** What [_validar_valores] leaves behind: the invoice itself, or the
    invoice with its string total replaced by the float read from it. *)
Lemma validar_valores_efeito n :
  snd (_validar_valores n) = n \/
  exists s f, valor_total n = VStr s /\
              py_float (replace "," "." s) = Some f /\
              snd (_validar_valores n) = set_valor_total n (VFloat f).
Proof.
  unfold _validar_valores, coagir_total.
  destruct (valor_total n) as [|s|z|f] eqn:Ev; cbn [float_de].
  - left. rewrite Ev. reflexivity.
  - destruct (py_float (replace "," "." s)) as [f|] eqn:Ef.
    + right. exists s, f. split; [reflexivity|]. split; [exact Ef|].
      cbn [valor_total set_valor_total PyNum.numero].
      destruct (f_le f 0); [reflexivity|].
      destruct (f_gt f _); reflexivity.
    + left. reflexivity.
  - left. rewrite Ev. cbn [PyNum.numero].
    destruct (f_le _ _); [reflexivity|].
    destruct (f_gt _ _); reflexivity.
  - left. rewrite Ev. cbn [PyNum.numero].
    destruct (f_le _ _); [reflexivity|].
    destruct (f_gt _ _); reflexivity.
Qed.

(** The invoice after [validar_nota_fiscal] is the one given or the one
    [_validar_valores] leaves. *)
Lemma validar_nota_fiscal_efeito agora n :
  snd (validar_nota_fiscal agora n) = n \/
  snd (validar_nota_fiscal agora n) = snd (_validar_valores n).
Proof.
  unfold validar_nota_fiscal.
  destruct (negb (_validar_campos_obrigatorios n)); [left; reflexivity|].
  destruct (negb (_validar_cnpj (cnpj_emitente n))); [left; reflexivity|].
  destruct (negb (_validar_chave_acesso (chave_acesso n)));
    [left; reflexivity|].
  right. destruct (_validar_valores n) as [ok n1]. cbn [snd].
  destruct (negb ok); [reflexivity|].
  destruct (negb (_validar_data agora (data_emissao n1))); [reflexivity|].
  destruct (itens n1); [reflexivity|].
  destruct (_validar_itens _) as [[|]|]; reflexivity.
Qed.

(** A total that is the int 0 fails the value check. *)
Lemma validar_valores_zero n :
  valor_total n = VInt 0 -> _validar_valores n = (false, n).
Proof.
  intros H. unfold _validar_valores, coagir_total. rewrite H.
  cbn [PyNum.numero]. rewrite H. reflexivity.
Qed.

(** The validator rejects an invoice whose total is the int 0 and leaves
    it as it was, whichever check fires first. *)
Lemma validar_nota_fiscal_zero agora n :
  valor_total n = VInt 0 -> validar_nota_fiscal agora n = (false, n).
Proof.
  intros H. unfold validar_nota_fiscal.
  destruct (negb (_validar_campos_obrigatorios n)); [reflexivity|].
  destruct (negb (_validar_cnpj (cnpj_emitente n))); [reflexivity|].
  destruct (negb (_validar_chave_acesso (chave_acesso n))); [reflexivity|].
  rewrite (validar_valores_zero n H). reflexivity.
Qed.

End ValidadorProps.

(** ** Properties of the PDF extractor *)

Module PdfProps.
Import PyStr PyNum Modelo PDFExtractor.

Section Grupos.
Variable re_search : Padrao -> string -> option Match.
(** A match object has the groups of its pattern. *)
Hypothesis grupos_do_padrao :
  forall p t m, re_search p t = Some m -> List.length m = ngrupos p.

(** A pattern with a group never makes [extrair_valor] raise. *)
Lemma extrair_valor_retorna {A : Type} (inj : string -> A) p t (d : A) :
  (1 <= ngrupos p)%nat ->
  exists a, extrair_valor re_search inj p t d = Ok a.
Proof.
  intros Hg. unfold extrair_valor.
  destruct (re_search p t) as [m|] eqn:E; [|eexists; reflexivity].
  apply grupos_do_padrao in E.
  destruct m as [|[g|] r]; [simpl in E; lia| |]; eexists; reflexivity.
Qed.

(** The operation-nature pattern has no group: a match of it makes
    [extrair_valor] raise [IndexError]. *)
Lemma extrair_valor_natureza {A : Type} (inj : string -> A) t (d : A) m :
  re_search P_natureza t = Some m ->
  extrair_valor re_search inj P_natureza t d = Raise IndexError.
Proof.
  intros E. unfold extrair_valor. rewrite E.
  apply grupos_do_padrao in E. destruct m; [reflexivity|discriminate E].
Qed.
End Grupos.

End PdfProps.

(** ** Properties of the archive walker *)

Module ZipProps.
Import PyStr Dashboard.

(** The loop with its three accumulators computes three filters of the
    entries that are not directories. *)
Lemma classificar_desde (l : list string) :
  forall c i o,
    fold_left classificar_um l (c, i, o) =
      ((c ++ filter no_cabecalho (arquivos l))%list,
       (i ++ filter no_itens (arquivos l))%list,
       (o ++ filter nos_outros (arquivos l))%list).
Proof.
  induction l as [|n l IH]; intros c i o.
  - cbn. rewrite !app_nil_r. reflexivity.
  - cbn [fold_left]. unfold classificar_um at 2. unfold arquivos.
    cbn [filter]. fold (arquivos l).
    destruct (ends_with_char "/" n); cbn [negb]; [apply IH|].
    cbn [filter]. unfold no_cabecalho at 1, no_itens at 1, nos_outros at 1.
    destruct (e_cabecalho (lower n)); cbn [negb andb].
    + rewrite IH, <- app_assoc. reflexivity.
    + destruct (e_itens (lower n)); cbn [negb];
        rewrite IH, <- app_assoc; reflexivity.
Qed.

Lemma arquivos_ordenados_filtros (l : list string) :
  arquivos_ordenados l =
    (filter no_cabecalho (arquivos l) ++ filter nos_outros (arquivos l)
     ++ filter no_itens (arquivos l))%list.
Proof.
  unfold arquivos_ordenados, classificar.
  rewrite classificar_desde. reflexivity.
Qed.

(** Splitting a list into the three groups only moves entries around. *)
Lemma tres_grupos_permutacao (l : list string) :
  Permutation l
    (filter no_cabecalho l ++ filter nos_outros l ++ filter no_itens l).
Proof.
  induction l as [|n l IH]; [constructor|].
  cbn [filter]. unfold no_cabecalho at 1, nos_outros at 1, no_itens at 1.
  destruct (e_cabecalho (lower n)); cbn [negb andb].
  - cbn [app]. constructor. exact IH.
  - destruct (e_itens (lower n)); cbn [negb].
    + rewrite app_assoc. apply Permutation_cons_app.
      rewrite <- app_assoc. exact IH.
    + apply Permutation_cons_app. exact IH.
Qed.

Lemma classe_cabecalho n : no_cabecalho n = true -> classe n = 0%nat.
Proof. unfold classe. intros ->. reflexivity. Qed.

Lemma classe_outros n : nos_outros n = true -> classe n = 1%nat.
Proof.
  unfold classe, nos_outros, no_cabecalho, no_itens.
  destruct (e_cabecalho (lower n)), (e_itens (lower n));
    cbn; intros H; try discriminate H; reflexivity.
Qed.

Lemma classe_itens n : no_itens n = true -> classe n = 2%nat.
Proof.
  unfold classe, no_itens, no_cabecalho.
  destruct (e_cabecalho (lower n)), (e_itens (lower n));
    cbn; intros H; try discriminate H; reflexivity.
Qed.

Lemma mesma_classe_ordenada k (l : list string) :
  Forall (fun n => classe n = k) l -> StronglySorted antes l.
Proof.
  induction 1 as [|n l Hn Hl IH]; constructor; [exact IH|].
  eapply Forall_impl; [|exact Hl].
  intros m Hm. unfold antes. rewrite Hn, Hm. apply Nat.le_refl.
Qed.

Lemma ordenada_app (l1 l2 : list string) :
  StronglySorted antes l1 -> StronglySorted antes l2 ->
  (forall a b, In a l1 -> In b l2 -> antes a b) ->
  StronglySorted antes (l1 ++ l2).
Proof.
  intros H1 H2 H. induction H1 as [|a l1 Hs IH Ha]; [exact H2|].
  cbn [app]. constructor.
  - apply IH. intros x y Hx Hy. apply H; [right; exact Hx|exact Hy].
  - apply Forall_app. split; [exact Ha|].
    apply Forall_forall. intros b Hb. apply H; [left; reflexivity|exact Hb].
Qed.

Lemma filtro_classe (p : string -> bool) k (l : list string) :
  (forall n, p n = true -> classe n = k) ->
  Forall (fun n => classe n = k) (filter p l).
Proof.
  intros Hp. apply Forall_forall. intros n Hn.
  apply filter_In in Hn as [_ Hn]. apply Hp. exact Hn.
Qed.

(** The processing order goes up in rank: header group, rest, items
    group. *)
Lemma arquivos_ordenados_ordenada (l : list string) :
  StronglySorted antes (arquivos_ordenados l).
Proof.
  rewrite arquivos_ordenados_filtros.
  pose proof (filtro_classe no_cabecalho 0 (arquivos l) classe_cabecalho) as H0.
  pose proof (filtro_classe nos_outros 1 (arquivos l) classe_outros) as H1.
  pose proof (filtro_classe no_itens 2 (arquivos l) classe_itens) as H2.
  apply ordenada_app; [|apply ordenada_app|].
  - exact (mesma_classe_ordenada _ _ H0).
  - exact (mesma_classe_ordenada _ _ H1).
  - exact (mesma_classe_ordenada _ _ H2).
  - rewrite Forall_forall in H1, H2.
    intros a b Ha Hb. unfold antes. rewrite (H1 a Ha), (H2 b Hb). lia.
  - rewrite Forall_forall in H0.
    intros a b Ha Hb. unfold antes. rewrite (H0 a Ha). lia.
Qed.

Lemma filtro_nao_diretorio (p : string -> bool) (l : list string) n :
  In n (filter p (arquivos l)) -> ends_with_char "/" n = false.
Proof.
  intros Hn. apply filter_In in Hn as [Hn _]. unfold arquivos in Hn.
  apply filter_In in Hn as [_ Hn]. apply negb_true_iff in Hn. exact Hn.
Qed.

(** The loop hands over the supported entries of the ordered list, in
    that order. *)
Lemma ordem_de_processamento_filtro (l : list string) :
  ordem_de_processamento l =
    filter (fun n => match tipo_de n with Some _ => true | None => false end)
           (arquivos_ordenados l).
Proof.
  unfold ordem_de_processamento, percorrer_zip.
  assert (Forall (fun n => ends_with_char "/" n = false)
                 (arquivos_ordenados l)) as Hd.
  { rewrite arquivos_ordenados_filtros, !Forall_app.
    split; [|split]; apply Forall_forall; intros n Hn;
      exact (filtro_nao_diretorio _ _ _ Hn). }
  assert (forall acc,
             fold_left
               (visitar (list string) (fun _ n a => (a ++ [n])%list)
                  (fun _ a => a)) (arquivos_ordenados l) acc
             = (acc ++ filter (fun n => match tipo_de n with
                                        | Some _ => true
                                        | None => false
                                        end) (arquivos_ordenados l))%list)
    as H.
  { induction Hd as [|n r Hn Hr IH]; intros acc.
    - cbn. rewrite app_nil_r. reflexivity.
    - cbn [fold_left filter]. unfold visitar at 2. rewrite Hn.
      destruct (tipo_de n); rewrite IH; [|reflexivity].
      rewrite <- app_assoc. reflexivity. }
  apply (H []).
Qed.

End ZipProps.

(** * The properties of the specification *)

Section TaxId.
Import PyStr Cnpj CnpjProps.

(** C1 (as the code has it).  A well-formed 14-digit tax-id (not all
    digits identical, both check digits as the weighted modulo-11 rule
    gives them) is accepted, and so is every input whose digits are such
    an id, whatever punctuation it carries.  On a well-formed id the
    change of one digit into a different digit is rejected whenever the
    changed digit is one of the two check digits, or the two check digits
    of the id are not both 0. *)
Theorem cnpj_accepted_and_mutation_rejected (s : string) :
  cnpj_bem_formado s ->
  _validar_cnpj (Some s) = true /\
  (forall t, so_digitos t = s -> _validar_cnpj (Some t) = true) /\
  forall (i : nat) (c : ascii),
    (i < 14)%nat -> is_digit c = true -> String.get i s <> Some c ->
    (12 <= i)%nat \/ ~ (digito_em s 12 = 0 /\ digito_em s 13 = 0) ->
    _validar_cnpj (Some (trocar i c s)) = false.
Proof.
  intros Hs.
  assert (forall t, so_digitos t = s -> _validar_cnpj (Some t) = true) as Ha.
  { intros t Ht. apply validar_aceita. rewrite Ht. exact Hs. }
  split; [|split; [exact Ha|]].
  - apply Ha. destruct Hs as (_ & Hd & _).
    apply PyStrProps.filter_str_id. exact Hd.
  - intros i c Hi Hc Hne Hcond.
    apply mutacao_rejeitada; assumption.
Qed.

Lemma cnpj_accepted_and_mutation_rejected_witness :
  _validar_cnpj (Some "11222333000181") = true /\
  _validar_cnpj (Some "11.222.333/0001-81") = true /\
  _validar_cnpj (Some (trocar 3 "9" "11222333000181")) = false.
Proof.
  assert (cnpj_bem_formado "11222333000181") as Hs
    by (repeat split; reflexivity).
  destruct (cnpj_accepted_and_mutation_rejected "11222333000181" Hs)
    as (Ha & Hp & Hm).
  split; [exact Ha|]. split; [apply Hp; reflexivity|].
  apply Hm.
  - lia.
  - reflexivity.
  - simpl. discriminate.
  - right. vm_compute. intros [H _]. discriminate H.
Defined.

(** C1 as stated fails: the well-formed id 68387380000100 has check digits
    00; changing its first digit from 6 to 8 moves the first weighted sum
    from remainder 1 to remainder 0 and the second from 0 to 1, so both
    check digits stay 0 and the changed id is accepted. *)
Lemma cnpj_single_digit_change_accepted :
  cnpj_bem_formado "68387380000100" /\
  (0 < 14)%nat /\ is_digit "8" = true /\
  String.get 0 "68387380000100" <> Some "8"%char /\
  _validar_cnpj (Some (trocar 0 "8" "68387380000100")) = true.
Proof.
  repeat split; try reflexivity; try lia. simpl. discriminate.
Qed.
End TaxId.

Section AccessKey.
Import PyStr DataSanitizer SanitizerProps.

(** C9.  Access-key sanitization is idempotent; on a failed result
    ([None]) it gives [None], and a successful result is 44 digits which
    it returns unchanged. *)
Theorem sanitize_chave_acesso_idempotent (x : option string) :
  sanitize_chave_acesso (sanitize_chave_acesso x) = sanitize_chave_acesso x
  /\ sanitize_chave_acesso None = None
  /\ match sanitize_chave_acesso x with
     | Some r =>
         String.length r = 44%nat /\ forall_str is_digit r = true /\
         sanitize_chave_acesso (Some r) = Some r
     | None => True
     end.
Proof.
  destruct (sanitize_chave_acesso x) as [r|] eqn:E.
  - destruct (sanitize_chave_forma x r E) as [Hd Hl].
    pose proof (sanitize_chave_fixo r Hd Hl) as Hf.
    repeat split; assumption.
  - repeat split; reflexivity.
Qed.
End AccessKey.

Section XmlExtraction.
Import PyStr PyNum Modelo Xml XMLSecurityValidator XMLExtractor Dashboard.

Variable decode_utf8 : list Byte.byte -> option string.
Variable fromstring : string -> option Element.
Variable sanitize_string : string -> string.
Variable fromisoformat : string -> option DateTime.
Variable decode_replace : list Byte.byte -> string.
Variable agora : DateTime.

Local Abbreviation extrair :=
  (extrair_dados_xml decode_utf8 fromstring sanitize_string fromisoformat
     decode_replace agora).

(** C4.  On more than 10 MiB of input the safe parser and the extractor
    return [None], and neither a decoding of the bytes nor a run of the
    parser is among the events: the only things that happen are the audit
    entry, the size warning and the failure line. *)
Theorem oversized_xml_rejected_before_parse (xml_content : list Byte.byte) :
  (MAX_XML_SIZE < len xml_content)%N ->
  parse_xml_safely decode_utf8 fromstring xml_content
    = (None, [Registro TamanhoExcedido]) /\
  fst (extrair xml_content) = None /\
  ~ In Decodifica (snd (extrair xml_content)) /\
  ~ In Analisa (snd (extrair xml_content)).
Proof.
  intros H. apply N.ltb_lt in H.
  assert (parse_xml_safely decode_utf8 fromstring xml_content
          = (None, [Registro TamanhoExcedido])) as Hp.
  { unfold parse_xml_safely, validate_xml_size. rewrite H. reflexivity. }
  split; [exact Hp|].
  unfold extrair_dados_xml. rewrite Hp. cbn [fst snd app].
  split; [reflexivity|].
  split; intros Hin; cbn [In] in Hin;
    repeat (destruct Hin as [Hin|Hin]; [discriminate Hin|]); exact Hin.
Qed.

(** C6.  The extractor returns [None] when the bytes are not strict
    UTF-8, when the parser refuses the text, when the local name of the
    root is neither [nfeProc] nor [NFe], and when no [infNFe] is found
    below the root (with the NF-e namespace, then unprefixed).  Nothing is
    stored then: no success entry reaches the auditor, and the upload
    handler leaves the store as it was. *)
Theorem xml_rejected_yields_none (xml_content : list Byte.byte) :
  ( decode_utf8 xml_content = None
    \/ (exists s, decode_utf8 xml_content = Some s /\ fromstring s = None)
    \/ (exists s root,
           decode_utf8 xml_content = Some s /\ fromstring s = Some root /\
           root_tag_local root <> "nfeProc" /\ root_tag_local root <> "NFe")
    \/ (exists s root,
           decode_utf8 xml_content = Some s /\ fromstring s = Some root /\
           find (nfe "infNFe") root = None /\ find "infNFe" root = None) ) ->
  fst (extrair xml_content) = None /\
  (forall t n, ~ In (Auditoria t n true) (snd (extrair xml_content))) /\
  (forall salvar d,
      salvar_extraida salvar (fst (extrair xml_content)) d = (false, d)).
Proof.
  intros H.
  assert (exists ev, parse_xml_safely decode_utf8 fromstring xml_content
                     = (None, ev) /\
                     forall t n, ~ In (Auditoria t n true) ev) as (ev & Hp & Hev).
  { unfold parse_xml_safely.
    destruct (validate_xml_size xml_content); cbn [negb].
    2:{ eexists; split; [reflexivity|].
        intros t n [E|[]]; discriminate E. }
    destruct H as [Hd | [(s & Hd & Hf) | [(s & root & Hd & Hf & H1 & H2)
                                         | (s & root & Hd & Hf & H1 & H2)]]];
      rewrite Hd; try rewrite Hf.
    - eexists; split; [reflexivity|].
      intros t n Hin; cbn [In] in Hin;
        repeat (destruct Hin as [Hin|Hin]; [discriminate Hin|]); exact Hin.
    - eexists; split; [reflexivity|].
      intros t n Hin; cbn [In] in Hin;
        repeat (destruct Hin as [Hin|Hin]; [discriminate Hin|]); exact Hin.
    - unfold _validate_xml_structure.
      apply String.eqb_neq in H1, H2. rewrite H1, H2. cbn [orb negb].
      eexists; split; [reflexivity|].
      intros t n Hin; cbn [In app] in Hin;
        repeat (destruct Hin as [Hin|Hin]; [discriminate Hin|]); exact Hin.
    - unfold _validate_xml_structure, achar_inf_nfe. rewrite H1, H2.
      destruct (negb _); cbn [negb];
        (eexists; split; [reflexivity|]);
        intros t n Hin; cbn [In app] in Hin;
        repeat (destruct Hin as [Hin|Hin]; [discriminate Hin|]); exact Hin. }
  unfold extrair_dados_xml. rewrite Hp. cbn [fst snd].
  split; [reflexivity|]. split; [|reflexivity].
  intros t n Hin. apply in_app_or in Hin as [Hin|Hin].
  - destruct Hin as [E|[]]. discriminate E.
  - apply in_app_or in Hin as [Hin|Hin]; [exact (Hev t n Hin)|].
    destruct Hin as [E|[]]. discriminate E.
Qed.

Local Abbreviation extrair_seguros :=
  (_extrair_dados_seguros sanitize_string fromisoformat decode_replace agora).

(** C10.  Once [infNFe] is located, the extraction returns [None] as soon
    as one of [ide], [emit], [total] is absent or is present without
    children.  The recipient [dest] is only tested for presence: with the
    three mandatory elements non-empty and [ICMSTot] found, a record comes
    out whatever [dest] is, and its recipient name is [None] exactly when
    [dest] is absent. *)
Theorem childless_mandatory_element_rejected
        (root : Element) (xml_content : list Byte.byte)
        (inf : Element) (com_ns : bool) :
  localizar_inf_nfe root = (Some inf, com_ns) ->
  ( (exists tag, In tag ["ide"; "emit"; "total"] /\
       (achar com_ns tag inf = None \/
        exists e, achar com_ns tag inf = Some e /\ filhos_de e = [])) ->
    extrair_seguros root xml_content = None )
  /\
  ( elem_truthy (achar com_ns "ide" inf) = true ->
    elem_truthy (achar com_ns "emit" inf) = true ->
    elem_truthy (achar com_ns "total" inf) = true ->
    (exists tot icms, achar com_ns "total" inf = Some tot /\
                      achar com_ns "ICMSTot" tot = Some icms) ->
    exists nota,
      extrair_seguros root xml_content = Some nota /\
      (nome_destinatario nota = None <-> achar com_ns "dest" inf = None) ).
Proof.
  intros Hloc. unfold _extrair_dados_seguros.
  rewrite Hloc. split.
  - intros (tag & Hin & Hvazio).
    assert (elem_truthy (achar com_ns tag inf) = false) as Hf.
    { destruct Hvazio as [-> | (e & -> & He)]; [reflexivity|].
      unfold elem_truthy. rewrite He. reflexivity. }
    cbn [forallb].
    destruct Hin as [<- | [<- | [<- | []]]]; rewrite Hf;
      rewrite ?andb_false_r; reflexivity.
  - intros Hi He Ht (tot & icms & Htot & Hicms).
    cbn [forallb]. rewrite Hi, He, Ht. cbn [andb negb].
    rewrite Htot, Hicms.
    eexists; split; [reflexivity|]. cbn [nome_destinatario].
    destruct (achar com_ns "dest" inf); split; intros E;
      try discriminate E; reflexivity.
Qed.
End XmlExtraction.

Section XmlWitnesses.
Import PyStr PyNum Modelo Xml XMLSecurityValidator XMLExtractor Exemplos.

Lemma oversized_xml_rejected_before_parse_witness :
  parse_xml_safely (fun _ => None) (fun _ => None) xml_grande
  = (None, [Registro TamanhoExcedido]).
Proof.
  apply (oversized_xml_rejected_before_parse
           (fun _ => None) (fun _ => None) (fun s => s) (fun _ => None)
           (fun _ => EmptyString) 0 xml_grande).
  unfold len, xml_grande. rewrite repeat_length, N2Nat.id. reflexivity.
Defined.

Lemma xml_rejected_yields_none_witness :
  fst (extrair_dados_xml decode_ascii fromstring_sem_inf (fun s => s)
         (fun _ => None) (fun _ => EmptyString) 0
         (list_byte_of_string texto_sem_inf)) = None.
Proof.
  apply (xml_rejected_yields_none
           decode_ascii fromstring_sem_inf (fun s => s) (fun _ => None)
           (fun _ => EmptyString) 0 (list_byte_of_string texto_sem_inf)).
  right. right. right.
  exists texto_sem_inf, nfe_sem_inf.
  repeat split; reflexivity.
Defined.

Lemma childless_mandatory_element_rejected_witness :
  _extrair_dados_seguros (fun s => s) (fun _ => None)
    (fun _ => EmptyString) 0 nfe_ide_vazio [] = None.
Proof.
  refine (proj1 (childless_mandatory_element_rejected
                   (fun s => s) (fun _ => None) (fun _ => EmptyString) 0
                   nfe_ide_vazio []
                   (Elem "infNFe" [("Id", "NFe123")] None
                      [ Elem "ide" [] None [];
                        Elem "emit" [] None [Elem "xNome" [] (Some "ACME") []];
                        Elem "total" [] None
                          [Elem "ICMSTot" [] None
                             [Elem "vNF" [] (Some "10.00") []]] ])
                   false _) _).
  - reflexivity.
  - exists "ide". split; [left; reflexivity|].
    right. exists (Elem "ide" [] None []). split; reflexivity.
Defined.
End XmlWitnesses.

Section Validation.
Import PyStr PyNum Modelo ValidadorNF ValidadorProps.

(** C8.  Validation of an invoice always returns a boolean (every
    exception of the checks is turned into [False] inside).  The invoice
    it leaves agrees with the one it was given on every field but the
    total, and the total is either untouched or was a string that is now
    the float read from it with commas as dots.  On [None] the answer is
    [False]. *)
Theorem validation_only_coerces_total (agora : DateTime) (nota : NotaFiscal) :
  exists (b : bool) (nota' : NotaFiscal),
    validar_nota_fiscal agora nota = (b, nota') /\
    validar agora (Some nota) = (b, Some nota') /\
    validar agora None = (false, None) /\
    mesmos_outros_campos nota nota' /\
    ( nota' = nota \/
      exists s f, valor_total nota = VStr s /\
                  py_float (replace "," "." s) = Some f /\
                  valor_total nota' = VFloat f ).
Proof.
  destruct (validar_nota_fiscal agora nota) as [b nota'] eqn:E.
  exists b, nota'. split; [reflexivity|].
  split; [unfold validar; rewrite E; reflexivity|].
  split; [reflexivity|].
  pose proof (validar_nota_fiscal_efeito agora nota) as H.
  rewrite E in H. cbn [snd] in H. destruct H as [H|H].
  - rewrite H. split; [apply mesmos_outros_campos_refl|left; reflexivity].
  - pose proof (validar_valores_efeito nota) as H1. rewrite <- H in H1.
    destruct H1 as [H1|(s & f & Hs & Hf & H1)]; rewrite H1.
    + split; [apply mesmos_outros_campos_refl|left; reflexivity].
    + split; [apply mesmos_outros_campos_set|].
      right. exists s, f. repeat split; assumption.
Qed.
End Validation.

Section Pdf.
Import PyStr PyNum Modelo PDFExtractor ValidadorNF ValidadorProps PdfProps.

Variable abrir_pdf : list Byte.byte -> option (list (option string)).
Variable re_search : Padrao -> string -> option Match.
Variable strptime : string -> option DateTime.
Variable agora : DateTime.

(** C7 (what the code does).  Take a readable PDF whose text has no match
    for the total-value pattern.  When the operation-nature pattern does
    not match either, the extractor returns a record whose total is the
    int 0, and the validator rejects that record and leaves it unchanged.
    When the operation-nature pattern matches, [match.group(1)] raises on
    its group-less match and the extractor returns [None]. *)
Theorem pdf_without_total_value (pdf_bytes : list Byte.byte)
        (paginas : list (option string)) :
  (forall p t m, re_search p t = Some m -> List.length m = ngrupos p) ->
  abrir_pdf pdf_bytes = Some paginas ->
  re_search P_valor (texto_das_paginas paginas) = None ->
  match re_search P_natureza (texto_das_paginas paginas) with
  | Some _ =>
      extrair_dados_pdf abrir_pdf re_search strptime agora pdf_bytes = None
  | None =>
      exists nota,
        extrair_dados_pdf abrir_pdf re_search strptime agora pdf_bytes
        = Some nota /\
        valor_total nota = VInt 0 /\
        forall quando, validar_nota_fiscal quando nota = (false, nota)
  end.
Proof.
  intros Hg Hab Hval. unfold extrair_dados_pdf. rewrite Hab.
  set (t := texto_das_paginas paginas) in *.
  unfold extrair_do_texto.
  destruct (extrair_valor_retorna re_search Hg (fun s => s) P_cnpj t
              CNPJ_PADRAO ltac:(simpl; lia)) as [a1 ->].
  destruct (extrair_valor_retorna re_search Hg (fun s => s) P_numero t
              NUMERO_PADRAO ltac:(simpl; lia)) as [a2 ->].
  destruct (extrair_valor_retorna re_search Hg Some P_data t
              None ltac:(simpl; lia)) as [a3 ->].
  destruct (extrair_valor_retorna re_search Hg (fun s => s) P_serie t
              SERIE_PADRAO ltac:(simpl; lia)) as [a4 ->].
  destruct (extrair_valor_retorna re_search Hg (fun s => s) P_emitente t
              EMITENTE_PADRAO ltac:(simpl; lia)) as [a5 ->].
  destruct (extrair_valor_retorna re_search Hg (fun s => s) P_chave t
              CHAVE_PADRAO ltac:(simpl; lia)) as [a7 ->].
  assert (extrair_valor re_search VStr P_valor t (VInt 0) = Ok (VInt 0))
    as -> by (unfold extrair_valor; rewrite Hval; reflexivity).
  cbn [bind].
  destruct (re_search P_natureza t) as [m|] eqn:En.
  - rewrite (extrair_valor_natureza re_search Hg (fun s => s) t
               NATUREZA_PADRAO m En).
    reflexivity.
  - unfold extrair_valor at 1. rewrite En.
    eexists. split; [reflexivity|]. split; [reflexivity|].
    intros quando. apply validar_nota_fiscal_zero. reflexivity.
Qed.
End Pdf.

Section PdfWitness.
Import PyStr PyNum Modelo PDFExtractor Exemplos.

Lemma pdf_without_total_value_witness :
  extrair_dados_pdf (fun _ => Some paginas_natureza) re_search_natureza
    (fun _ => None) 0 [] = None.
Proof.
  refine (pdf_without_total_value
            (fun _ => Some paginas_natureza) re_search_natureza
            (fun _ => None) 0 [] paginas_natureza _ _ _).
  - intros p t m. destruct p; simpl; try discriminate.
    destruct (String.eqb t "NATUREZA DE OPERACAO"); [|discriminate].
    intros [= <-]. reflexivity.
  - reflexivity.
  - reflexivity.
Defined.
End PdfWitness.

Section Numeric.
Import PyStr PyNum DataSanitizer Dashboard.

(** C5 (at the input of the claim).  [sanitize_numeric_value] turns every
    comma into a dot and nothing else: on [1.234,56] the text handed to
    [float] is [1.234.56], which is refused, and the result is [0.0].  The
    converter of the items role removes the dots first when both
    separators occur and returns 1234.56 on the same input. *)
Theorem numeric_sanitizer_on_thousands_separator
        (str_de_float : PyFloat -> string) :
  sanitize_numeric_value (VStr "1.234,56") = Ok zero /\
  mesmo_float (converter_valor_numerico str_de_float (VStr "1.234,56"))
              (FFin 1234.56).
Proof.
  split; [reflexivity|]. vm_compute. reflexivity.
Qed.
End Numeric.

Section Archive.
Import PyStr Dashboard ZipProps.

(** C3 (as the code has it).  The walker processes the entries that are
    not directories in this order: first those whose lower-cased name
    contains [cabecalho] or [header], then those that contain neither
    these nor [itens]/[items], last those that contain [itens] or [items]
    and neither [cabecalho] nor [header]; inside a group the order of the
    archive is kept.  The order is a rearrangement of the entries that
    goes up in rank, the extractors receive the supported entries in that
    order, and [items.csv, other.pdf, header.csv] is processed as
    [header.csv, other.pdf, items.csv]. *)
Theorem archive_processing_order (file_list : list string) :
  arquivos_ordenados file_list =
    (filter no_cabecalho (arquivos file_list)
     ++ filter nos_outros (arquivos file_list)
     ++ filter no_itens (arquivos file_list))%list
  /\ Permutation (arquivos file_list) (arquivos_ordenados file_list)
  /\ StronglySorted antes (arquivos_ordenados file_list)
  /\ ordem_de_processamento file_list =
       filter (fun n => match tipo_de n with
                        | Some _ => true
                        | None => false
                        end) (arquivos_ordenados file_list)
  /\ ordem_de_processamento ["items.csv"; "other.pdf"; "header.csv"]
     = ["header.csv"; "other.pdf"; "items.csv"].
Proof.
  split; [apply arquivos_ordenados_filtros|].
  split; [rewrite arquivos_ordenados_filtros; apply tres_grupos_permutacao|].
  split; [apply arquivos_ordenados_ordenada|].
  split; [apply ordem_de_processamento_filtro|reflexivity].
Qed.

(** C3 as stated fails on a name that contains both kinds of keyword: in
    the bundle [header_items.csv, other.pdf] the first entry contains
    [items] and is processed first, before an entry that contains none of
    the keywords. *)
Lemma items_named_entry_processed_first :
  ordem_de_processamento ["header_items.csv"; "other.pdf"]
  = ["header_items.csv"; "other.pdf"] /\
  contains "items" (lower "header_items.csv") = true /\
  e_itens (lower "other.pdf") = false /\
  e_cabecalho (lower "other.pdf") = false.
Proof. repeat split; reflexivity. Qed.
End Archive.

Section ItemsFile.
Import PyStr PyNum Modelo Dashboard.

Variable decodificar : list Byte.byte -> string.
Variable read_csv : string -> ascii -> option DataFrame.
Variable _processar_csv_cabecalho :
  DataFrame -> string -> Estado -> option (list NotaFiscal) * Estado.
Variable _processar_csv_tradicional :
  DataFrame -> string -> Estado -> option (list NotaFiscal) * Estado.
Variable faltantes_itens : DataFrame -> list string.
Variable processar_linhas_itens : DataFrame -> Db -> Db * nat * nat.

Local Abbreviation upload :=
  (processar_csv_upload decodificar read_csv _processar_csv_cabecalho
     _processar_csv_tradicional faltantes_itens processar_linhas_itens).

(** C2 (as the code has it).  For a file of the items role and a store
    without invoices, whatever the rows are and whatever the row loop
    would do: the store is left as it was, at least one error message is
    shown, and the result is the empty list when the file parses to a
    table with a row and a column, and [None] when it does not.  Called
    directly on such a store, [_processar_csv_itens] also returns the
    empty list and leaves the store as it was. *)
Theorem items_file_blocked_without_invoices
        (file_content : list Byte.byte) (filename : string) (st : Estado) :
  papel filename = Itens ->
  notas_fiscais (db st) = [] ->
  db (snd (upload file_content filename st)) = db st /\
  (exists ms t, tela (snd (upload file_content filename st))
                = (tela st ++ ms)%list /\ In (Erro, t) ms) /\
  fst (upload file_content filename st)
  = match tentar_delimitadores read_csv (decodificar file_content)
            delimitadores None with
    | Some df => if df_empty df then None else Some []
    | None => None
    end /\
  (conectavel (db st) = true ->
   forall tabela,
     fst (_processar_csv_itens faltantes_itens processar_linhas_itens
            tabela filename st) = Some [] /\
     db (snd (_processar_csv_itens faltantes_itens processar_linhas_itens
                tabela filename st)) = db st).
Proof.
  intros Hp Hn.
  assert (conectavel (db st) = true ->
          forall tabela,
            fst (_processar_csv_itens faltantes_itens processar_linhas_itens
                   tabela filename st) = Some [] /\
            db (snd (_processar_csv_itens faltantes_itens
                       processar_linhas_itens tabela filename st)) = db st)
    as Hdir.
  { intros Hc tabela. unfold _processar_csv_itens, contar_notas.
    rewrite Hc, Hn. destruct (faltantes_itens tabela); split; reflexivity. }
  unfold processar_csv_upload.
  destruct (tentar_delimitadores read_csv (decodificar file_content)
              delimitadores None) as [tabela|];
    [destruct (df_empty tabela);
     [|rewrite Hp; unfold contar_notas;
       destruct (conectavel (db st));
       [rewrite Hn; cbn [List.length Nat.eqb]|]]|];
    cbn [fst snd mostrar db tela];
    (split; [reflexivity|]); (split; [|split; [reflexivity|exact Hdir]]).
  - exists [(Erro, NaoFoiPossivelProcessar)], NaoFoiPossivelProcessar.
    split; [reflexivity|left; reflexivity].
  - exists [(Erro, Bloqueado); (Erro, MotivoNenhumaNota);
            (Erro, SolucaoCabecalhoPrimeiro)], Bloqueado.
    split; [reflexivity|left; reflexivity].
  - exists [(Erro, ErroVerificarBanco)], ErroVerificarBanco.
    split; [reflexivity|left; reflexivity].
  - exists [(Erro, NaoFoiPossivelProcessar)], NaoFoiPossivelProcessar.
    split; [reflexivity|left; reflexivity].
Qed.
End ItemsFile.

Section ItemsFileExamples.
Import PyStr PyNum Modelo Dashboard Exemplos.

Lemma items_file_blocked_without_invoices_witness :
  fst (processar_csv_upload (fun _ => EmptyString) read_csv_um_item
         outro_papel outro_papel (fun _ => []) linhas_nao_tocadas
         [] "itens.csv" estado_vazio) = Some [].
Proof.
  refine (proj1 (proj2 (proj2
            (items_file_blocked_without_invoices
               (fun _ => EmptyString) read_csv_um_item outro_papel
               outro_papel (fun _ => []) linhas_nao_tocadas
               [] "itens.csv" estado_vazio _ _)))); reflexivity.
Defined.

(** C2 as stated fails on the result: with a store without invoices, an
    items file on which the reader finds no table (here the empty file)
    gives [None], not the empty list. *)
Lemma unparsable_items_file_returns_none :
  papel "itens.csv" = Itens /\
  notas_fiscais (db estado_vazio) = [] /\
  fst (processar_csv_upload (fun _ => EmptyString) read_csv_vazio
         outro_papel outro_papel (fun _ => []) linhas_nao_tocadas
         [] "itens.csv" estado_vazio) = None /\
  fst (processar_csv_upload (fun _ => EmptyString) read_csv_vazio
         outro_papel outro_papel (fun _ => []) linhas_nao_tocadas
         [] "itens.csv" estado_vazio) <> Some [].
Proof. repeat split; try reflexivity. discriminate. Qed.
End ItemsFileExamples.

(** * Further properties of the code *)

(** ** Strings and numbers *)

Module TextoProps.
Import PyStr PyStrProps PyNum DataSanitizer.


Lemma forall_str_impl (f g : ascii -> bool) s :
  (forall c, f c = true -> g c = true) ->
  forall_str f s = true -> forall_str g s = true.
Proof.
  intros Hfg. induction s as [|c r IH]; cbn [forall_str]; [reflexivity|].
  intros H. apply andb_true_iff in H as [Hc Hr].
  rewrite (Hfg c Hc), IH by assumption. reflexivity.
Qed.









End TextoProps.

Section NumericFinite.
Import PyStr PyStrProps PyNum DataSanitizer Dashboard TextoProps.

End NumericFinite.

(** ** Identifier sanitizers *)

Module IdProps.
Import PyStr PyStrProps PyNum DataSanitizer Cnpj CnpjProps ValidadorNF
       TextoProps.

(** Removing the occurrences of a text made of characters outside a class
    does not change what a filter on that class keeps. *)
Lemma filter_replace_vazio (f : ascii -> bool) a old' :
  forall_str (fun c => negb (f c)) (String a old') = true ->
  forall s k,
    forall_str (fun c => negb (f c)) (substring 0 k s) = true ->
    filter_str f (replace_from (String a old') "" k s) = filter_str f s.
Proof.
  intros Hold. induction s as [|c r IH]; intros k Hk.
  - reflexivity.
  - destruct k as [|k].
    + cbn [replace_from prefix].
      destruct (ascii_dec a c) as [->|Hne].
      * destruct (prefix old' r) eqn:Hp.
        -- cbn [forall_str] in Hold. apply andb_true_iff in Hold as [Hc Ho].
           apply negb_true_iff in Hc. cbn [filter_str append].
           rewrite Hc.
           replace (String.length (String c old') - 1)%nat
             with (String.length old')
             by (cbn [String.length]; lia).
           apply IH. apply prefix_correct in Hp. rewrite Hp. exact Ho.
        -- cbn [filter_str]. rewrite (IH 0%nat);
             [reflexivity|destruct r; reflexivity].
      * cbn [filter_str]. rewrite (IH 0%nat);
          [reflexivity|destruct r; reflexivity].
    + cbn [replace_from]. cbn [substring forall_str] in Hk.
      apply andb_true_iff in Hk as [Hc Hr]. apply negb_true_iff in Hc.
      cbn [filter_str]. rewrite Hc. apply IH, Hr.
Qed.

Lemma so_digitos_sem_marcador s :
  so_digitos (replace "NFe" "" s) = so_digitos s.
Proof.
  unfold so_digitos, replace.
  apply filter_replace_vazio; [reflexivity|destruct s; reflexivity].
Qed.

Lemma sanitize_chave_acesso_digitos (x : option string) :
  sanitize_chave_acesso x =
    match x with
    | None => None
    | Some s =>
        if is_empty s then None
        else if (String.length (so_digitos s) =? 44)%nat
             then Some (so_digitos s) else None
    end.
Proof.
  destruct x as [s|]; [|reflexivity].
  unfold sanitize_chave_acesso. rewrite so_digitos_sem_marcador.
  destruct (is_empty s); [reflexivity|].
  destruct (String.length (so_digitos s) =? 44)%nat; reflexivity.
Qed.

Lemma validar_chave_pelo_sanitizer (x : option string) :
  _validar_chave_acesso x =
    match sanitize_chave_acesso x with
    | Some r => negb (String.eqb r (repetir "0" 44))
    | None => false
    end.
Proof.
  destruct x as [s|]; [|reflexivity].
  unfold sanitize_chave_acesso, _validar_chave_acesso.
  destruct (is_empty s); [reflexivity|].
  destruct (String.length _ =? 44)%nat; cbn [negb]; [|reflexivity].
  destruct (String.eqb _ (repetir "0" 44)); reflexivity.
Qed.

End IdProps.

Section AccessKeyShape.
Import PyStr PyStrProps PyNum DataSanitizer ValidadorNF IdProps.

(** X2.  The access-key sanitizer returns the digits of a non-empty input
    when there are exactly 44 of them and [None] otherwise: removing the
    [NFe] marker never changes the outcome.  The key check of the
    validator accepts exactly the inputs on which the sanitizer succeeds
    with something else than 44 zeros. *)
Theorem access_key_sanitizer_keeps_the_digits (x : option string) :
  sanitize_chave_acesso x =
    match x with
    | None => None
    | Some s =>
        if is_empty s then None
        else if (String.length (so_digitos s) =? 44)%nat
             then Some (so_digitos s) else None
    end
  /\
  _validar_chave_acesso x =
    match sanitize_chave_acesso x with
    | Some r => negb (String.eqb r (repetir "0" 44))
    | None => false
    end.
Proof.
  split; [apply sanitize_chave_acesso_digitos
         |apply validar_chave_pelo_sanitizer].
Qed.
End AccessKeyShape.

Section TaxIdSanitizer.
Import PyStr PyStrProps PyNum DataSanitizer Cnpj CnpjProps.

Lemma sanitize_cnpj_forma (s : string) :
  is_empty s = false -> String.length (so_digitos s) = 14%nat ->
  exists r, sanitize_cnpj (Some s) = Some r /\
            String.length r = 18%nat /\ so_digitos r = so_digitos s.
Proof.
  intros He Hl. unfold sanitize_cnpj. rewrite He, Hl. cbn [Nat.eqb negb].
  pose proof (forall_filter_str is_digit s) as Hd. fold (so_digitos s) in Hd.
  remember (so_digitos s) as c eqn:Ec. clear Ec.
  quatorze c. separa_digitos Hd.
  eexists. split; [reflexivity|].
  cbn [substring append String.length]. split; [reflexivity|].
  unfold so_digitos. cbn [filter_str].
  repeat match goal with
         | H : is_digit ?a = true |- _ => rewrite !H; clear H
         end.
  reflexivity.
Qed.

(** X3.  A tax-id the sanitizer accepts comes back as 18 characters with
    the 14 digits of the input, and is a fixed point of the sanitizer.
    The tax-id check of the validator gives the same answer on the
    sanitized value as on the raw one; where the sanitizer gives [None]
    the validator refuses the raw value too. *)
Theorem tax_id_sanitizer_agrees_with_validator (x : option string) :
  match sanitize_cnpj x with
  | Some r =>
      String.length r = 18%nat /\
      sanitize_cnpj (Some r) = Some r /\
      exists s, x = Some s /\ so_digitos r = so_digitos s
  | None => _validar_cnpj x = false
  end
  /\ _validar_cnpj (sanitize_cnpj x) = _validar_cnpj x.
Proof.
  destruct x as [s|]; [|split; reflexivity].
  destruct (is_empty s) eqn:He.
  { unfold sanitize_cnpj, _validar_cnpj. rewrite He. split; reflexivity. }
  destruct (Nat.eqb_spec (String.length (so_digitos s)) 14) as [Hl|Hl].
  - destruct (sanitize_cnpj_forma s He Hl) as (r & Hr & Hlr & Hdr).
    rewrite Hr.
    assert (is_empty r = false) as Her by (destruct r; [discriminate Hlr|reflexivity]).
    assert (String.length (so_digitos r) = 14%nat) as Hl' by congruence.
    destruct (sanitize_cnpj_forma r Her Hl') as (r' & Hr' & _ & _).
    assert (r' = r) as ->.
    { unfold sanitize_cnpj in Hr, Hr'. rewrite He, Hl in Hr.
      rewrite Her, Hl', Hdr in Hr'. cbn [Nat.eqb negb] in Hr, Hr'.
      congruence. }
    split; [repeat split; [exact Hlr|exact Hr'|exists s; split; [reflexivity|exact Hdr]]|].
    unfold _validar_cnpj. rewrite He, Her, Hdr. reflexivity.
  - apply Nat.eqb_neq in Hl.
    unfold sanitize_cnpj, _validar_cnpj. rewrite He, Hl.
    split; reflexivity.
Qed.
End TaxIdSanitizer.

(** ** XML extraction *)

Module XmlProps.
Import PyStr PyStrProps PyNum Modelo Xml XMLSecurityValidator XMLExtractor
       DataSanitizer.

Lemma apos_ultimo_ausente sep s :
  contains_char sep s = false -> apos_ultimo sep s = None.
Proof.
  unfold contains_char. intros H. apply negb_false_iff in H.
  induction s as [|c r IH]; [reflexivity|].
  cbn [forall_str] in H. apply andb_true_iff in H as [Hc Hr].
  cbn [apos_ultimo]. rewrite (IH Hr).
  apply negb_true_iff in Hc. rewrite Ascii.eqb_sym, Hc. reflexivity.
Qed.

Lemma apos_ultimo_app sep a b :
  contains_char sep b = false ->
  apos_ultimo sep (a ++ String sep b) = Some b.
Proof.
  intros Hb. induction a as [|c r IH]; cbn [append apos_ultimo].
  - rewrite (apos_ultimo_ausente sep b Hb), Ascii.eqb_refl. reflexivity.
  - rewrite IH. reflexivity.
Qed.

Lemma contains_char_app sep a b :
  contains_char sep (a ++ String sep b) = true.
Proof.
  unfold contains_char. apply negb_true_iff.
  induction a as [|c r IH]; cbn [append forall_str].
  - rewrite Ascii.eqb_refl. reflexivity.
  - rewrite IH. apply andb_false_r.
Qed.

Lemma length_substring_le n s :
  (String.length (substring 0 n s) <= n)%nat.
Proof.
  revert s. induction n as [|n IH]; intros [|c r]; cbn; try lia.
  specialize (IH r). lia.
Qed.

Lemma length_flat_map_le {A B : Type} (f : A -> list B) (l : list A) :
  (forall a, List.length (f a) <= 1)%nat ->
  (List.length (flat_map f l) <= List.length l)%nat.
Proof.
  intros Hf. induction l as [|a l IH]; cbn [flat_map List.length]; [lia|].
  rewrite length_app. specialize (Hf a). lia.
Qed.

Section Registro.
Variable sanitize_string : string -> string.
Variable fromisoformat : string -> option DateTime.
Variable decode_replace : list Byte.byte -> string.
Variable agora : DateTime.

(** What a record returned by [_extrair_dados_seguros] is made of. *)
Lemma extrair_seguros_campos root xml_content nota :
  _extrair_dados_seguros sanitize_string fromisoformat decode_replace
    agora root xml_content = Some nota ->
  exists inf com_ns,
    localizar_inf_nfe root = (Some inf, com_ns) /\
    itens nota = _extrair_itens_seguros sanitize_string inf com_ns /\
    (exists f, valor_total nota = VFloat f) /\
    chave_acesso nota =
      sanitize_chave_acesso
        (Some (replace "NFe" "" (attrib_get (attrib_de inf) "Id"))) /\
    cnpj_emitente nota =
      sanitize_cnpj
        (Some (_get_text_safe (achar com_ns "emit" inf) "CNPJ" com_ns)) /\
    xml_original nota =
      Some (substring 0 (10 * 1000) (decode_replace xml_content)).
Proof.
  unfold _extrair_dados_seguros.
  destruct (localizar_inf_nfe root) as [[inf|] com_ns]; [|discriminate].
  destruct (negb _); [discriminate|].
  destruct (achar com_ns "total" inf) as [tot|]; [|discriminate].
  destruct (achar com_ns "ICMSTot" tot) as [icms|]; [|discriminate].
  intros [= <-]. exists inf, com_ns. cbn.
  repeat split. eexists. reflexivity.
Qed.

Lemma extrair_itens_limitado inf com_ns :
  (List.length (_extrair_itens_seguros sanitize_string inf com_ns)
   <= XMLExtractor.MAX_ITEMS_PER_NF)%nat.
Proof.
  unfold _extrair_itens_seguros.
  set (dets := achar_todos com_ns "det" inf).
  etransitivity.
  - apply length_flat_map_le. intros det.
    destruct (achar com_ns "prod" det); cbn; lia.
  - destruct (Nat.ltb_spec XMLExtractor.MAX_ITEMS_PER_NF
                (List.length dets)) as [H|H].
    + rewrite length_firstn. apply Nat.le_min_l.
    + exact H.
Qed.
End Registro.

End XmlProps.

Module ValidadorProps2.
Import PyStr PyStrProps PyNum Modelo Cnpj ValidadorNF ValidadorProps.

(** An invoice whose total is not a string goes through the validator
    untouched. *)
Lemma validar_sem_texto_nao_muda agora n :
  (forall s, valor_total n <> VStr s) ->
  snd (validar_nota_fiscal agora n) = n.
Proof.
  intros Hn.
  destruct (validar_nota_fiscal_efeito agora n) as [H|H]; [exact H|].
  rewrite H.
  destruct (validar_valores_efeito n) as [H1|(s & f & Hs & _)];
    [exact H1|].
  exfalso. exact (Hn s Hs).
Qed.

Lemma campos_sem_chave n :
  chave_acesso n = None -> _validar_campos_obrigatorios n = false.
Proof.
  intros H. unfold _validar_campos_obrigatorios. cbn [forallb].
  rewrite H. cbn [ausente negb andb]. rewrite !andb_false_r. reflexivity.
Qed.

Lemma campos_sem_cnpj n :
  cnpj_emitente n = None -> _validar_campos_obrigatorios n = false.
Proof.
  intros H. unfold _validar_campos_obrigatorios. cbn [forallb].
  rewrite H. cbn [ausente negb andb]. rewrite !andb_false_r. reflexivity.
Qed.

Lemma validar_sem_campos agora n :
  _validar_campos_obrigatorios n = false ->
  validar_nota_fiscal agora n = (false, n).
Proof. intros H. unfold validar_nota_fiscal. rewrite H. reflexivity. Qed.

End ValidadorProps2.

Section XmlRecords.
Import PyStr PyStrProps PyNum Modelo Xml XMLSecurityValidator XMLExtractor
       DataSanitizer ValidadorNF XmlProps ValidadorProps2 IdProps.

Variable sanitize_string : string -> string.
Variable fromisoformat : string -> option DateTime.
Variable decode_replace : list Byte.byte -> string.
Variable agora : DateTime.

Local Abbreviation extrair_seguros :=
  (_extrair_dados_seguros sanitize_string fromisoformat decode_replace agora).

(** X4.  A record extracted from XML holds at most 1000 line items and at
    most 10000 characters of the original text, however large the
    document is. *)
Theorem xml_record_is_bounded
        (root : Element) (xml_content : list Byte.byte) (nota : NotaFiscal) :
  extrair_seguros root xml_content = Some nota ->
  (List.length (itens nota) <= 1000)%nat /\
  exists t, xml_original nota = Some t /\
            (String.length t <= 10 * 1000)%nat.
Proof.
  intros H.
  destruct (extrair_seguros_campos _ _ _ _ _ _ _ H)
    as (inf & com_ns & _ & Hi & _ & _ & _ & Hx).
  split.
  - rewrite Hi. apply extrair_itens_limitado.
  - eexists. split; [exact Hx|]. apply length_substring_le.
Qed.

(** X5.  The access key of a record extracted from XML is the digits of
    the [Id] attribute of [infNFe] when there are exactly 44 of them:
    [NFe] followed by 44 digits gives these digits back.  With any other
    number of digits the record has no access key, and the validator
    rejects it. *)
Theorem xml_access_key_is_the_digits_of_id
        (root : Element) (xml_content : list Byte.byte) (nota : NotaFiscal)
        (inf : Element) :
  extrair_seguros root xml_content = Some nota ->
  fst (localizar_inf_nfe root) = Some inf ->
  let id := attrib_get (attrib_de inf) "Id" in
  chave_acesso nota =
    (if (String.length (so_digitos id) =? 44)%nat
     then Some (so_digitos id) else None) /\
  (forall k, id = "NFe" ++ k -> String.length k = 44%nat ->
             forall_str is_digit k = true -> chave_acesso nota = Some k) /\
  (String.length (so_digitos id) <> 44%nat ->
   forall quando, validar_nota_fiscal quando nota = (false, nota)).
Proof.
  intros H Hinf id.
  destruct (extrair_seguros_campos _ _ _ _ _ _ _ H)
    as (inf' & com_ns & Hloc & _ & _ & Hc & _ & _).
  rewrite Hloc in Hinf. cbn [fst] in Hinf. injection Hinf as ->.
  fold id in Hc.
  assert (chave_acesso nota =
            (if (String.length (so_digitos id) =? 44)%nat
             then Some (so_digitos id) else None)) as Hk.
  { rewrite Hc.
    rewrite sanitize_chave_acesso_digitos.
    rewrite so_digitos_sem_marcador.
    destruct (is_empty (replace "NFe" "" id)) eqn:He; [|reflexivity].
    assert (so_digitos id = EmptyString) as ->.
    { rewrite <- so_digitos_sem_marcador.
      destruct (replace "NFe" "" id); [reflexivity|discriminate He]. }
    reflexivity. }
  split; [exact Hk|]. split.
  - intros k Hid Hl Hd. rewrite Hk, Hid.
    change (so_digitos ("NFe" ++ k)) with (so_digitos k).
    unfold so_digitos. rewrite (filter_str_id _ _ Hd), Hl. reflexivity.
  - intros Hne quando. apply Nat.eqb_neq in Hne. rewrite Hne in Hk.
    apply validar_sem_campos, campos_sem_chave, Hk.
Qed.

(** X6.  The validator never changes a record extracted from XML: its
    total is a float already, so the in-place coercion has nothing to
    do. *)
Theorem validation_leaves_xml_record_unchanged
        (root : Element) (xml_content : list Byte.byte) (nota : NotaFiscal)
        (quando : DateTime) :
  extrair_seguros root xml_content = Some nota ->
  snd (validar_nota_fiscal quando nota) = nota.
Proof.
  intros H.
  destruct (extrair_seguros_campos _ _ _ _ _ _ _ H)
    as (_ & _ & _ & _ & (f & Hf) & _).
  apply validar_sem_texto_nao_muda. intros s Hs. congruence.
Qed.
End XmlRecords.

Section XmlRecordsWitnesses.
Import PyStr PyNum Modelo Xml XMLExtractor ValidadorNF Exemplos2.

Local Abbreviation extrair_minima :=
  (_extrair_dados_seguros (fun s => s) (fun _ => Some 1000)
     (fun _ => EmptyString) 0 nfe_minima []).

Lemma xml_record_is_bounded_witness :
  exists nota,
    extrair_minima = Some nota /\ (List.length (itens nota) <= 1000)%nat.
Proof.
  eexists. split; [reflexivity|].
  refine (proj1 (xml_record_is_bounded (fun s => s) (fun _ => Some 1000)
                   (fun _ => EmptyString) 0 nfe_minima [] _ _)).
  reflexivity.
Defined.

Lemma xml_access_key_is_the_digits_of_id_witness :
  exists nota,
    extrair_minima = Some nota /\ chave_acesso nota = Some chave_exemplo.
Proof.
  eexists. split; [reflexivity|].
  refine (proj1 (proj2 (xml_access_key_is_the_digits_of_id
                          (fun s => s) (fun _ => Some 1000)
                          (fun _ => EmptyString) 0 nfe_minima [] _ _ _ _))
                chave_exemplo _ _ _); reflexivity.
Defined.

Lemma validation_leaves_xml_record_unchanged_witness :
  exists nota,
    extrair_minima = Some nota /\
    snd (validar_nota_fiscal 2000 nota) = nota.
Proof.
  eexists. split; [reflexivity|].
  refine (validation_leaves_xml_record_unchanged
            (fun s => s) (fun _ => Some 1000) (fun _ => EmptyString) 0
            nfe_minima [] _ 2000 _).
  reflexivity.
Defined.
End XmlRecordsWitnesses.

Section RootTag.
Import PyStr PyNum Xml XMLSecurityValidator XmlProps.

(** X7.  The root check looks at the local name only: a root [nfeProc] or
    [NFe] in any namespace passes it, and the structure check then
    succeeds exactly when an [infNFe] in the NF-e namespace or without
    namespace is found below the root. *)
Theorem root_check_ignores_namespace
        (uri local : string) (attrib : list (string * string))
        (text : option string) (filhos : list Element) :
  local = "nfeProc" \/ local = "NFe" ->
  let root := Elem ("{" ++ uri ++ "}" ++ local) attrib text filhos in
  root_tag_local root = local /\
  fst (_validate_xml_structure root) =
    match achar_inf_nfe root with
    | Some _ => true
    | None => false
    end.
Proof.
  intros Hl root.
  assert (contains_char "}" local = false) as Hc
    by (destruct Hl as [-> | ->]; reflexivity).
  assert (root_tag_local root = local) as Hr.
  { unfold root_tag_local, root. cbn [tag_de].
    change ("{" ++ uri ++ "}" ++ local)
      with (String "{" (uri ++ String "}" local)).
    change (String "{" (uri ++ String "}" local))
      with (("{" ++ uri) ++ String "}" local).
    rewrite contains_char_app. unfold ultimo_segmento.
    rewrite (apos_ultimo_app _ _ _ Hc). reflexivity. }
  split; [exact Hr|].
  unfold _validate_xml_structure. rewrite Hr.
  destruct Hl as [-> | ->]; cbn [String.eqb orb negb];
    destruct (achar_inf_nfe root); reflexivity.
Qed.

Lemma root_check_ignores_namespace_witness :
  root_tag_local (Elem ("{" ++ "urn:outro" ++ "}" ++ "NFe") [] None [])
  = "NFe".
Proof.
  refine (proj1 (root_check_ignores_namespace "urn:outro" "NFe" [] None []
                   _)).
  right. reflexivity.
Defined.
End RootTag.

(** ** What an accepted invoice satisfies *)

Module AceiteProps.
Import PyStr PyStrProps PyNum Modelo Cnpj CnpjProps ValidadorNF
       ValidadorProps.







Lemma validar_valores_de_float m f :
  valor_total m = VFloat f ->
  _validar_valores m =
    (if f_le f 0 then (false, m)
     else if f_gt f 999999999.99 then (false, m)
          else (forallb opcional_ok
                  [valor_icms m; valor_ipi m; valor_pis m; valor_cofins m],
                m)).
Proof.
  intros H. unfold _validar_valores, coagir_total. rewrite H.
  cbn [PyNum.numero]. rewrite H. reflexivity.
Qed.

Lemma validar_valores_de_texto n s f :
  valor_total n = VStr s -> py_float (replace "," "." s) = Some f ->
  _validar_valores n = _validar_valores (set_valor_total n (VFloat f)).
Proof.
  intros Hs Hf.
  rewrite (validar_valores_de_float (set_valor_total n (VFloat f)) f eq_refl).
  unfold _validar_valores, coagir_total. rewrite Hs. cbn [float_de].
  rewrite Hf. reflexivity.
Qed.

(** The value check gives the same answer on the invoice it leaves
    behind, and leaves that one as it is. *)
Lemma validar_valores_de_novo n :
  _validar_valores (snd (_validar_valores n)) = _validar_valores n.
Proof.
  destruct (validar_valores_efeito n) as [H|(s & f & Hs & Hf & H)];
    rewrite H; [reflexivity|].
  symmetry. exact (validar_valores_de_texto n s f Hs Hf).
Qed.

Lemma validar_valores_fixa n :
  snd (_validar_valores (snd (_validar_valores n)))
  = snd (_validar_valores n).
Proof. rewrite validar_valores_de_novo. reflexivity. Qed.

End AceiteProps.

Section Acceptance.
Import PyStr PyStrProps PyNum Modelo Cnpj CnpjProps ValidadorNF
       ValidadorProps AceiteProps IdProps.


(** X9.  Validating again the invoice a validation leaves behind, with
    the same clock, gives the same verdict and the same invoice. *)
Theorem validation_is_idempotent (agora : DateTime) (nota : NotaFiscal) :
  validar_nota_fiscal agora (snd (validar_nota_fiscal agora nota))
  = validar_nota_fiscal agora nota.
Proof.
  destruct (validar_nota_fiscal_efeito agora nota) as [H|H];
    [rewrite H; reflexivity|].
  rewrite H.
  pose proof (validar_valores_efeito nota) as Hef.
  destruct Hef as [He|(s & f & Hs & Hf & He)];
    [rewrite He; reflexivity|].
  rewrite He.
  destruct (negb (_validar_campos_obrigatorios nota)
            || negb (_validar_cnpj (cnpj_emitente nota))
            || negb (_validar_chave_acesso (chave_acesso nota))) eqn:Ec.
  - exfalso.
    assert (validar_nota_fiscal agora nota = (false, nota)) as Hv.
    { unfold validar_nota_fiscal.
      destruct (negb (_validar_campos_obrigatorios nota)); [reflexivity|].
      destruct (negb (_validar_cnpj (cnpj_emitente nota))); [reflexivity|].
      destruct (negb (_validar_chave_acesso (chave_acesso nota)));
        [reflexivity|discriminate Ec]. }
    rewrite Hv, He in H. cbn [snd] in H.
    apply (f_equal valor_total) in H. cbn [valor_total set_valor_total] in H.
    congruence.
  - apply orb_false_iff in Ec as [Ec E3].
    apply orb_false_iff in Ec as [E1 E2].
    unfold validar_nota_fiscal.
    change (_validar_campos_obrigatorios (set_valor_total nota (VFloat f)))
      with (_validar_campos_obrigatorios nota).
    change (cnpj_emitente (set_valor_total nota (VFloat f)))
      with (cnpj_emitente nota).
    change (chave_acesso (set_valor_total nota (VFloat f)))
      with (chave_acesso nota).
    rewrite E1, E2, E3.
    rewrite <- (validar_valores_de_texto nota s f Hs Hf). reflexivity.
Qed.

(** X10.  A total that reads as NaN is not rejected by the value check:
    both comparisons with a NaN are false, so the outcome depends on the
    four tax values only, and the invoice is left with a NaN total. *)
Theorem nan_total_passes_the_value_check (nota : NotaFiscal) (s : string) :
  valor_total nota = VStr s ->
  py_float (replace "," "." s) = Some FNan ->
  _validar_valores nota =
    (forallb opcional_ok
       [valor_icms nota; valor_ipi nota; valor_pis nota; valor_cofins nota],
     set_valor_total nota (VFloat FNan)).
Proof.
  intros Hs Hf. rewrite (validar_valores_de_texto nota s FNan Hs Hf).
  rewrite (validar_valores_de_float (set_valor_total nota (VFloat FNan))
             FNan eq_refl).
  reflexivity.
Qed.
End Acceptance.

Section AcceptanceWitnesses.
Import PyStr PyNum Modelo Cnpj ValidadorNF Exemplos2.


Lemma nan_total_passes_the_value_check_witness :
  fst (_validar_valores nota_nan) = true.
Proof.
  rewrite (nan_total_passes_the_value_check nota_nan "nan");
    reflexivity.
Defined.
End AcceptanceWitnesses.

(** ** PDF extraction *)

Module PdfProps2.
Import PyStr PyNum Modelo PDFExtractor PdfProps.

Section Texto.
Variable re_search : Padrao -> string -> option Match.
Variable strptime : string -> option DateTime.
Variable agora : DateTime.
Hypothesis grupos_do_padrao :
  forall p t m, re_search p t = Some m -> List.length m = ngrupos p.

(** The two ways the body of the extractor can end. *)
Lemma extrair_do_texto_casos (t : string) :
  match re_search P_natureza t with
  | Some _ =>
      extrair_do_texto re_search strptime agora t = Raise IndexError
  | None =>
      exists nota,
        extrair_do_texto re_search strptime agora t = Ok nota /\
        natureza_operacao nota = NATUREZA_PADRAO /\
        (exists d, data_emissao nota = Some d) /\
        (valor_total nota = VInt 0 \/ exists s, valor_total nota = VStr s) /\
        itens nota = []
  end.
Proof.
  unfold extrair_do_texto.
  destruct (extrair_valor_retorna re_search grupos_do_padrao
              (fun s => s) P_cnpj t CNPJ_PADRAO ltac:(simpl; lia))
    as [a1 ->].
  destruct (extrair_valor_retorna re_search grupos_do_padrao
              (fun s => s) P_numero t NUMERO_PADRAO ltac:(simpl; lia))
    as [a2 ->].
  destruct (extrair_valor_retorna re_search grupos_do_padrao
              Some P_data t None ltac:(simpl; lia)) as [a3 ->].
  destruct (extrair_valor_retorna re_search grupos_do_padrao
              (fun s => s) P_serie t SERIE_PADRAO ltac:(simpl; lia))
    as [a4 ->].
  destruct (extrair_valor_retorna re_search grupos_do_padrao
              (fun s => s) P_emitente t EMITENTE_PADRAO
              ltac:(simpl; lia)) as [a5 ->].
  destruct (extrair_valor_retorna re_search grupos_do_padrao
              (fun s => s) P_chave t CHAVE_PADRAO ltac:(simpl; lia))
    as [a7 ->].
  assert (extrair_valor re_search VStr P_valor t (VInt 0) = Ok (VInt 0)
          \/ exists s, extrair_valor re_search VStr P_valor t (VInt 0)
                       = Ok (VStr s)) as Hv.
  { unfold extrair_valor.
    destruct (re_search P_valor t) as [m|] eqn:E; [|left; reflexivity].
    apply grupos_do_padrao in E.
    destruct m as [|[g|] r]; [discriminate E| |left; reflexivity].
    right. exists g. reflexivity. }
  destruct (re_search P_natureza t) as [m|] eqn:En.
  - rewrite (extrair_valor_natureza re_search grupos_do_padrao
               (fun s => s) t NATUREZA_PADRAO m En).
    destruct Hv as [-> | [s ->]]; reflexivity.
  - unfold extrair_valor at 2. rewrite En.
    destruct Hv as [-> | [s ->]]; cbn [bind];
      (eexists; split; [reflexivity|]); cbn;
      repeat split; eauto.
Qed.
End Texto.

End PdfProps2.

Section PdfRecords.
Import PyStr PyNum Modelo PDFExtractor PdfProps PdfProps2.

Variable abrir_pdf : list Byte.byte -> option (list (option string)).
Variable re_search : Padrao -> string -> option Match.
Variable strptime : string -> option DateTime.
Variable agora : DateTime.

(** X11.  The PDF extractor returns [None] in exactly two situations: the
    bytes are not a readable PDF, or the operation-nature pattern matches
    the text (its match has no group to read).  No other pattern, matched
    or not, can make it fail. *)
Theorem pdf_extractor_fails_in_two_cases_only (pdf_bytes : list Byte.byte) :
  (forall p t m, re_search p t = Some m -> List.length m = ngrupos p) ->
  extrair_dados_pdf abrir_pdf re_search strptime agora pdf_bytes = None
  <->
  ( abrir_pdf pdf_bytes = None \/
    exists paginas m,
      abrir_pdf pdf_bytes = Some paginas /\
      re_search P_natureza (texto_das_paginas paginas) = Some m ).
Proof.
  intros Hg. unfold extrair_dados_pdf.
  destruct (abrir_pdf pdf_bytes) as [paginas|]; [|split; auto].
  pose proof (extrair_do_texto_casos re_search strptime agora Hg
                (texto_das_paginas paginas)) as Hc.
  destruct (re_search P_natureza (texto_das_paginas paginas)) as [m|]
    eqn:En.
  - rewrite Hc. split; [|reflexivity].
    intros _. right. exists paginas, m. split; [reflexivity|exact En].
  - destruct Hc as (nota & -> & _). split; [discriminate|].
    intros [H|(p & m & Hp & H)]; [discriminate H|].
    injection Hp as <-. rewrite En in H. discriminate H.
Qed.

(** X12.  In every record the PDF extractor returns, the operation nature
    is the default text [SEM NATUREZA] (the field is never read from the
    document), the issue date is present, the total is the int 0 or a
    string, and there are no line items. *)
Theorem pdf_record_never_has_an_operation_nature
        (pdf_bytes : list Byte.byte) (nota : NotaFiscal) :
  (forall p t m, re_search p t = Some m -> List.length m = ngrupos p) ->
  extrair_dados_pdf abrir_pdf re_search strptime agora pdf_bytes = Some nota ->
  natureza_operacao nota = "SEM NATUREZA" /\
  (exists d, data_emissao nota = Some d) /\
  (valor_total nota = VInt 0 \/ exists s, valor_total nota = VStr s) /\
  itens nota = [].
Proof.
  intros Hg. unfold extrair_dados_pdf.
  destruct (abrir_pdf pdf_bytes) as [paginas|]; [|discriminate].
  pose proof (extrair_do_texto_casos re_search strptime agora Hg
                (texto_das_paginas paginas)) as Hc.
  destruct (re_search P_natureza (texto_das_paginas paginas)) as [m|].
  - rewrite Hc. discriminate.
  - destruct Hc as (n & -> & Hn). intros [= <-]. exact Hn.
Qed.
End PdfRecords.

Section PdfRecordsWitnesses.
Import PyStr PyNum Modelo PDFExtractor Exemplos.

Lemma pdf_extractor_fails_in_two_cases_only_witness :
  extrair_dados_pdf (fun _ => Some paginas_natureza) re_search_natureza
    (fun _ => None) 0 [] = None
  <->
  ( Some paginas_natureza = None \/
    exists paginas m,
      Some paginas_natureza = Some paginas /\
      re_search_natureza P_natureza (texto_das_paginas paginas) = Some m ).
Proof.
  refine (pdf_extractor_fails_in_two_cases_only
            (fun _ => Some paginas_natureza) re_search_natureza
            (fun _ => None) 0 [] _).
  intros p t m. destruct p; simpl; try discriminate.
  destruct (String.eqb t "NATUREZA DE OPERACAO"); [|discriminate].
  intros [= <-]. reflexivity.
Defined.

Lemma pdf_record_never_has_an_operation_nature_witness :
  exists nota,
    extrair_dados_pdf (fun _ => Some []) (fun _ _ => None)
      (fun _ => None) 0 [] = Some nota /\
    natureza_operacao nota = "SEM NATUREZA".
Proof.
  eexists. split; [reflexivity|].
  refine (proj1 (pdf_record_never_has_an_operation_nature
                   (fun _ => Some []) (fun _ _ => None) (fun _ => None) 0
                   [] _ _ _)).
  - intros p t m H. discriminate H.
  - reflexivity.
Defined.
End PdfRecordsWitnesses.

(** ** CSV reading and the order of a bundle *)

Module CsvProps.
Import PyStr PyNum Modelo Dashboard ZipProps.

Section Leitura.
Variable read_csv : string -> ascii -> option DataFrame.
Variable csv_text : string.

Local Abbreviation tentar := (tentar_delimitadores read_csv csv_text).

Lemma tentar_origem ds acc f :
  tentar ds acc = Some f ->
  acc = Some f \/ exists d, In d ds /\ read_csv csv_text d = Some f.
Proof.
  revert acc. induction ds as [|d r IH]; intros acc;
    cbn [tentar_delimitadores].
  - intros H. left. exact H.
  - destruct (read_csv csv_text d) as [g|] eqn:E.
    + destruct (1 <? List.length (columns g))%nat.
      * intros H. injection H as ->. right. exists d.
        split; [left; reflexivity|exact E].
      * intros H. right. destruct (IH _ H) as [Ha|(d' & Hd & Hr)].
        -- injection Ha as ->. exists d.
           split; [left; reflexivity|exact E].
        -- exists d'. split; [right; exact Hd|exact Hr].
    + intros H. destruct (IH _ H) as [Ha|(d' & Hd & Hr)].
      * left. exact Ha.
      * right. exists d'. split; [right; exact Hd|exact Hr].
Qed.

Lemma tentar_none ds acc :
  tentar ds acc = None <->
  acc = None /\ forall d, In d ds -> read_csv csv_text d = None.
Proof.
  revert acc. induction ds as [|d r IH]; intros acc;
    cbn [tentar_delimitadores].
  - split; [intros H; split; [exact H|intros d []]|intros [H _]; exact H].
  - destruct (read_csv csv_text d) as [g|] eqn:E.
    + destruct (1 <? List.length (columns g))%nat.
      * split; [discriminate|].
        intros [_ H]. specialize (H d (or_introl eq_refl)). congruence.
      * rewrite IH. split; [intros [H _]; discriminate H|].
        intros [_ H]. specialize (H d (or_introl eq_refl)). congruence.
    + rewrite IH. split.
      * intros [Ha Hr]. split; [exact Ha|].
        intros d' [<-|Hd]; [exact E|exact (Hr d' Hd)].
      * intros [Ha Hr]. split; [exact Ha|].
        intros d' Hd. apply Hr. right. exact Hd.
Qed.

(** A table with at most one column comes out only when no delimiter
    of the list gives more than one. *)
Lemma tentar_uma_coluna ds acc f :
  tentar ds acc = Some f -> (List.length (columns f) <= 1)%nat ->
  forall d g, In d ds -> read_csv csv_text d = Some g ->
              (List.length (columns g) <= 1)%nat.
Proof.
  revert acc. induction ds as [|d r IH]; intros acc;
    cbn [tentar_delimitadores].
  - intros _ _ d g [].
  - destruct (read_csv csv_text d) as [h|] eqn:E.
    + destruct (Nat.ltb_spec 1 (List.length (columns h))) as [Hgt|Hle].
      * intros H Hf. injection H as <-. lia.
      * intros H Hf d' g [<-|Hd] Hg.
        -- rewrite E in Hg. injection Hg as <-. exact Hle.
        -- exact (IH _ H Hf d' g Hd Hg).
    + intros H Hf d' g [<-|Hd] Hg; [congruence|].
      exact (IH _ H Hf d' g Hd Hg).
Qed.
End Leitura.

Lemma classe_do_papel n :
  classe n = match papel n with
             | Cabecalho => 0
             | Tradicional => 1
             | Itens => 2
             end%nat.
Proof.
  unfold classe, papel, no_cabecalho, no_itens.
  destruct (e_cabecalho (lower n)); [reflexivity|].
  destruct (e_itens (lower n)); reflexivity.
Qed.

Lemma ordenada_depois (l1 : list string) a l2 :
  StronglySorted antes (l1 ++ a :: l2) -> Forall (antes a) l2.
Proof.
  induction l1 as [|x l1 IH]; cbn [app]; intros H;
    apply StronglySorted_inv in H as [Hs Hf]; [exact Hf|exact (IH Hs)].
Qed.

End CsvProps.

Section Delimiters.
Import PyStr PyNum Modelo Dashboard CsvProps.

Variable read_csv : string -> ascii -> option DataFrame.

(** X13.  The table the CSV handler works on comes from one of the four
    delimiters [;], [,], tab, [|]; there is none exactly when the reader
    raises on all four; a table read with [;] that has more than one
    column is the one used; and a table with at most one column is used
    only when no delimiter gives more than one column. *)
Theorem delimiter_detection (csv_text : string) :
  let df := tentar_delimitadores read_csv csv_text delimitadores None in
  (df = None <->
   forall d, In d delimitadores -> read_csv csv_text d = None) /\
  (forall f, df = Some f ->
             exists d, In d delimitadores /\ read_csv csv_text d = Some f) /\
  (forall f, read_csv csv_text ";" = Some f ->
             (1 < List.length (columns f))%nat -> df = Some f) /\
  (forall f, df = Some f -> (List.length (columns f) <= 1)%nat ->
             forall d g, In d delimitadores ->
                         read_csv csv_text d = Some g ->
                         (List.length (columns g) <= 1)%nat).
Proof.
  intros df. repeat split.
  - intros H. apply tentar_none in H. apply H.
  - intros H. apply tentar_none. split; [reflexivity|exact H].
  - intros f H. destruct (tentar_origem _ _ _ _ _ H) as [E|E];
      [discriminate E|exact E].
  - intros f Hf Hc. unfold df, delimitadores. cbn [tentar_delimitadores].
    rewrite Hf. apply Nat.ltb_lt in Hc. rewrite Hc. reflexivity.
  - intros f H Hc. exact (tentar_uma_coluna _ _ _ _ _ H Hc).
Qed.
End Delimiters.

Section BundleOrder.
Import PyStr PyNum Modelo Dashboard ZipProps CsvProps.

(** X14.  The groups of the archive walker are the roles of the CSV
    handler, and the processing order respects them: whatever is
    processed after an items-role entry is an items-role entry, and
    whatever is processed before a header-role entry is a header-role
    entry.  No header file is ever processed after an items file of the
    same bundle. *)
Theorem bundle_never_runs_headers_after_items
        (file_list l1 l2 l3 : list string) (a b : string) :
  arquivos_ordenados file_list = (l1 ++ a :: l2 ++ b :: l3)%list ->
  (papel a = Itens -> papel b = Itens) /\
  (papel b = Cabecalho -> papel a = Cabecalho).
Proof.
  intros H.
  pose proof (arquivos_ordenados_ordenada file_list) as Hs. rewrite H in Hs.
  apply ordenada_depois in Hs. rewrite Forall_forall in Hs.
  assert (antes a b) as Hab
    by (apply Hs, in_or_app; right; left; reflexivity).
  unfold antes in Hab. rewrite !classe_do_papel in Hab.
  destruct (papel a), (papel b); split; intros E;
    first [reflexivity | discriminate E | lia].
Qed.

Lemma bundle_never_runs_headers_after_items_witness :
  papel "header_a.csv" = Cabecalho.
Proof.
  refine (proj2 (bundle_never_runs_headers_after_items
                   ["header_a.csv"; "header_b.csv"] [] [] []
                   "header_a.csv" "header_b.csv" _) _);
    reflexivity.
Defined.
End BundleOrder.
Module RateProps.
Import RateLimiter.

Lemma lookup_store_same r k v : lookup (store r k v) k = Some v.
Proof.
  induction r as [|[k' w] t IH]; cbn [store lookup].
  - now rewrite String.eqb_refl.
  - destruct (String.eqb k k') eqn:E; cbn [lookup]; rewrite E; auto.
Qed.

Lemma lookup_store_other r k v k' :
  k' <> k -> lookup (store r k v) k' = lookup r k'.
Proof.
  intros Hne. induction r as [|[k0 w] t IH]; cbn [store lookup].
  - apply String.eqb_neq in Hne. now rewrite Hne.
  - destruct (String.eqb k k0) eqn:E; cbn [lookup].
    + apply String.eqb_eq in E. subst k0.
      apply String.eqb_neq in Hne. now rewrite Hne.
    + now rewrite IH.
Qed.

(** What a call leaves in the table for its own identifier. *)
Lemma is_allowed_proprio r agora k m w :
  let recentes := filter (fun x => agora - janela w <? x) (tempos r k) in
  let b := negb (m <=? Z.of_nat (List.length recentes)) in
  fst (is_allowed r agora k m w) = b /\
  tempos (snd (is_allowed r agora k m w)) k
  = (recentes ++ if b then [agora] else [])%list.
Proof.
  cbv zeta. unfold is_allowed.
  replace (match lookup r k with
           | Some l => filter (fun x => agora - janela w <? x) l
           | None => []
           end)
    with (filter (fun x => agora - janela w <? x) (tempos r k))
    by (unfold tempos; destruct (lookup r k); reflexivity).
  destruct (m <=? Z.of_nat
              (List.length (filter (fun x => agora - janela w <? x)
                              (tempos r k))));
    cbn [fst snd negb]; unfold tempos at 1 3;
    rewrite ?lookup_store_same, ?app_nil_r; auto.
Qed.

Lemma is_allowed_alheio r agora k m w k' :
  k' <> k -> lookup (snd (is_allowed r agora k m w)) k' = lookup r k'.
Proof.
  intros Hne. unfold is_allowed.
  match goal with
  | |- context [ m <=? ?x ] => destruct (m <=? x)
  end; cbn [snd]; rewrite ?lookup_store_other by assumption; reflexivity.
Qed.

Lemma filter_filter_janela (a b : Z) (l : list Z) :
  a <= b ->
  filter (fun x => b <? x) (filter (fun x => a <? x) l)
  = filter (fun x => b <? x) l.
Proof.
  intros Hab. induction l as [|x l IH]; cbn [filter]; auto.
  destruct (a <? x) eqn:Ea; cbn [filter].
  - now rewrite IH.
  - rewrite IH. destruct (b <? x) eqn:Eb; auto. lia.
Qed.

Lemma aceitas_cons t k b cs bs k' :
  aceitas ((t, k) :: cs) (b :: bs) k'
  = ((if b && String.eqb k' k then [t] else []) ++ aceitas cs bs k')%list.
Proof. cbn [aceitas]. destruct (b && String.eqb k' k); reflexivity. Qed.

(** Over a run under a monotone clock, the table and the accepted calls
    agree on every later window. *)
Lemma chamadas_janela m w :
  forall cs r0 (h : string -> list Z) t0 bs r,
    (forall k ws, t0 - janela w <= ws ->
                  filter (fun x => ws <? x) (tempos r0 k)
                  = filter (fun x => ws <? x) (h k)) ->
    chamadas m w r0 cs = (bs, r) ->
    forall tf k ws,
      monotono (t0 :: map fst cs ++ [tf]) = true ->
      tf - janela w <= ws ->
      filter (fun x => ws <? x) (tempos r k)
      = filter (fun x => ws <? x) (h k ++ aceitas cs bs k).
Proof.
  induction cs as [|[t1 k1] cs IH]; intros r0 h t0 bs r Hinv Hrun tf k ws Hm Hws.
  - cbn [chamadas] in Hrun. injection Hrun as <- <-.
    cbn [aceitas]. rewrite app_nil_r. apply Hinv.
    cbn [map app monotono] in Hm. rewrite andb_true_r in Hm. lia.
  - cbn [chamadas] in Hrun.
    destruct (is_allowed r0 t1 k1 m w) as [b r1] eqn:E1.
    destruct (chamadas m w r1 cs) as [bs' r2] eqn:E2.
    injection Hrun as <- <-.
    cbn [map fst app] in Hm.
    change (monotono (t0 :: t1 :: (map fst cs ++ [tf])%list))
      with ((t0 <=? t1) && monotono (t1 :: map fst cs ++ [tf])) in Hm.
    apply andb_true_iff in Hm. destruct Hm as [H01 Hm].
    rewrite aceitas_cons, app_assoc.
    refine (IH r1 (fun k' => (h k' ++ if b && String.eqb k' k1 then [t1] else [])%list)
               t1 bs' r2 _ E2 tf k ws Hm Hws).
    intros k' ws' Hws'.
    destruct (String.eqb_spec k' k1) as [->|Hne].
    + pose proof (is_allowed_proprio r0 t1 k1 m w) as Hp.
      cbv zeta in Hp. rewrite E1 in Hp. cbn [fst snd] in Hp.
      destruct Hp as [Hb Ht]. rewrite Ht, <- Hb, andb_true_r.
      rewrite !filter_app, filter_filter_janela by assumption.
      rewrite Hinv by lia. reflexivity.
    + rewrite andb_false_r, app_nil_r. unfold tempos.
      replace r1 with (snd (is_allowed r0 t1 k1 m w)) by now rewrite E1.
      rewrite is_allowed_alheio by assumption.
      apply (Hinv k' ws'). lia.
Qed.

Lemma monotono_inicio ts t :
  monotono (ts ++ [t]) = true -> monotono (hd t ts :: ts ++ [t]) = true.
Proof.
  destruct ts as [|a ts]; intros H.
  - cbn. now rewrite Z.leb_refl.
  - cbn [hd app] in *.
    change (monotono (a :: a :: (ts ++ [t])%list))
      with ((a <=? a) && monotono (a :: ts ++ [t])).
    now rewrite Z.leb_refl.
Qed.

(** A bounded table stays bounded. *)
Lemma chamadas_limite m w :
  0 <= m ->
  forall cs r0 bs r,
    (forall k l, lookup r0 k = Some l -> Z.of_nat (List.length l) <= m) ->
    chamadas m w r0 cs = (bs, r) ->
    forall k l, lookup r k = Some l -> Z.of_nat (List.length l) <= m.
Proof.
  intros Hm. induction cs as [|[t1 k1] cs IH]; intros r0 bs r Hinv Hrun.
  - cbn [chamadas] in Hrun. injection Hrun as <- <-. exact Hinv.
  - cbn [chamadas] in Hrun.
    destruct (is_allowed r0 t1 k1 m w) as [b r1] eqn:E1.
    destruct (chamadas m w r1 cs) as [bs' r2] eqn:E2.
    injection Hrun as <- <-.
    apply (IH r1 bs' r2); [|exact E2].
    intros k l Hl.
    destruct (String.eqb_spec k k1) as [->|Hne].
    + pose proof (is_allowed_proprio r0 t1 k1 m w) as Hp.
      cbv zeta in Hp. rewrite E1 in Hp. cbn [fst snd] in Hp.
      destruct Hp as [Hb Ht]. unfold tempos at 1 in Ht. rewrite Hl in Ht.
      subst l. rewrite length_app.
      assert (Hf : Z.of_nat (List.length
                     (filter (fun x => t1 - janela w <? x) (tempos r0 k1))) <= m).
      { pose proof (filter_length_le (fun x => t1 - janela w <? x) (tempos r0 k1)) as Hle.
        unfold tempos in *. destruct (lookup r0 k1) as [l0|] eqn:E0.
        - specialize (Hinv _ _ E0). lia.
        - cbn. lia. }
      clear Hb.
      destruct (Z.leb_spec m
                  (Z.of_nat (List.length
                     (filter (fun x => t1 - janela w <? x) (tempos r0 k1)))));
        cbn [negb List.length]; lia.
    + replace r1 with (snd (is_allowed r0 t1 k1 m w)) in Hl by now rewrite E1.
      rewrite is_allowed_alheio in Hl by assumption. eauto.
Qed.

End RateProps.

Section RateLimit.
Import RateLimiter.

(** X15.  Under a clock that never goes back, a call is answered [True]
    exactly when fewer than [max_requests] of the calls already accepted for
    the same identifier lie inside the window that ends at the call. *)
Theorem rate_limit_counts_the_window
        (max_requests window_minutes : Z) (cs : list (Z * string))
        (bs : list bool) (r : Requests) (agora : Z) (identifier : string) :
  monotono (map fst cs ++ [agora]) = true ->
  chamadas max_requests window_minutes [] cs = (bs, r) ->
  fst (is_allowed r agora identifier max_requests window_minutes) = true <->
  Z.of_nat (List.length
              (filter (fun t => agora - janela window_minutes <? t)
                      (aceitas cs bs identifier))) < max_requests.
Proof.
  intros Hm Hrun.
  pose proof (RateProps.is_allowed_proprio r agora identifier max_requests
                window_minutes) as Hp.
  cbv zeta in Hp. destruct Hp as [Hb _]. rewrite Hb.
  rewrite (RateProps.chamadas_janela max_requests window_minutes cs []
             (fun _ => []) (hd agora (map fst cs)) bs r
             (fun _ _ _ => eq_refl) Hrun agora identifier
             (agora - janela window_minutes)
             (RateProps.monotono_inicio _ _ Hm) (Z.le_refl _)).
  cbn [app]. rewrite negb_true_iff, Z.leb_gt. reflexivity.
Qed.

(** X16.  From the empty table, no identifier ever has more than
    [max_requests] times stored, whatever the clock does. *)
Theorem rate_limit_table_is_bounded
        (max_requests window_minutes : Z) (cs : list (Z * string))
        (bs : list bool) (r : Requests) (identifier : string) (l : list Z) :
  0 <= max_requests ->
  chamadas max_requests window_minutes [] cs = (bs, r) ->
  lookup r identifier = Some l ->
  Z.of_nat (List.length l) <= max_requests.
Proof.
  intros Hm Hrun Hl.
  apply (RateProps.chamadas_limite max_requests window_minutes Hm cs [] bs r)
    with (k := identifier); auto.
  intros k l0 H0. discriminate H0.
Qed.

(** X17.  A call for one identifier does not change the answer to a call
    for another one. *)
Theorem rate_limit_identifiers_are_independent
        (r : Requests) (t t' : Z) (k k' : string) (m w m' w' : Z) :
  k' <> k ->
  fst (is_allowed (snd (is_allowed r t k m w)) t' k' m' w')
  = fst (is_allowed r t' k' m' w').
Proof.
  intros Hne.
  pose proof (RateProps.is_allowed_proprio r t' k' m' w') as [H1 _].
  pose proof (RateProps.is_allowed_proprio (snd (is_allowed r t k m w))
                t' k' m' w') as [H2 _].
  rewrite H1, H2. unfold tempos.
  now rewrite RateProps.is_allowed_alheio.
Qed.

End RateLimit.

Lemma rate_limit_counts_the_window_witness :
  fst (RateLimiter.is_allowed
         [("email_processing", [0; 1000000])] 2000000 "email_processing" 3 60)
  = true <-> 2 < 3.
Proof.
  exact (rate_limit_counts_the_window 3 60
           [(0, "email_processing"); (1000000, "email_processing")]
           [true; true] [("email_processing", [0; 1000000])] 2000000
           "email_processing" eq_refl eq_refl).
Defined.

Lemma rate_limit_table_is_bounded_witness :
  Z.of_nat (List.length [0; 1000000]) <= 2.
Proof.
  exact (rate_limit_table_is_bounded 2 60
           [(0, "email_processing"); (1000000, "email_processing");
            (2000000, "email_processing")]
           [true; true; false] [("email_processing", [0; 1000000])]
           "email_processing" [0; 1000000] ltac:(lia) eq_refl eq_refl).
Defined.

Lemma rate_limit_identifiers_are_independent_witness :
  fst (RateLimiter.is_allowed
         (snd (RateLimiter.is_allowed [] 0 "a" 1 60)) 5 "b" 1 60)
  = fst (RateLimiter.is_allowed [] 5 "b" 1 60).
Proof.
  apply rate_limit_identifiers_are_independent. discriminate.
Defined.
Module MailProps.
Import PyStr PyNum Modelo PDFExtractor PdfProps Dashboard Emails.

Lemma prefix_app_l (a b s : string) :
  prefix (a ++ b) s = true -> prefix a s = true.
Proof.
  revert s. induction a as [|c a IH]; intros s H.
  - destruct s; reflexivity.
  - destruct s as [|d s]; [discriminate H|].
    cbn [append prefix] in *.
    destruct (Ascii.ascii_dec c d); [|discriminate H]. auto.
Qed.

Lemma contains_app_l (a b s : string) :
  contains (a ++ b) s = true -> contains a s = true.
Proof.
  induction s as [|d s IH]; cbn [contains]; intros H.
  - rewrite orb_false_r in *. eapply prefix_app_l; eassumption.
  - apply orb_true_iff in H. destruct H as [H|H].
    + erewrite prefix_app_l by eassumption. reflexivity.
    + rewrite IH by assumption. apply orb_true_r.
Qed.

Lemma contains_cons (c : ascii) (a s : string) :
  contains (String c a) s = true -> contains a s = true.
Proof.
  induction s as [|d s IH]; cbn [contains]; intros H.
  - rewrite orb_false_r in H. discriminate H.
  - apply orb_true_iff in H. destruct H as [H|H].
    + cbn [prefix] in H. destruct (Ascii.ascii_dec c d); [|discriminate H].
      assert (contains a s = true) as ->
          by (destruct s; cbn [contains]; rewrite H; reflexivity).
      apply orb_true_r.
    + rewrite IH by assumption. apply orb_true_r.
Qed.

Section Texto.
Variable re_search : Padrao -> string -> option Match.
Variable strptime : string -> option DateTime.
Variable agora : DateTime.
Hypothesis grupos_do_padrao :
  forall p t m, re_search p t = Some m -> List.length m = ngrupos p.

(** Without a match for the total, the body of the PDF extractor
    raises or returns a record whose total is the int 0. *)
Lemma extrair_do_texto_sem_valor (t : string) :
  re_search P_valor t = None ->
  extrair_do_texto re_search strptime agora t = Raise IndexError \/
  exists nota,
    extrair_do_texto re_search strptime agora t = Ok nota /\
    valor_total nota = VInt 0.
Proof.
  intros Hval. unfold extrair_do_texto.
  destruct (extrair_valor_retorna re_search grupos_do_padrao
              (fun s => s) P_cnpj t CNPJ_PADRAO ltac:(simpl; lia))
    as [a1 ->].
  destruct (extrair_valor_retorna re_search grupos_do_padrao
              (fun s => s) P_numero t NUMERO_PADRAO ltac:(simpl; lia))
    as [a2 ->].
  destruct (extrair_valor_retorna re_search grupos_do_padrao
              Some P_data t None ltac:(simpl; lia)) as [a3 ->].
  destruct (extrair_valor_retorna re_search grupos_do_padrao
              (fun s => s) P_serie t SERIE_PADRAO ltac:(simpl; lia))
    as [a4 ->].
  destruct (extrair_valor_retorna re_search grupos_do_padrao
              (fun s => s) P_emitente t EMITENTE_PADRAO
              ltac:(simpl; lia)) as [a5 ->].
  destruct (extrair_valor_retorna re_search grupos_do_padrao
              (fun s => s) P_chave t CHAVE_PADRAO ltac:(simpl; lia))
    as [a7 ->].
  assert (extrair_valor re_search VStr P_valor t (VInt 0) = Ok (VInt 0))
    as -> by (unfold extrair_valor; rewrite Hval; reflexivity).
  cbn [bind].
  destruct (re_search P_natureza t) as [m|] eqn:En.
  - rewrite (extrair_valor_natureza re_search grupos_do_padrao
               (fun s => s) t NATUREZA_PADRAO m En).
    left. reflexivity.
  - right. unfold extrair_valor at 1. rewrite En.
    eexists. split; reflexivity.
Qed.
End Texto.

Section Gravar.
Variable salvar_nota_fiscal : NotaFiscal -> Db -> bool * Db.
Variable agora : DateTime.

Lemma gravar_se_valida_casos (nota : option NotaFiscal) (d : Db) :
  (fst (gravar_se_valida salvar_nota_fiscal agora nota d) <> Gravada /\
   snd (gravar_se_valida salvar_nota_fiscal agora nota d) = d) \/
  (exists n n',
      nota = Some n /\
      ValidadorNF.validar_nota_fiscal agora n = (true, n') /\
      gravar_se_valida salvar_nota_fiscal agora nota d
      = (Gravada, snd (salvar_nota_fiscal n' d))).
Proof.
  unfold gravar_se_valida. destruct nota as [n|].
  - destruct (ValidadorNF.validar_nota_fiscal agora n) as [[|] n'] eqn:E.
    + right. exists n, n'. auto.
    + left. split; [discriminate|reflexivity].
  - left. split; [discriminate|reflexivity].
Qed.
End Gravar.

End MailProps.

Section Mail.
Import PyStr PyNum Modelo PDFExtractor Dashboard Emails.

Variable extrair_xml : list Byte.byte -> string -> option NotaFiscal.
Variable extrair_pdf : list Byte.byte -> option NotaFiscal.
Variable salvar_nota_fiscal : NotaFiscal -> Db -> bool * Db.
Variable agora : DateTime.

(** X18.  The mail loop touches the store in one situation only: the
    attachment is named [.xml] or [.pdf] (case ignored), has between 1
    byte and the limit of its type (10 MiB for XML, 50 MiB for PDF), the
    extractor of its type returned a record, and the validator accepted
    it; what is stored is then the record as the validator left it.  In
    every other case the store is what it was. *)
Theorem mail_stores_only_validated_invoices
        (filename_safe : string) (file_content : option (list Byte.byte))
        (d d' : Db) (r : Desfecho) :
  processar_anexo extrair_xml extrair_pdf salvar_nota_fiscal agora
    filename_safe file_content d = (r, d') ->
  (r <> Gravada /\ d' = d) \/
  (r = Gravada /\
   exists conteudo nota nota',
     file_content = Some conteudo /\
     (0 < List.length conteudo)%nat /\
     ((ends_with ".xml" (lower filename_safe) = true /\
       (N.of_nat (List.length conteudo) <= MAX_XML_SIZE)%N /\
       extrair_xml conteudo filename_safe = Some nota) \/
      (ends_with ".xml" (lower filename_safe) = false /\
       ends_with ".pdf" (lower filename_safe) = true /\
       (N.of_nat (List.length conteudo) <= MAX_PDF_SIZE)%N /\
       extrair_pdf conteudo = Some nota)) /\
     ValidadorNF.validar_nota_fiscal agora nota = (true, nota') /\
     d' = snd (salvar_nota_fiscal nota' d)).
Proof.
  unfold processar_anexo.
  destruct (ends_with ".xml" (lower filename_safe)) eqn:Ex;
    [|destruct (ends_with ".pdf" (lower filename_safe)) eqn:Ep];
    cbn [orb negb];
    try (intros [= <- <-]; left; split; [discriminate|reflexivity]).
  - destruct file_content as [[|b c]|];
      try (intros [= <- <-]; left; split; [discriminate|reflexivity]).
    destruct (N.ltb_spec MAX_XML_SIZE (N.of_nat (List.length (b :: c))))
      as [Hg|Hle];
      [intros [= <- <-]; left; split; [discriminate|reflexivity]|].
    intros H.
    destruct (MailProps.gravar_se_valida_casos salvar_nota_fiscal agora
                (extrair_xml (b :: c) filename_safe) d)
      as [[Hr Hd]|(n & n' & Hn & Hv & Hg)];
      rewrite H in *; cbn [fst snd] in *.
    + left. auto.
    + injection Hg as -> ->. right. split; [reflexivity|].
      exists (b :: c), n, n'.
      split; [reflexivity|]. split; [cbn; lia|].
      split; [left; auto|]. auto.
  - destruct file_content as [[|b c]|];
      try (intros [= <- <-]; left; split; [discriminate|reflexivity]).
    destruct (N.ltb_spec MAX_PDF_SIZE (N.of_nat (List.length (b :: c))))
      as [Hg|Hle];
      [intros [= <- <-]; left; split; [discriminate|reflexivity]|].
    intros H.
    destruct (MailProps.gravar_se_valida_casos salvar_nota_fiscal agora
                (extrair_pdf (b :: c)) d)
      as [[Hr Hd]|(n & n' & Hn & Hv & Hg)];
      rewrite H in *; cbn [fst snd] in *.
    + left. auto.
    + injection Hg as -> ->. right. split; [reflexivity|].
      exists (b :: c), n, n'.
      split; [reflexivity|]. split; [cbn; lia|].
      split; [right; auto|]. auto.
Qed.

Variable abrir_pdf : list Byte.byte -> option (list (option string)).
Variable re_search : Padrao -> string -> option Match.
Variable strptime : string -> option DateTime.

(** X19.  A PDF that reaches the mail loop and whose text has no match
    for the total-value pattern is never stored, whatever its name and
    its other fields: the extractor fails or gives the total 0, which the
    validator refuses. *)
Theorem mail_never_stores_pdf_without_total
        (filename_safe : string) (conteudo : list Byte.byte)
        (paginas : list (option string)) (d : Db) :
  (forall p t m, re_search p t = Some m -> List.length m = ngrupos p) ->
  ends_with ".xml" (lower filename_safe) = false ->
  abrir_pdf conteudo = Some paginas ->
  re_search P_valor (texto_das_paginas paginas) = None ->
  snd (processar_anexo extrair_xml
         (extrair_dados_pdf abrir_pdf re_search strptime agora)
         salvar_nota_fiscal agora filename_safe (Some conteudo) d) = d.
Proof.
  intros Hg Hx Hab Hval. unfold processar_anexo. rewrite Hx.
  destruct (ends_with ".pdf" (lower filename_safe)); cbn [orb negb];
    [|reflexivity].
  destruct conteudo as [|b c]; [reflexivity|].
  destruct (MAX_PDF_SIZE <? N.of_nat (List.length (b :: c)))%N;
    [reflexivity|].
  unfold extrair_dados_pdf. rewrite Hab.
  destruct (MailProps.extrair_do_texto_sem_valor re_search strptime agora
              Hg (texto_das_paginas paginas) Hval)
    as [->|(nota & -> & Hz)]; [reflexivity|].
  unfold gravar_se_valida.
  rewrite (ValidadorProps.validar_nota_fiscal_zero agora nota Hz).
  reflexivity.
Qed.

(** X20.  The subject filter accepts exactly the subjects that contain,
    case ignored, [nf], [xml] or [nota fiscal]: the four other keywords
    all contain [nf] and never decide. *)
Theorem subject_filter_is_three_keywords (subject : string) :
  assunto_aceito subject
  = contains "nf" (lower subject) || contains "xml" (lower subject)
    || contains "nota fiscal" (lower subject).
Proof.
  unfold assunto_aceito.
  replace (if is_empty subject then EmptyString else lower subject)
    with (lower subject) by (destruct subject; reflexivity).
  set (t := lower subject). cbn [existsb PALAVRAS_CHAVE].
  assert (H1 : contains "danfe" t = true -> contains "nf" t = true).
  { intros H. apply MailProps.contains_cons, MailProps.contains_cons in H.
    exact (MailProps.contains_app_l "nf" "e" t H). }
  assert (H2 : contains "nf-e" t = true -> contains "nf" t = true)
    by exact (MailProps.contains_app_l "nf" "-e" t).
  assert (H3 : contains "nfc-e" t = true -> contains "nf" t = true)
    by exact (MailProps.contains_app_l "nf" "c-e" t).
  assert (H4 : contains "nfe" t = true -> contains "nf" t = true)
    by exact (MailProps.contains_app_l "nf" "e" t).
  destruct (contains "nf" t); [now rewrite !orb_true_r|].
  destruct (contains "danfe" t); [now discriminate H1|].
  destruct (contains "nf-e" t); [now discriminate H2|].
  destruct (contains "nfc-e" t); [now discriminate H3|].
  destruct (contains "nfe" t); [now discriminate H4|].
  cbn [orb]. now rewrite orb_false_r.
Qed.
End Mail.

Section MailWitnesses.
Import PyStr PyNum Modelo PDFExtractor Dashboard Emails Exemplos2.

Lemma mail_stores_only_validated_invoices_witness :
  (Gravada <> Gravada /\
   snd (salvar_no_fim nota_valida db_vazio) = db_vazio) \/
  (Gravada = Gravada /\
   exists conteudo nota nota',
     Some [Byte.x00] = Some conteudo /\
     (0 < List.length conteudo)%nat /\
     ((ends_with ".xml" (lower "NFe-123.XML") = true /\
       (N.of_nat (List.length conteudo) <= MAX_XML_SIZE)%N /\
       Some nota_valida = Some nota) \/
      (ends_with ".xml" (lower "NFe-123.XML") = false /\
       ends_with ".pdf" (lower "NFe-123.XML") = true /\
       (N.of_nat (List.length conteudo) <= MAX_PDF_SIZE)%N /\
       None = Some nota)) /\
     ValidadorNF.validar_nota_fiscal 2000 nota = (true, nota') /\
     snd (salvar_no_fim nota_valida db_vazio)
     = snd (salvar_no_fim nota' db_vazio)).
Proof.
  refine (mail_stores_only_validated_invoices
            (fun _ _ => Some nota_valida) (fun _ => None) salvar_no_fim 2000
            "NFe-123.XML" (Some [Byte.x00]) db_vazio
            (snd (salvar_no_fim nota_valida db_vazio)) Gravada _).
  vm_compute. reflexivity.
Defined.

Lemma mail_never_stores_pdf_without_total_witness :
  snd (processar_anexo (fun _ _ => None)
         (extrair_dados_pdf (fun _ => Some []) (fun _ _ => None)
            (fun _ => None) 2000)
         salvar_no_fim 2000 "danfe.pdf" (Some [Byte.x00]) db_vazio)
  = db_vazio.
Proof.
  refine (mail_never_stores_pdf_without_total
            (fun _ _ => None) salvar_no_fim 2000 (fun _ => Some [])
            (fun _ _ => None) (fun _ => None) "danfe.pdf" [Byte.x00] []
            db_vazio _ _ _ _).
  - intros p t m H. discriminate H.
  - reflexivity.
  - reflexivity.
  - reflexivity.
Defined.
End MailWitnesses.
Module ItensProps.
Import PyStr PyNum Modelo Dashboard ItensCsv XmlProps.

Lemma posicao_do_numero_achada (numero_nf : string) (l : list NotaFiscal) :
  forall i k,
    posicao_do_numero numero_nf l i = Some k ->
    exists j n, k = (i + j)%nat /\ nth_error l j = Some n /\
                Modelo.numero n = numero_nf.
Proof.
  induction l as [|n l IH]; intros i k H; [discriminate H|].
  cbn [posicao_do_numero] in H.
  destruct (String.eqb_spec (Modelo.numero n) numero_nf) as [E|E].
  - injection H as <-. exists 0%nat, n.
    split; [lia|]. split; [reflexivity|exact E].
  - apply IH in H. destruct H as (j & m & -> & Hn & Hm).
    exists (S j), m. split; [lia|]. split; assumption.
Qed.

Lemma buscar_achada (d : Db) (numero_nf : string) (k : nat) :
  buscar_nota_fiscal_por_numero d numero_nf = Some (S k) ->
  conectavel d = true /\
  exists n, nth_error (notas_fiscais d) k = Some n /\
            Modelo.numero n = numero_nf.
Proof.
  unfold buscar_nota_fiscal_por_numero.
  destruct (conectavel d); [|discriminate].
  intros H. apply posicao_do_numero_achada in H.
  destruct H as (j & n & Hk & Hn & Hm).
  assert (j = k) as -> by lia. eauto.
Qed.

Lemma item_ligado_mesmas_notas (d d0 : Db) (item : Item) :
  notas_fiscais d = notas_fiscais d0 ->
  item_ligado d item -> item_ligado d0 item.
Proof.
  intros E (k & n & c & ds & m & H). rewrite E in H.
  exists k, n, c, ds, m. exact H.
Qed.

Section Passo.
Variable str_de_float : PyFloat -> string.

(** A turn of the loop leaves the store as it was, or appends one item
    that points at a stored invoice. *)
Lemma processar_linha_passo (cols : Colunas) (columns : list string)
      (d : Db) (p e : nat) (row : list PyVal) (d' : Db) (p' e' : nat) :
  processar_linha str_de_float cols columns (d, p, e) row = (d', p', e') ->
  (d' = d /\ p' = p /\ (e' = e \/ e' = S e)) \/
  (exists item,
      d' = {| notas_fiscais := notas_fiscais d;
              itens_nota_fiscal := (itens_nota_fiscal d ++ [item])%list;
              conectavel := conectavel d |} /\
      item_ligado d item /\ p' = S p /\ e' = e).
Proof.
  unfold processar_linha.
  destruct (isna _ || _); [intros [= <- <- <-]; left; auto|].
  destruct (is_empty _); [intros [= <- <- <-]; left; auto|].
  destruct (buscar_nota_fiscal_por_numero d _) as [[|k]|] eqn:Eb;
    try (intros [= <- <- <-]; left; auto).
  apply buscar_achada in Eb. destruct Eb as (Hc & n & Hn & _).
  destruct (is_empty _ && is_empty _);
    [intros [= <- <- <-]; left; auto|].
  unfold salvar_item_nota_fiscal. rewrite Hc.
  intros [= <- <- <-]. right. eexists. split; [reflexivity|].
  split; [|auto].
  unfold item_ligado. exists k, n. do 3 eexists.
  split; [reflexivity|]. split; [exact Hn|].
  split; [reflexivity|]. split; [reflexivity|]. split; [reflexivity|].
  split; [apply length_substring_le|].
  split; [|apply length_substring_le].
  change 1000%nat with (10 * 100)%nat. apply length_substring_le.
Qed.

Lemma processar_linhas_de (cols : Colunas) (columns : list string)
      (rows : list (list PyVal)) :
  forall d0 p0 e0 d' p' e',
    fold_left (processar_linha str_de_float cols columns) rows
      (d0, p0, e0) = (d', p', e') ->
    notas_fiscais d' = notas_fiscais d0 /\
    conectavel d' = conectavel d0 /\
    exists novos,
      itens_nota_fiscal d' = (itens_nota_fiscal d0 ++ novos)%list /\
      p' = (p0 + List.length novos)%nat /\
      (p' + e' <= p0 + e0 + List.length rows)%nat /\
      Forall (item_ligado d0) novos.
Proof.
  induction rows as [|row rows IH]; intros d0 p0 e0 d' p' e' H.
  - cbn [fold_left] in H. injection H as <- <- <-.
    split; [reflexivity|]. split; [reflexivity|].
    exists []. rewrite app_nil_r. cbn [List.length].
    split; [reflexivity|]. split; [lia|]. split; [lia|constructor].
  - cbn [fold_left] in H.
    destruct (processar_linha str_de_float cols columns (d0, p0, e0) row)
      as [[d1 p1] e1] eqn:E1.
    apply IH in H.
    destruct H as (Hn & Hc & novos & Hi & Hp & Hpe & Hl).
    apply processar_linha_passo in E1.
    destruct E1 as [(-> & -> & He)|(item & -> & Hit & -> & ->)].
    + split; [exact Hn|]. split; [exact Hc|].
      exists novos. split; [exact Hi|]. split; [exact Hp|].
      split; [cbn [List.length]; lia|exact Hl].
    + cbn [notas_fiscais conectavel itens_nota_fiscal] in *.
      split; [exact Hn|]. split; [exact Hc|].
      exists (item :: novos). rewrite Hi, <- app_assoc.
      split; [reflexivity|]. cbn [List.length].
      split; [lia|]. split; [lia|].
      constructor; [exact Hit|].
      eapply Forall_impl; [|exact Hl].
      intros it. apply item_ligado_mesmas_notas. reflexivity.
Qed.
End Passo.

End ItensProps.

Section ItemsLoop.
Import PyStr PyNum Modelo Dashboard ItensCsv.

Variable str_de_float : PyFloat -> string.

(** X21.  The row loop of the items role never touches the invoices: the
    invoice table and the connection are what they were, the item table
    only grows at its end, by exactly as many items as the loop counts as
    processed, and the rows counted as processed or in error are at most
    the rows of the file (a row without an invoice number is counted as
    neither). *)
Theorem items_loop_only_appends_items
        (cols : Colunas) (df : DataFrame) (d d' : Db) (p e : nat) :
  processar_linhas str_de_float cols df d = (d', p, e) ->
  notas_fiscais d' = notas_fiscais d /\
  conectavel d' = conectavel d /\
  (exists novos,
      itens_nota_fiscal d' = (itens_nota_fiscal d ++ novos)%list /\
      List.length novos = p) /\
  (p + e <= List.length (linhas df))%nat.
Proof.
  intros H. apply ItensProps.processar_linhas_de in H.
  destruct H as (Hn & Hc & novos & Hi & Hp & Hpe & _).
  split; [exact Hn|]. split; [exact Hc|].
  split; [exists novos; split; [exact Hi|lia]|lia].
Qed.

(** X22.  Every item the row loop stores carries the id of an invoice
    that is in the store (no item is left without its invoice), and its
    code, description and NCM have at most 100, 1000 and 20 characters. *)
Theorem stored_items_point_at_stored_invoices
        (cols : Colunas) (df : DataFrame) (d d' : Db) (p e : nat)
        (novos : list Item) :
  processar_linhas str_de_float cols df d = (d', p, e) ->
  itens_nota_fiscal d' = (itens_nota_fiscal d ++ novos)%list ->
  Forall (item_ligado d) novos.
Proof.
  intros H Hi. apply ItensProps.processar_linhas_de in H.
  destruct H as (_ & _ & novos' & Hi' & _ & _ & Hl).
  rewrite Hi' in Hi. apply app_inv_head in Hi. now subst novos'.
Qed.
End ItemsLoop.

Section ItemsLoopWitnesses.
Import PyStr PyNum Modelo Dashboard ItensCsv Exemplos2.

Lemma items_loop_only_appends_items_witness :
  (1 + 1 <= List.length (linhas df_itens))%nat.
Proof.
  refine (proj2 (proj2 (proj2
            (items_loop_only_appends_items (fun _ => EmptyString)
               colunas_exemplo df_itens db_uma_nota
               (fst (fst (processar_linhas (fun _ => EmptyString)
                            colunas_exemplo df_itens db_uma_nota)))
               1 1 _)))).
  vm_compute. reflexivity.
Defined.

Lemma stored_items_point_at_stored_invoices_witness :
  Forall (item_ligado db_uma_nota)
    (itens_nota_fiscal
       (fst (fst (processar_linhas (fun _ => EmptyString) colunas_exemplo
                    df_itens db_uma_nota)))).
Proof.
  refine (stored_items_point_at_stored_invoices (fun _ => EmptyString)
            colunas_exemplo df_itens db_uma_nota _ 1 1 _ _ _).
  - vm_compute. reflexivity.
  - reflexivity.
Defined.
End ItemsLoopWitnesses.
Module RelatorioProps.
Import PyStr PyNum Modelo Dashboard Relatorio ZipProps.

Lemma nomes_anotar r m n l : nomes (anotar r m n l) = (nomes r ++ [n])%list.
Proof. unfold nomes, anotar. cbn [detalhes]. now rewrite map_app. Qed.

Section Envio.
Variable namelist : list Byte.byte -> option (list string).
Variable ler_do_zip : list Byte.byte -> string -> option (list Byte.byte).
Variable processar_pdf_upload :
  list Byte.byte -> string -> option NotaFiscal.
Variable processar_xml_upload :
  list Byte.byte -> string -> option NotaFiscal.
Variable processar_csv_upload :
  list Byte.byte -> string -> Estado -> option (list NotaFiscal) * Estado.
Variable salvar_nota_fiscal : NotaFiscal -> Db -> bool * Db.

Local Abbreviation salvar_uma := (salvar_uma salvar_nota_fiscal).
Local Abbreviation concluir := (concluir salvar_nota_fiscal).
Local Abbreviation entrada_do_zip :=
  (entrada_do_zip ler_do_zip processar_pdf_upload processar_xml_upload
     processar_csv_upload salvar_nota_fiscal).

Lemma salvar_uma_detalhes (l : list NotaFiscal) :
  forall st r,
    detalhes (snd (fold_left salvar_uma l (st, r))) = detalhes r.
Proof.
  induction l as [|n l IH]; intros st r; [reflexivity|].
  cbn [fold_left].
  destruct (salvar_uma (st, r) n) as [st1 r1] eqn:E.
  rewrite IH. unfold Relatorio.salvar_uma in E.
  destruct (salvar_nota_fiscal n (db st)) as [[|] d'];
    injection E as <- <-; reflexivity.
Qed.

Lemma concluir_nomes (file_name : string) (nf : option NotaFiscal)
      (st : Estado) (r : Resultados) :
  nomes (snd (concluir file_name nf (st, r)))
  = (nomes r ++ [file_name])%list.
Proof.
  unfold Relatorio.concluir. destruct nf as [n|].
  - destruct (salvar_nota_fiscal n (db st)) as [[|] d']; cbn [snd];
      now rewrite nomes_anotar.
  - cbn [snd]. now rewrite nomes_anotar.
Qed.

(** A supported entry adds one line with its name. *)
Lemma entrada_do_zip_nomes (zip : list Byte.byte) (t : Tipo)
      (file_name : string) (st : Estado) (r : Resultados) :
  nomes (snd (entrada_do_zip zip t file_name (st, r)))
  = (nomes r ++ [file_name])%list.
Proof.
  unfold Relatorio.entrada_do_zip.
  destruct (ler_do_zip zip file_name) as [c|];
    [|cbn [snd]; now rewrite nomes_anotar].
  destruct t; try apply concluir_nomes.
  destruct (processar_csv_upload c file_name st) as [[[|n l]|] st1].
  - destruct (e_itens (lower file_name)); cbn [snd];
      now rewrite nomes_anotar.
  - pose proof (salvar_uma_detalhes (n :: l) st1 r) as Hd.
    destruct (fold_left salvar_uma (n :: l) (st1, r)) as [st2 r2].
    cbn [snd] in *. rewrite nomes_anotar. unfold nomes.
    now rewrite Hd.
  - cbn [snd]. now rewrite nomes_anotar.
Qed.

Lemma percorrer_nomes (zip : list Byte.byte) (l : list string) :
  Forall (fun n => ends_with_char "/" n = false) l ->
  forall acc,
    nomes (snd (fold_left
                  (visitar (Estado * Resultados) (entrada_do_zip zip)
                     entrada_nao_suportada) l acc))
    = (nomes (snd acc) ++ l)%list.
Proof.
  induction 1 as [|n l Hn Hl IH]; intros [st r].
  - cbn [fold_left]. now rewrite app_nil_r.
  - cbn [fold_left]. rewrite IH. unfold visitar. rewrite Hn.
    destruct (tipo_de n) as [t|].
    + rewrite entrada_do_zip_nomes, <- app_assoc. reflexivity.
    + unfold entrada_nao_suportada. cbn [snd].
      rewrite nomes_anotar, <- app_assoc. reflexivity.
Qed.

(** Unsupported entries neither count nor touch the state. *)
Lemma percorrer_nao_suportados (zip : list Byte.byte) (l : list string) :
  Forall (fun n => tipo_de n = None) l ->
  forall st r,
    fold_left (visitar (Estado * Resultados) (entrada_do_zip zip)
                 entrada_nao_suportada) l (st, r)
    = (st, {| processados := processados r; erros := erros r;
              detalhes :=
                (detalhes r
                 ++ map (fun n => (Atencao, n, TipoNaoSuportado))
                      (filter (fun n => negb (ends_with_char "/" n)) l))%list
           |}).
Proof.
  induction 1 as [|n l Hn Hl IH]; intros st r.
  - cbn [fold_left filter map]. rewrite app_nil_r. now destruct r.
  - cbn [fold_left filter]. unfold visitar at 2. rewrite Hn.
    destruct (ends_with_char "/" n); cbn [negb].
    + apply IH.
    + unfold entrada_nao_suportada. rewrite IH.
      unfold anotar. cbn [processados erros detalhes map].
      now rewrite <- app_assoc.
Qed.
End Envio.

Lemma arquivos_ordenados_sem_diretorios (l : list string) :
  Forall (fun n => ends_with_char "/" n = false) (arquivos_ordenados l).
Proof.
  rewrite arquivos_ordenados_filtros, !Forall_app.
  split; [|split]; apply Forall_forall; intros n Hn;
    exact (filtro_nao_diretorio _ _ _ Hn).
Qed.

Lemma arquivos_ordenados_permutacao (l : list string) :
  Permutation (arquivos l) (arquivos_ordenados l).
Proof.
  rewrite arquivos_ordenados_filtros. apply tres_grupos_permutacao.
Qed.

Section ItensNoCsv.
Variable decodificar : list Byte.byte -> string.
Variable read_csv : string -> ascii -> option DataFrame.
Variable _processar_csv_cabecalho :
  DataFrame -> string -> Estado -> option (list NotaFiscal) * Estado.
Variable _processar_csv_tradicional :
  DataFrame -> string -> Estado -> option (list NotaFiscal) * Estado.
Variable faltantes_itens : DataFrame -> list string.
Variable processar_linhas_itens : DataFrame -> Db -> Db * nat * nat.

(** The items role never returns an invoice. *)
Lemma itens_sem_notas (file_content : list Byte.byte) (filename : string)
      (st : Estado) :
  papel filename = Itens ->
  fst (processar_csv_upload decodificar read_csv _processar_csv_cabecalho
         _processar_csv_tradicional faltantes_itens processar_linhas_itens
         file_content filename st) = None \/
  fst (processar_csv_upload decodificar read_csv _processar_csv_cabecalho
         _processar_csv_tradicional faltantes_itens processar_linhas_itens
         file_content filename st) = Some [].
Proof.
  intros Hp. unfold processar_csv_upload. rewrite Hp.
  destruct (tentar_delimitadores read_csv _ _ _) as [df|];
    [|left; reflexivity].
  destruct (df_empty df); [left; reflexivity|].
  destruct (contar_notas (db st)) as [k|]; [|right; reflexivity].
  destruct (k =? 0)%nat; [right; reflexivity|].
  unfold _processar_csv_itens.
  destruct (faltantes_itens df); [|right; reflexivity].
  destruct (contar_notas _) as [k'|].
  - destruct (k' =? 0)%nat; [right; reflexivity|].
    destruct (processar_linhas_itens df _) as [[d' p] e].
    right. reflexivity.
  - destruct (processar_linhas_itens df _) as [[d' p] e].
    right. reflexivity.
Qed.
End ItensNoCsv.

End RelatorioProps.

Section Reports.
Import PyStr PyNum Modelo Dashboard Relatorio.

Variable namelist : list Byte.byte -> option (list string).
Variable ler_do_zip : list Byte.byte -> string -> option (list Byte.byte).
Variable processar_pdf_upload : list Byte.byte -> string -> option NotaFiscal.
Variable processar_xml_upload : list Byte.byte -> string -> option NotaFiscal.
Variable salvar_nota_fiscal : NotaFiscal -> Db -> bool * Db.

Section AnyCsv.
Variable processar_csv_upload :
  list Byte.byte -> string -> Estado -> option (list NotaFiscal) * Estado.

Local Abbreviation processar_zip_upload :=
  (processar_zip_upload namelist ler_do_zip processar_pdf_upload
     processar_xml_upload processar_csv_upload salvar_nota_fiscal).

(** X23.  The report of an archive has exactly one line for every entry
    that is not a directory, in the order of processing, whatever the
    handlers and the store do. *)
Theorem zip_report_has_one_line_per_entry
        (file_content : list Byte.byte) (filename : string)
        (st : Estado) (file_list : list string) :
  namelist file_content = Some file_list ->
  nomes (snd (processar_zip_upload file_content filename st))
  = arquivos_ordenados file_list /\
  Permutation (arquivos file_list)
    (nomes (snd (processar_zip_upload file_content filename st))).
Proof.
  intros Hn.
  assert (nomes (snd (processar_zip_upload file_content filename st))
          = arquivos_ordenados file_list) as ->.
  { unfold Relatorio.processar_zip_upload, percorrer_zip. rewrite Hn.
    rewrite RelatorioProps.percorrer_nomes
      by apply RelatorioProps.arquivos_ordenados_sem_diretorios.
    reflexivity. }
  split; [reflexivity|].
  apply RelatorioProps.arquivos_ordenados_permutacao.
Qed.

(** X24.  An archive in which no entry is a PDF, XML or CSV file leaves
    the state as it was and counts nothing, neither as processed nor as
    an error: every entry only gets a warning line. *)
Theorem zip_of_unsupported_entries_counts_nothing
        (file_content : list Byte.byte) (filename : string)
        (st : Estado) (file_list : list string) :
  namelist file_content = Some file_list ->
  Forall (fun n => tipo_de n = None) file_list ->
  processar_zip_upload file_content filename st
  = (st, {| processados := 0; erros := 0;
            detalhes := map (fun n => (Atencao, n, TipoNaoSuportado))
                          (arquivos_ordenados file_list) |}).
Proof.
  intros Hn Hall.
  unfold Relatorio.processar_zip_upload, percorrer_zip. rewrite Hn.
  assert (Forall (fun n => tipo_de n = None)
                 (arquivos_ordenados file_list)) as Ho.
  { apply Forall_forall. intros n Hin.
    rewrite Forall_forall in Hall. apply Hall.
    apply (Permutation_in n
             (Permutation_sym
                (RelatorioProps.arquivos_ordenados_permutacao file_list)))
      in Hin.
    unfold arquivos in Hin. apply filter_In in Hin. tauto. }
  rewrite (RelatorioProps.percorrer_nao_suportados ler_do_zip
             processar_pdf_upload processar_xml_upload
             processar_csv_upload salvar_nota_fiscal file_content
             (arquivos_ordenados file_list) Ho st vazio).
  cbn [vazio processados erros detalhes app].
  do 3 f_equal.
  pose proof (RelatorioProps.arquivos_ordenados_sem_diretorios file_list)
    as Hd.
  induction Hd as [|n l Hnd Hl IH]; [reflexivity|].
  cbn [filter]. rewrite Hnd. cbn [negb]. f_equal.
  apply IH. now inversion Ho.
Qed.
End AnyCsv.

Variable decodificar : list Byte.byte -> string.
Variable read_csv : string -> ascii -> option DataFrame.
Variable _processar_csv_cabecalho :
  DataFrame -> string -> Estado -> option (list NotaFiscal) * Estado.
Variable _processar_csv_tradicional :
  DataFrame -> string -> Estado -> option (list NotaFiscal) * Estado.
Variable faltantes_itens : DataFrame -> list string.
Variable processar_linhas_itens : DataFrame -> Db -> Db * nat * nat.

Local Abbreviation csv_upload :=
  (processar_csv_upload decodificar read_csv _processar_csv_cabecalho
     _processar_csv_tradicional faltantes_itens processar_linhas_itens).

(** X25.  Uploaded directly, a CSV file with the items role is always
    reported as an error ([Erro no processamento]), whatever the row loop
    stored: the role returns no invoice, and the upload loop reads that as
    a failure. *)
Theorem direct_upload_reports_items_file_as_error
        (name : string) (file_content : list Byte.byte)
        (st : Estado) (r : Resultados) :
  ultimo_segmento "." (lower name) = "csv" ->
  papel name = Itens ->
  carregar_arquivo namelist ler_do_zip processar_pdf_upload
    processar_xml_upload csv_upload salvar_nota_fiscal (st, r)
    (name, file_content)
  = (snd (csv_upload file_content name st),
     anotar (mais_erro r) Errado name ErroNoProcessamento).
Proof.
  intros He Hp. unfold carregar_arquivo. rewrite He.
  cbn [String.eqb Ascii.eqb Bool.eqb andb].
  change (("csv" =? "pdf")%string) with false.
  change (("csv" =? "xml")%string) with false.
  change (("csv" =? "csv")%string) with true. cbv iota.
  destruct (RelatorioProps.itens_sem_notas decodificar read_csv
              _processar_csv_cabecalho _processar_csv_tradicional
              faltantes_itens processar_linhas_itens file_content name st Hp)
    as [H|H];
    destruct (csv_upload file_content name st) as [o st1];
    cbn [fst snd] in *; subst o; reflexivity.
Qed.

(** X26.  Inside an archive, a CSV file with the items role that could be
    read as a table is always counted as processed and reported as a
    success, also when the guard blocked it or no row was stored. *)
Theorem zip_reports_items_file_as_success
        (zip : list Byte.byte) (name : string)
        (extracted_content : list Byte.byte)
        (st : Estado) (r : Resultados) :
  papel name = Itens ->
  ler_do_zip zip name = Some extracted_content ->
  fst (csv_upload extracted_content name st) <> None ->
  entrada_do_zip ler_do_zip processar_pdf_upload processar_xml_upload
    csv_upload salvar_nota_fiscal zip Csv name (st, r)
  = (snd (csv_upload extracted_content name st),
     anotar (mais_processado r) Certo name ItensProcessadosComSucesso).
Proof.
  intros Hp Hl Hok. unfold entrada_do_zip. rewrite Hl.
  assert (e_itens (lower name) = true) as Hi.
  { unfold papel in Hp. destruct (e_cabecalho (lower name));
      [discriminate Hp|].
    destruct (e_itens (lower name)); [reflexivity|discriminate Hp]. }
  rewrite Hi.
  destruct (RelatorioProps.itens_sem_notas decodificar read_csv
              _processar_csv_cabecalho _processar_csv_tradicional
              faltantes_itens processar_linhas_itens extracted_content name
              st Hp) as [H|H];
    destruct (csv_upload extracted_content name st) as [o st1];
    cbn [fst snd] in *; subst o; [contradiction|reflexivity].
Qed.
End Reports.

Section ReportsWitnesses.
Import PyStr PyNum Modelo Dashboard Relatorio Exemplos Exemplos2.

Lemma zip_report_has_one_line_per_entry_witness :
  nomes (snd (processar_zip_upload
                (fun _ => Some ["notas/"; "itens.csv"; "leia.txt"])
                (fun _ _ => Some []) (fun _ _ => None) (fun _ _ => None)
                (fun _ _ st => (Some [], st)) salvar_no_fim
                [] "lote.zip" estado_vazio))
  = ["leia.txt"; "itens.csv"].
Proof.
  refine (proj1 (zip_report_has_one_line_per_entry
                   (fun _ => Some ["notas/"; "itens.csv"; "leia.txt"])
                   (fun _ _ => Some []) (fun _ _ => None) (fun _ _ => None)
                   salvar_no_fim (fun _ _ st => (Some [], st))
                   [] "lote.zip" estado_vazio
                   ["notas/"; "itens.csv"; "leia.txt"] _)).
  reflexivity.
Defined.

Lemma zip_of_unsupported_entries_counts_nothing_witness :
  processar_zip_upload
    (fun _ => Some ["docs/"; "leia.txt"; "foto.png"])
    (fun _ _ => Some []) (fun _ _ => None) (fun _ _ => None)
    (fun _ _ st => (Some [], st)) salvar_no_fim [] "lote.zip" estado_vazio
  = (estado_vazio,
     {| processados := 0; erros := 0;
        detalhes := [ (Atencao, "leia.txt", TipoNaoSuportado);
                      (Atencao, "foto.png", TipoNaoSuportado) ] |}).
Proof.
  refine (zip_of_unsupported_entries_counts_nothing
            (fun _ => Some ["docs/"; "leia.txt"; "foto.png"])
            (fun _ _ => Some []) (fun _ _ => None) (fun _ _ => None)
            salvar_no_fim (fun _ _ st => (Some [], st))
            [] "lote.zip" estado_vazio
            ["docs/"; "leia.txt"; "foto.png"] _ _).
  - reflexivity.
  - repeat constructor.
Defined.

Lemma direct_upload_reports_items_file_as_error_witness :
  erros (snd (carregar_arquivo (fun _ => None) (fun _ _ => None)
                (fun _ _ => None) (fun _ _ => None) csv_de_itens
                salvar_no_fim (estado_uma_nota, vazio) ("itens.csv", [])))
  = 1%nat /\
  List.length
    (itens_nota_fiscal
       (db (fst (carregar_arquivo (fun _ => None) (fun _ _ => None)
                   (fun _ _ => None) (fun _ _ => None) csv_de_itens
                   salvar_no_fim (estado_uma_nota, vazio)
                   ("itens.csv", [])))))
  = 1%nat.
Proof.
  unfold csv_de_itens.
  rewrite (direct_upload_reports_items_file_as_error
             (fun _ => None) (fun _ _ => None) (fun _ _ => None)
             (fun _ _ => None) salvar_no_fim (fun _ => EmptyString)
             (fun _ _ => Some df_itens) (fun _ _ st => (Some [], st))
             (fun _ _ st => (Some [], st)) (fun _ => [])
             (ItensCsv.processar_linhas (fun _ => EmptyString)
                colunas_exemplo)
             "itens.csv" [] estado_uma_nota vazio eq_refl eq_refl).
  split; reflexivity.
Defined.

Lemma zip_reports_items_file_as_success_witness :
  processados
    (snd (entrada_do_zip (fun _ _ => Some []) (fun _ _ => None)
            (fun _ _ => None) csv_de_itens salvar_no_fim [] Csv
            "itens.csv" (estado_vazio, vazio)))
  = 1%nat /\
  db (fst (entrada_do_zip (fun _ _ => Some []) (fun _ _ => None)
             (fun _ _ => None) csv_de_itens salvar_no_fim [] Csv
             "itens.csv" (estado_vazio, vazio)))
  = db estado_vazio.
Proof.
  unfold csv_de_itens.
  rewrite (zip_reports_items_file_as_success
             (fun _ _ => Some []) (fun _ _ => None) (fun _ _ => None)
             salvar_no_fim (fun _ => EmptyString)
             (fun _ _ => Some df_itens) (fun _ _ st => (Some [], st))
             (fun _ _ st => (Some [], st)) (fun _ => [])
             (ItensCsv.processar_linhas (fun _ => EmptyString)
                colunas_exemplo)
             [] "itens.csv" [] estado_vazio vazio eq_refl eq_refl
             ltac:(vm_compute; discriminate)).
  split; reflexivity.
Defined.
End ReportsWitnesses.
Module SalvarProps.
Import PyStr PyNum Modelo Dashboard DatabaseManager XmlProps.

Lemma ja_existe_nao (d : Db) (chave : string) :
  ja_existe d chave = false -> ~ In chave (chaves d).
Proof.
  unfold ja_existe. intros H Hin.
  assert (existsb (String.eqb chave) (chaves d) = true) as Ht.
  { apply existsb_exists. exists chave. split; [exact Hin|].
    apply String.eqb_refl. }
  rewrite Ht in H. discriminate H.
Qed.

Lemma ja_existe_sim (d : Db) (chave : string) :
  In chave (chaves d) -> ja_existe d chave = true.
Proof.
  intros Hin. apply existsb_exists. exists chave.
  split; [exact Hin|apply String.eqb_refl].
Qed.

Section Salvar.
Variable carimbo_numero : string.
Variable carimbo_chave : string.
Variable agora : DateTime.
Variable decimal_de : PyVal -> option PyVal.
Variable banco_aceita : NotaFiscal -> Db -> bool.

Local Abbreviation salvar :=
  (salvar_nota_fiscal carimbo_numero carimbo_chave agora decimal_de
     banco_aceita).
Local Abbreviation chave_de :=
  (chave_normalizada carimbo_numero carimbo_chave).

Lemma chave_normalizada_curta (nota : NotaFiscal) :
  (String.length (chave_de nota) <= 60)%nat.
Proof.
  unfold chave_normalizada.
  match goal with
  | |- context [ (60 <? ?n)%nat ] => destruct (Nat.ltb_spec 60 n)
  end; [apply length_substring_le|assumption].
Qed.

(** The ways the method ends without raising. *)
Lemma salvar_casos (nota : NotaFiscal) (d d' : Db) (b : bool) :
  salvar nota d = Ok (b, d') ->
  (b = false /\ d' = d) \/
  (b = true /\ conectavel d = true /\
   ja_existe d (chave_de nota) = false /\
   exists linha novos,
     chave_acesso linha = Some (chave_de nota) /\
     (exists f, valor_total linha = VFloat f) /\
     itens_para_banco decimal_de (S (List.length (notas_fiscais d)))
       (itens nota) = Some novos /\
     d' = {| notas_fiscais := (notas_fiscais d ++ [linha])%list;
             itens_nota_fiscal := (itens_nota_fiscal d ++ novos)%list;
             conectavel := conectavel d |}).
Proof.
  unfold salvar_nota_fiscal.
  destruct (conectavel d) eqn:Ec; cbn [negb];
    [|intros [= <- <-]; left; auto].
  destruct (ja_existe d (chave_de nota)) eqn:Ej;
    [intros [= <- <-]; left; auto|].
  destruct (float_de (if truthy (valor_total nota) then _ else _))
    as [vt|]; cbn [bind]; [|discriminate].
  destruct (float_de (valor_icms nota)) as [vi|]; cbn [bind];
    [|discriminate].
  destruct (float_de (valor_ipi nota)) as [vp|]; cbn [bind];
    [|discriminate].
  destruct (float_de (valor_pis nota)) as [vs|]; cbn [bind];
    [|discriminate].
  destruct (float_de (valor_cofins nota)) as [vc|]; cbn [bind];
    [|discriminate].
  destruct (banco_aceita _ d); [|intros [= <- <-]; left; auto].
  destruct (itens_para_banco decimal_de _ (itens nota)) as [novos|]
    eqn:Ei; [|intros [= <- <-]; left; auto].
  intros [= <- <-]. right.
  split; [reflexivity|]. split; [reflexivity|]. split; [reflexivity|].
  match goal with
  | |- context [ (notas_fiscais d ++ [?l])%list ] => exists l
  end.
  exists novos.
  split; [reflexivity|]. split; [eexists; reflexivity|].
  split; reflexivity.
Qed.

Lemma chaves_depois (d : Db) (linha : NotaFiscal) (novos : list Item)
      (k : string) :
  chave_acesso linha = Some k ->
  chaves {| notas_fiscais := (notas_fiscais d ++ [linha])%list;
            itens_nota_fiscal := (itens_nota_fiscal d ++ novos)%list;
            conectavel := conectavel d |}
  = (chaves d ++ [k])%list.
Proof.
  intros Hk. unfold chaves. cbn [notas_fiscais].
  rewrite flat_map_app. cbn [flat_map]. rewrite Hk. reflexivity.
Qed.
End Salvar.

End SalvarProps.

Section Store.
Import PyStr PyNum Modelo Dashboard DatabaseManager Relatorio.

Variable carimbo_numero : string.
Variable carimbo_chave : string.
Variable agora : DateTime.
Variable decimal_de : PyVal -> option PyVal.
Variable banco_aceita : NotaFiscal -> Db -> bool.

Local Abbreviation salvar :=
  (salvar_nota_fiscal carimbo_numero carimbo_chave agora decimal_de
     banco_aceita).
Local Abbreviation chave_de :=
  (chave_normalizada carimbo_numero carimbo_chave).

(** X27.  Storing keeps the access keys of the store distinct.  A call
    that answers [False] leaves the store as it was; a call that answers
    [True] adds one invoice at the end of the table, under a key of at
    most 60 characters that was not in the store, with a float as its
    total, and the rows of the items of the invoice at the end of the item
    table, each with the id of the new invoice. *)
Theorem store_keeps_access_keys_distinct
        (nota : NotaFiscal) (d d' : Db) (b : bool) :
  NoDup (chaves d) ->
  salvar nota d = Ok (b, d') ->
  NoDup (chaves d') /\
  (b = false -> d' = d) /\
  (b = true ->
   (String.length (chave_de nota) <= 60)%nat /\
   ~ In (chave_de nota) (chaves d) /\
   chaves d' = (chaves d ++ [chave_de nota])%list /\
   exists linha novos,
     notas_fiscais d' = (notas_fiscais d ++ [linha])%list /\
     (exists f, valor_total linha = VFloat f) /\
     itens_nota_fiscal d' = (itens_nota_fiscal d ++ novos)%list /\
     List.length novos = List.length (itens nota) /\
     Forall (fun item =>
               dict_get item "nota_fiscal_id"
               = Some (VInt (Z.of_nat (List.length (notas_fiscais d'))))) novos).
Proof.
  intros Hnd H.
  apply SalvarProps.salvar_casos in H.
  destruct H as [[-> ->]|(-> & Hc & Hj & linha & novos & Hk & Hf & Hi & ->)].
  - split; [exact Hnd|]. split; [reflexivity|discriminate].
  - apply SalvarProps.ja_existe_nao in Hj.
    rewrite (SalvarProps.chaves_depois d linha novos _ Hk).
    split.
    { apply NoDup_rev in Hnd.
      rewrite <- (rev_involutive (chaves d ++ [chave_de nota])).
      apply NoDup_rev. rewrite rev_app_distr. cbn [rev app].
      constructor; [|exact Hnd]. now rewrite <- in_rev. }
    split; [discriminate|]. intros _.
    split; [apply SalvarProps.chave_normalizada_curta|].
    split; [exact Hj|]. split; [reflexivity|].
    exists linha, novos. cbn [notas_fiscais itens_nota_fiscal].
    split; [reflexivity|]. split; [exact Hf|]. split; [reflexivity|].
    rewrite length_app. cbn [List.length].
    replace (List.length (notas_fiscais d) + 1)%nat
      with (S (List.length (notas_fiscais d))) by lia.
    revert novos Hi. clear.
    induction (itens nota) as [|item r IH]; intros novos Hi.
    + injection Hi as <-. split; [reflexivity|constructor].
    + cbn [itens_para_banco] in Hi.
      destruct (item_para_banco decimal_de _ item) as [x|] eqn:Ex;
        [|discriminate Hi].
      destruct (itens_para_banco decimal_de _ r) as [xs|];
        [|discriminate Hi].
      injection Hi as <-. destruct (IH xs eq_refl) as [Hl Hall].
      split; [cbn [List.length]; now rewrite Hl|].
      constructor; [|exact Hall].
      unfold item_para_banco in Ex.
      destruct (decimal_de _); [|discriminate Ex].
      destruct (decimal_de _); [|discriminate Ex].
      destruct (decimal_de _); [|discriminate Ex].
      injection Ex as <-. reflexivity.
Qed.

(** X28.  Storing the same invoice again, with the same readings of the
    clock, is refused and changes nothing: the first call put its key in
    the store. *)
Theorem second_store_of_an_invoice_is_refused
        (nota : NotaFiscal) (d d' : Db) :
  salvar nota d = Ok (true, d') ->
  salvar nota d' = Ok (false, d').
Proof.
  intros H. apply SalvarProps.salvar_casos in H.
  destruct H as [[H _]|(_ & Hc & _ & linha & novos & Hk & _ & _ & ->)];
    [discriminate H|].
  pose proof (SalvarProps.chaves_depois d linha novos _ Hk) as Hch.
  unfold salvar_nota_fiscal. cbn [conectavel]. rewrite Hc at 1. cbn [negb].
  rewrite SalvarProps.ja_existe_sim; [reflexivity|].
  rewrite Hch. apply in_or_app. right. left. reflexivity.
Qed.

(** X29.  On the upload path nothing coerces the total: an extracted
    record whose total is a non-empty text that [float] refuses (a total
    written with a decimal comma, for instance) is reported as
    [Erro ao salvar no banco], counted as an error, and the state is left
    as it was. *)
Theorem upload_cannot_store_a_total_float_refuses
        (file_name : string) (nota : NotaFiscal) (s : string)
        (st : Estado) (r : Resultados) :
  valor_total nota = VStr s ->
  is_empty s = false ->
  py_float s = None ->
  concluir (salvar_no_painel carimbo_numero carimbo_chave agora decimal_de
              banco_aceita) file_name (Some nota) (st, r)
  = (st, anotar (mais_erro r) Errado file_name ErroAoSalvarNoBanco).
Proof.
  intros Hv Hs Hf. unfold concluir, salvar_no_painel, salvar_nota_fiscal.
  assert (com_db st (db st) = st) as Hst by (destruct st; reflexivity).
  destruct (conectavel (db st)); cbn [negb]; [|now rewrite Hst].
  destruct (ja_existe (db st) (chave_de nota)); [now rewrite Hst|].
  rewrite Hv. cbn [truthy]. rewrite Hs. cbn [negb float_de].
  rewrite Hf. cbn [bind]. now rewrite Hst.
Qed.
End Store.

Section StoreWitnesses.
Import PyStr PyNum Modelo Dashboard DatabaseManager Relatorio Exemplos
       Exemplos2.

Lemma store_keeps_access_keys_distinct_witness :
  NoDup (chaves (snd (salvar_no_painel "20240101120000" "20240101120000"
                        2000 Some (fun _ _ => true) nota_valida db_vazio))).
Proof.
  refine (proj1 (store_keeps_access_keys_distinct
                   "20240101120000" "20240101120000" 2000 Some
                   (fun _ _ => true) nota_valida db_vazio _ true _ _)).
  - constructor.
  - vm_compute. reflexivity.
Defined.

Lemma second_store_of_an_invoice_is_refused_witness :
  fst (salvar_no_painel "20240101120000" "20240101120000" 2000 Some
         (fun _ _ => true) nota_valida
         (snd (salvar_no_painel "20240101120000" "20240101120000" 2000 Some
                 (fun _ _ => true) nota_valida db_vazio)))
  = false.
Proof.
  unfold salvar_no_painel at 1.
  rewrite (second_store_of_an_invoice_is_refused
             "20240101120000" "20240101120000" 2000 Some (fun _ _ => true)
             nota_valida db_vazio
             (snd (salvar_no_painel "20240101120000" "20240101120000" 2000
                     Some (fun _ _ => true) nota_valida db_vazio)));
    [reflexivity|].
  vm_compute. reflexivity.
Defined.

Lemma upload_cannot_store_a_total_float_refuses_witness :
  concluir (salvar_no_painel "20240101120000" "20240101120000" 2000 Some
              (fun _ _ => true))
    "danfe.pdf" (Some (set_valor_total nota_valida (VStr "1.234,56")))
    (estado_vazio, vazio)
  = (estado_vazio,
     anotar (mais_erro vazio) Errado "danfe.pdf" ErroAoSalvarNoBanco).
Proof.
  refine (upload_cannot_store_a_total_float_refuses
            "20240101120000" "20240101120000" 2000 Some (fun _ _ => true)
            "danfe.pdf" (set_valor_total nota_valida (VStr "1.234,56"))
            "1.234,56" estado_vazio vazio _ _ _);
    reflexivity.
Defined.
End StoreWitnesses.
Module EspacoProps.
Import PyStr TextSanitizer.

Lemma colapsar_espacos_unicos (s : string) :
  forall b, espacos_unicos b (colapsar_de b s) = true.
Proof.
  induction s as [|c r IH]; intros b; [reflexivity|].
  cbn [colapsar_de]. destruct (is_space c) eqn:Ec.
  - destruct b; [apply IH|].
    cbn [espacos_unicos].
    change (is_space " ") with true. cbv iota.
    rewrite IH. reflexivity.
  - cbn [espacos_unicos]. rewrite Ec. apply IH.
Qed.

Lemma lstrip_espacos_unicos (s : string) :
  forall b, espacos_unicos b s = true ->
            espacos_unicos false (lstrip s) = true.
Proof.
  induction s as [|c r IH]; intros b H; [reflexivity|].
  cbn [lstrip]. cbn [espacos_unicos] in H.
  destruct (is_space c) eqn:Ec.
  - apply andb_true_iff in H. destruct H as [_ H]. exact (IH true H).
  - cbn [espacos_unicos]. rewrite Ec. exact H.
Qed.

Lemma lstrip_inicio (s : string) :
  match lstrip s with
  | EmptyString => True
  | String c _ => is_space c = false
  end.
Proof.
  induction s as [|c r IH]; [exact I|].
  cbn [lstrip]. destruct (is_space c) eqn:Ec; [exact IH|exact Ec].
Qed.

Lemma rstrip_inicio (c : ascii) (r : string) :
  rstrip (String c r) = EmptyString \/
  exists t, rstrip (String c r) = String c t.
Proof.
  cbn [rstrip]. destruct (rstrip r) as [|d t].
  - destruct (is_space c); [left; reflexivity|right; eauto].
  - right. eauto.
Qed.

Lemma rstrip_espacos_simples (s : string) :
  forall b, espacos_unicos b s = true ->
            rstrip s = EmptyString \/ espacos_simples b (rstrip s) = true.
Proof.
  induction s as [|c r IH]; intros b H; [left; reflexivity|].
  cbn [espacos_unicos] in H. cbn [rstrip].
  destruct (rstrip r) as [|d t] eqn:Er.
  - destruct (is_space c) eqn:Ec; [left; reflexivity|].
    right. cbn [espacos_simples]. rewrite Ec. reflexivity.
  - right. cbn [espacos_simples]. fold espacos_simples.
    destruct (is_space c) eqn:Ec.
    + apply andb_true_iff in H. destruct H as [H1 H2]. rewrite H1.
      destruct (IH true H2) as [E|E]; [discriminate E|exact E].
    + destruct (IH false H) as [E|E]; [discriminate E|exact E].
Qed.

Lemma strip_colapsar_normalizado (v : string) :
  normalizado (strip (colapsar_espacos v)) = true.
Proof.
  unfold strip, colapsar_espacos.
  pose proof (lstrip_espacos_unicos _ false
                (colapsar_espacos_unicos v false)) as Hu.
  pose proof (lstrip_inicio (colapsar_de false v)) as Hi.
  destruct (lstrip (colapsar_de false v)) as [|c r];
    [reflexivity|].
  destruct (rstrip_espacos_simples _ false Hu) as [E|E].
  - rewrite E. reflexivity.
  - destruct (rstrip_inicio c r) as [E0|[t E0]]; rewrite E0 in *;
      [reflexivity|].
    unfold normalizado. rewrite Hi, E. reflexivity.
Qed.

End EspacoProps.

Section TextSanitizing.
Import PyStr TextSanitizer.

Variable bleach_clean : string -> string.

(** X30.  Whatever the markup cleaner returns, the text [sanitize_string]
    gives back has its whitespace normalized: no whitespace at either end,
    and inside only single plain spaces (no tab, line break or other
    whitespace character, no two spaces in a row). *)
Theorem sanitized_text_has_normal_whitespace
        (value : option string) (max_length : nat) :
  normalizado (sanitize_string bleach_clean value max_length) = true.
Proof.
  unfold sanitize_string. destruct value as [v|]; [|reflexivity].
  destruct (is_empty v); [reflexivity|].
  apply EspacoProps.strip_colapsar_normalizado.
Qed.
End TextSanitizing.
